(** * myseo: the keyword-research client of [myseo/seo.py]

    A shallow embedding of [SimpleKeywordResearch] (construction and
    authentication, [search_keywords], [_extract_metrics], [save_results],
    [print_summary]) and the properties of it that the specification
    states, followed by the script's [main] and by the dashboard of
    [myseo/streamlit_app.py] (its connection, its research button, its
    table and the numbers it writes) with further properties of the code.

    Conventions of the embedding.
    - A Python [str] is a [string]; [str.lower] and [str.replace] act on
      the ASCII letters and on ['-'], which is all the program compares
      against. For [str.strip] a character stands for a code point below
      256.
    - A Python [int] is a [Z]; a Python [float] is an IEEE-754 binary64
      value, [spec_float] at precision 53 and maximal exponent 1024.
    - A method is a computation in a state-and-exception monad: the state
      holds what the program changes (files, requests sent, items drawn
      from the service's pager, log records), an exception leaves the
      state as it was when it was raised.
    - What the program only reads (process environment, clock, what the
      consent flow and the client library answer or raise, the behaviour
      of the remote service) is a section variable.
    - Log records are kept as structured values; the text of a message
      (number formatting, emoji) is not modelled. *)

From Stdlib Require Import ZArith List String Ascii Lia Bool QArith Permutation Sorted.
From Stdlib Require Import Floats.SpecFloat.
From Stdlib Require DecimalString DecimalN DecimalZ.
From stdpp Require Import gmap strings.

Local Open Scope Z_scope.

(* ===================================================================== *)
(** * Part I: the embedding *)
(* ===================================================================== *)

(** ** Strings *)

Definition is_upper (c : ascii) : bool :=
  (65 <=? nat_of_ascii c)%nat && (nat_of_ascii c <=? 90)%nat.

Definition lower_char (c : ascii) : ascii :=
  if is_upper c then ascii_of_nat (nat_of_ascii c + 32) else c.

(** [s.lower()] *)
Fixpoint lower (s : string) : string :=
  match s with
  | EmptyString => EmptyString
  | String c s' => String (lower_char c) (lower s')
  end.

(** The same character, or the same one of the 26 letters in its two
    cases (["A"] is 65, ["a"] is 97). *)
Definition same_letter (a b : ascii) : Prop :=
  a = b \/
  exists n : nat,
    (n < 26)%nat /\
    ((a = ascii_of_nat (65 + n) /\ b = ascii_of_nat (97 + n)) \/
     (a = ascii_of_nat (97 + n) /\ b = ascii_of_nat (65 + n))).

(** Two strings that differ at most in the case of their letters. *)
Inductive same_ignoring_case : string -> string -> Prop :=
  | sic_empty : same_ignoring_case EmptyString EmptyString
  | sic_char (a b : ascii) (s t : string) :
      same_letter a b -> same_ignoring_case s t ->
      same_ignoring_case (String a s) (String b t).

(** [s.replace('-', '')] *)
Fixpoint replace_dash (s : string) : string :=
  match s with
  | EmptyString => EmptyString
  | String c s' =>
      if Ascii.eqb c "-" then replace_dash s' else String c (replace_dash s')
  end.

(** [x in [a, b, ...]] on strings *)
Definition str_in (x : string) (l : list string) : bool :=
  existsb (String.eqb x) l.

(** Truth value of a [str]: false exactly for the empty string. *)
Definition str_truthy (s : string) : bool :=
  match s with EmptyString => false | _ => true end.

(** Truth value of the result of [os.getenv(name)]: [None] and [''] are false. *)
Definition opt_truthy (o : option string) : bool :=
  match o with Some s => str_truthy s | None => false end.

(** ** Numbers *)

Definition prec : Z := 53.
Definition emax : Z := 1024.

(** A Python float. *)
Definition float : Type := spec_float.

Definition float_zero : float := S754_zero false.
Definition float_one : float := S754_finite false 4503599627370496 (-52).

(** [float(n)] for an integer that is not rounded here: the mantissa is the
    integer itself, so that division sees the exact operands. *)
Definition int_to_float (z : Z) : float :=
  match z with
  | Z0 => S754_zero false
  | Zpos p => S754_finite false p 0
  | Zneg p => S754_finite true p 0
  end.

(** The correctly rounded (to nearest, ties to even) quotient of two
    integers. *)
Definition fdiv (a b : Z) : float :=
  SFdiv prec emax (int_to_float a) (int_to_float b).

Definition float_le (x y : float) : bool := SFleb x y.

(** A binary64 number (canonical mantissa and exponent) between [0.0] and
    [1.0]. *)
Definition unit_interval (x : float) : bool :=
  valid_binary prec emax x && float_le float_zero x && float_le x float_one.

(** Truth value of a float: false exactly for [0.0] and [-0.0]. *)
Definition float_truthy (x : float) : bool :=
  match x with S754_zero _ => false | _ => true end.

Definition is_finite (x : float) : bool :=
  match x with S754_zero _ | S754_finite _ _ _ => true | _ => false end.

Definition sign_bit (x : float) : bool :=
  match x with
  | S754_zero s | S754_finite s _ _ | S754_infinity s => s
  | S754_nan => false
  end.

(** The rational a finite float stands for, in lowest terms. *)
Definition float_value (x : float) : option Q :=
  match x with
  | S754_zero _ => Some 0%Q
  | S754_finite s m e =>
      let v := if (0 <=? e) then inject_Z (Z.pos m * 2 ^ e)
               else (Z.pos m # Pos.pow 2 (Z.to_pos (- e))) in
      Some (Qred (if s then Qopp v else v))
  | _ => None
  end.

Definition int64_range (z : Z) : Prop := - 2 ^ 63 <= z < 2 ^ 63.

Definition opt_all {A : Type} (P : A -> Prop) (o : option A) : Prop :=
  forall v, o = Some v -> P v.

(** ** Exceptions *)

(** One error of a [GoogleAdsException]: its error code and its message. *)
Definition ads_error : Type := (string * string)%type.

Inductive exn : Type :=
  | ValueError (msg : string)
  | FileNotFoundError (msg : string)
  | ZeroDivisionError
  | OverflowError
  | GoogleAdsException (errors : list ads_error)
  | OtherException (msg : string).

(** [a / b] on integers: true division. *)
Definition int_truediv (a b : Z) : exn + float :=
  if b =? 0 then inl ZeroDivisionError
  else match fdiv a b with
       | S754_infinity _ => inl OverflowError
       | r => inr r
       end.

(** [x or d] and [x if x else d] on an optional integer field: [None] and
    [0] are false. *)
Definition int_or (x : option Z) (d : Z) : Z :=
  match x with
  | Some v => if v =? 0 then d else v
  | None => d
  end.

(** [x or d] on an optional float field. *)
Definition float_or (x : option float) (d : float) : float :=
  match x with
  | Some v => if float_truthy v then v else d
  | None => d
  end.

(** ** The records of the remote service *)

Module Ads.

(** Modelled from the spec: the competition enumeration of the remote
    service, declared in the service's client library. The value [0]
    (unspecified) is the one that is false in a condition. *)
Inductive CompetitionLevel : Type :=
  UNSPECIFIED | UNKNOWN | LOW | MEDIUM | HIGH.

Definition value (c : CompetitionLevel) : Z :=
  match c with
  | UNSPECIFIED => 0 | UNKNOWN => 1 | LOW => 2 | MEDIUM => 3 | HIGH => 4
  end.

Definition name (c : CompetitionLevel) : string :=
  match c with
  | UNSPECIFIED => "UNSPECIFIED" | UNKNOWN => "UNKNOWN" | LOW => "LOW"
  | MEDIUM => "MEDIUM" | HIGH => "HIGH"
  end.

(** Modelled from the spec: the metrics of one idea record; [None] is a
    field that is missing or null. *)
Record KeywordIdeaMetrics : Type := {
  avg_monthly_searches : option Z;
  competition : option CompetitionLevel;
  competition_index : option float;
  low_top_of_page_bid_micros : option Z;
  high_top_of_page_bid_micros : option Z
}.

Record KeywordIdea : Type := {
  text : string;
  keyword_idea_metrics : KeywordIdeaMetrics
}.

(** The lazy sequence [generate_keyword_ideas] returns. Drawing the next
    item yields an idea, ends the sequence, or raises (a later page could
    not be fetched). *)
Inductive Pager : Type :=
  | Stop
  | Yield (idea : KeywordIdea) (rest : Pager)
  | Raise (e : exn).

Fixpoint pager_of (ideas : list KeywordIdea) (last : Pager) : Pager :=
  match ideas with
  | nil => last
  | idea :: ideas' => Yield idea (pager_of ideas' last)
  end.

Inductive Network : Type := GOOGLE_SEARCH | GOOGLE_SEARCH_AND_PARTNERS.

Record GenerateKeywordIdeasRequest : Type := {
  req_customer_id : string;
  req_language : string;
  req_geo_target_constants : list string;
  req_keyword_plan_network : Network;
  req_keywords : list string;
  req_include_adult_keywords : bool
}.

Definition language_constant_path (id : string) : string :=
  String.append "languageConstants/" id.

Definition geo_target_constant_path (id : string) : string :=
  String.append "geoTargetConstants/" id.

(** The bid fields are 64-bit integers on the wire. *)
Definition bids_in_range (idea : KeywordIdea) : Prop :=
  opt_all int64_range (low_top_of_page_bid_micros (keyword_idea_metrics idea)) /\
  opt_all int64_range (high_top_of_page_bid_micros (keyword_idea_metrics idea)).

(** Well-formed metrics: counts and bids that are not negative (the bids
    within the 64 bits of the wire), a competition index that is a binary64
    number between [0.0] and [1.0]. *)
Definition well_formed (idea : KeywordIdea) : Prop :=
  let m := keyword_idea_metrics idea in
  opt_all (fun v => 0 <= v) (avg_monthly_searches m) /\
  opt_all (fun v => 0 <= v < 2 ^ 63) (low_top_of_page_bid_micros m) /\
  opt_all (fun v => 0 <= v < 2 ^ 63) (high_top_of_page_bid_micros m) /\
  opt_all (fun f => unit_interval f = true) (competition_index m).

End Ads.

(** ** KeywordMetrics *)

Record KeywordMetrics : Type := {
  keyword : string;
  search_volume : Z;
  competition : string;
  competition_index : float;
  low_bid_usd : float;
  high_bid_usd : float
}.

(** A value of a dumped model, of a configuration or of a table cell. *)
Inductive pyval : Type :=
  | PyNone
  | PyStr (s : string)
  | PyInt (z : Z)
  | PyFloat (f : float)
  | PyBool (b : bool).

Definition field_names : list string :=
  ["keyword"; "search_volume"; "competition"; "competition_index";
   "low_bid_usd"; "high_bid_usd"]%string.

(** [r.model_dump()]: the fields in declaration order. *)
Definition model_dump (r : KeywordMetrics) : list (string * pyval) :=
  [("keyword", PyStr (keyword r));
   ("search_volume", PyInt (search_volume r));
   ("competition", PyStr (competition r));
   ("competition_index", PyFloat (competition_index r));
   ("low_bid_usd", PyFloat (low_bid_usd r));
   ("high_bid_usd", PyFloat (high_bid_usd r))]%string.

(** ** Tables and files *)

(** A [pandas.DataFrame] without its index: named columns and rows of
    cells. *)
Record DataFrame : Type := {
  columns : list string;
  rows : list (list pyval)
}.

Definition add_keys (cols keys : list string) : list string :=
  fold_left (fun acc k => if str_in k acc then acc else acc ++ [k]) keys cols.

(** The columns of [pd.DataFrame(records)]: the keys of the records, each
    once, in the order in which they first appear. *)
Definition frame_columns (records : list (list (string * pyval))) : list string :=
  fold_left (fun acc r => add_keys acc (map fst r)) records [].

(** A cell of a record that lacks the column is empty. *)
Definition cell (r : list (string * pyval)) (k : string) : pyval :=
  match find (fun p => String.eqb (fst p) k) r with
  | Some p => snd p
  | None => PyNone
  end.

(** [pd.DataFrame(records)] for a list of dictionaries. *)
Definition mkDataFrame (records : list (list (string * pyval))) : DataFrame :=
  let cols := frame_columns records in
  {| columns := cols; rows := map (fun r => map (cell r) cols) records |}.

Inductive file_content : Type :=
  | CsvFile (header : list string) (body : list (list pyval))
  | JsonFile (objects : list (list (string * pyval)))
  | OtherFile (data : string).

(** ** Time *)

Record datetime : Type := {
  year : Z; month : Z; day : Z;
  hour : Z; minute : Z; second : Z
}.

(** The ranges a [datetime] object keeps its fields in; the year is taken to
    have four digits. *)
Definition valid_datetime (t : datetime) : Prop :=
  1000 <= year t <= 9999 /\ 1 <= month t <= 12 /\ 1 <= day t <= 31 /\
  0 <= hour t <= 23 /\ 0 <= minute t <= 59 /\ 0 <= second t <= 59.

Definition digit (n : Z) : ascii := ascii_of_nat (Z.to_nat (48 + n mod 10)).

Definition fmt2 (n : Z) : string :=
  String (digit (n / 10)) (String (digit n) EmptyString).

Definition fmt4 (n : Z) : string :=
  String (digit (n / 1000)) (String (digit (n / 100)) (fmt2 n)).

(** [t.strftime("%Y%m%d_%H%M%S")] *)
Definition strftime (t : datetime) : string :=
  fmt4 (year t) +:+ fmt2 (month t) +:+ fmt2 (day t) +:+ "_" +:+
  fmt2 (hour t) +:+ fmt2 (minute t) +:+ fmt2 (second t).

Definition is_digit (c : ascii) : bool :=
  (48 <=? nat_of_ascii c)%nat && (nat_of_ascii c <=? 57)%nat.

Fixpoint all_digits (s : string) : bool :=
  match s with
  | EmptyString => true
  | String c s' => is_digit c && all_digits s'
  end.

(** The pattern [YYYYMMDD_HHMMSS]. *)
Definition is_timestamp (s : string) : bool :=
  (String.length s =? 15)%nat &&
  all_digits (substring 0 8 s) &&
  String.eqb (substring 8 1 s) "_" &&
  all_digits (substring 9 6 s).

(** Reading a run of decimal digits back. *)
Definition digit_value (c : ascii) : Z := Z.of_nat (nat_of_ascii c) - 48.

Fixpoint decimal (s : string) (acc : Z) : Z :=
  match s with
  | EmptyString => acc
  | String c s' => decimal s' (10 * acc + digit_value c)
  end.

(** The time a timestamp of the pattern [YYYYMMDD_HHMMSS] denotes. *)
Definition read_timestamp (s : string) : datetime :=
  {| year := decimal (substring 0 4 s) 0;
     month := decimal (substring 4 2 s) 0;
     day := decimal (substring 6 2 s) 0;
     hour := decimal (substring 9 2 s) 0;
     minute := decimal (substring 11 2 s) 0;
     second := decimal (substring 13 2 s) 0 |}.

(** ** Log records *)

Inductive level : Type := INFO | WARNING | ERROR.

Inductive message : Type :=
  | MsgInitializing
  | MsgTargetCustomer (id : string)
  | MsgLoginCustomer (id : string)
  | MsgUsingRefreshToken
  | MsgSettingLogin (id : string)
  | MsgOAuthSuccessful
  | MsgSearching (keywords : list string)
  | MsgLocation (location : string) (max_results : Z)
  | MsgUsingCustomer (id : string)
  | MsgFetching
  | MsgFound (n : nat)
  | MsgApiError (ex : exn)
  | MsgErrorCode (code : string)
  | MsgErrorMessage (msg : string)
  | MsgUnexpected (ex : exn)
  | MsgSaved (filename : string)
  | MsgNoResults
  | MsgSummary
  | MsgTotal (n : nat)
  | MsgAvgVolume (avg : float)
  | MsgHighVolume (n : nat)
  | MsgLowCompetition (n : nat)
  | MsgTopKeywords
  | MsgTop (kw : string) (volume : Z) (comp : string)
  | MsgStarting
  | MsgTesting (id : string)
  | MsgSuccess (filename : string)
  | MsgCompleted
  | MsgApplicationError (ex : exn).

(** ** State, surroundings and the monad *)

Record state : Type := {
  files : gmap string file_content;
  sent : list Ads.GenerateKeywordIdeasRequest;
  drawn : list Ads.KeywordIdea;
  log : list (level * message)
}.

Definition set_files (f : gmap string file_content) (s : state) : state :=
  {| files := f; sent := sent s; drawn := drawn s; log := log s |}.
Definition set_sent (r : list Ads.GenerateKeywordIdeasRequest) (s : state) : state :=
  {| files := files s; sent := r; drawn := drawn s; log := log s |}.
Definition set_drawn (d : list Ads.KeywordIdea) (s : state) : state :=
  {| files := files s; sent := sent s; drawn := d; log := log s |}.
Definition set_log (l : list (level * message)) (s : state) : state :=
  {| files := files s; sent := sent s; drawn := drawn s; log := l |}.

(** What the program reads and does not change. [service] answers a request
    given the requests sent before it. The two libraries construction calls
    are not part of the program: [flow_raises] is the exception, if any,
    that the interactive consent flow ([from_client_secrets_file], then
    [run_local_server]) raises for a client-secrets file, and [consent] the
    refresh token of the credentials it ends with otherwise;
    [client_raises] is the exception, if any, with which
    [GoogleAdsClient.load_from_dict] refuses a configuration. *)
Record ambient : Type := {
  environ : gmap string string;
  now : datetime;
  flow_raises : string -> option exn;
  consent : string -> option string;
  client_raises : gmap string pyval -> option exn;
  service : list Ads.GenerateKeywordIdeasRequest ->
            Ads.GenerateKeywordIdeasRequest -> exn + Ads.Pager
}.

Definition M (A : Type) : Type := state -> (exn + A) * state.

#[global] Instance M_ret : MRet M := fun A a s => (inr a, s).

#[global] Instance M_bind : MBind M := fun A B f m s =>
  match m s with
  | (inr a, s') => f a s'
  | (inl e, s') => (inl e, s')
  end.

Definition raise {A : Type} (e : exn) : M A := fun s => (inl e, s).

Definition lift {A : Type} (r : exn + A) : M A := fun s => (r, s).

(** [try: body except Exception as e: handler e] *)
Definition try_except {A : Type} (body : M A) (handler : exn -> M A) : M A :=
  fun s =>
    match body s with
    | (inl e, s') => handler e s'
    | r => r
    end.

Definition logger (lv : level) (msg : message) : M unit :=
  fun s => (inr tt, set_log (log s ++ [(lv, msg)]) s).

Definition path_exists (p : string) : M bool :=
  fun s => (inr (bool_decide (is_Some (files s !! p))), s).

Definition write_file (p : string) (c : file_content) : M unit :=
  fun s => (inr tt, set_files (<[p := c]> (files s)) s).

(** [df.to_csv(filename, index=False)]: the header row is the columns. *)
Definition to_csv (df : DataFrame) (filename : string) : M unit :=
  write_file filename (CsvFile (columns df) (rows df)).

(** [json.dump(objects, f, indent=2)] into a file opened for writing. *)
Definition json_dump (objects : list (list (string * pyval))) (filename : string) : M unit :=
  write_file filename (JsonFile objects).

(** ** Sorting *)

Section Sorted.
Context {A : Type} (key : A -> Z).

Fixpoint insert_desc (x : A) (l : list A) : list A :=
  match l with
  | [] => [x]
  | y :: l' => if key y <=? key x then x :: y :: l' else y :: insert_desc x l'
  end.

(** [sorted(l, key=key, reverse=True)]: a stable sort, by decreasing key. *)
Definition sorted_reverse (l : list A) : list A := foldr insert_desc [] l.

Definition descending (l : list A) : Prop :=
  StronglySorted (fun x y => key y <= key x) l.

(** The items of [l] whose key is [v], in their order in [l]. *)
Definition with_key (v : Z) (l : list A) : list A :=
  List.filter (fun x => key x =? v) l.
End Sorted.

(** ** The client *)

(** The handle [GoogleAdsClient.load_from_dict(config)] returns when it
    returns; it keeps the configuration it was built from. *)
Record GoogleAdsClient : Type := { config : gmap string pyval }.

Record SimpleKeywordResearch : Type := {
  client : GoogleAdsClient;
  customer_id : string;
  login_customer_id : string
}.

Definition of_getenv (o : option string) : pyval :=
  match o with Some s => PyStr s | None => PyNone end.

Section Program.
Variable amb : ambient.

(** [os.getenv(name)] and [os.getenv(name, d)] *)
Definition getenv (name : string) : option string := environ amb !! name.
Definition getenv_default (name d : string) : string :=
  default d (getenv name).

(** The configuration both ways of building the client start from. *)
Definition base_config (refresh_token : pyval) : gmap string pyval :=
  <["use_proto_plus" := PyBool true]>
    (<["refresh_token" := refresh_token]>
      (<["client_secret" := of_getenv (getenv "GOOGLE_ADS_CLIENT_SECRET")]>
        (<["client_id" := of_getenv (getenv "GOOGLE_ADS_CLIENT_ID")]>
          (<["developer_token" := of_getenv (getenv "GOOGLE_ADS_DEVELOPER_TOKEN")]> ∅)))).

(** [GoogleAdsClient.load_from_dict(config)]: the library validates the
    configuration and raises, or returns the handle. *)
Definition load_from_dict (cfg : gmap string pyval) : M GoogleAdsClient :=
  match client_raises amb cfg with
  | Some e => raise e
  | None => mret {| config := cfg |}
  end.

(** [InstalledAppFlow.from_client_secrets_file(token_path, scopes)] followed
    by [flow.run_local_server(open_browser=True)]: the flow raises, or ends
    with credentials, of which the program reads the refresh token. *)
Definition run_consent_flow (token_path : string) : M (option string) :=
  match flow_raises amb token_path with
  | Some e => raise e
  | None => mret (consent amb token_path)
  end.

Definition _authenticate_oauth : M GoogleAdsClient :=
  let token_path := getenv "GOOGLE_ADS_CLIENT_TOKEN_PATH" in
  present ← (match token_path with
             | Some p => if str_truthy p then path_exists p else mret false
             | None => mret false
             end);
  if negb present then
    raise (FileNotFoundError "GOOGLE_ADS_CLIENT_TOKEN_PATH not found")
  else
    creds ← run_consent_flow (default EmptyString token_path);
    logger INFO MsgOAuthSuccessful;;
    let config := base_config (of_getenv creds) in
    let config :=
      if opt_truthy (getenv "GOOGLE_ADS_LOGIN_CUSTOMER_ID") then
        <["login_customer_id" :=
            PyStr (replace_dash (getenv_default "GOOGLE_ADS_LOGIN_CUSTOMER_ID" ""))]> config
      else config in
    load_from_dict config.

Definition _setup_client : M GoogleAdsClient :=
  let refresh_token := getenv "GOOGLE_ADS_REFRESH_TOKEN" in
  if opt_truthy refresh_token then
    logger INFO MsgUsingRefreshToken;;
    let config := base_config (of_getenv refresh_token) in
    config ←
      (if opt_truthy (getenv "GOOGLE_ADS_LOGIN_CUSTOMER_ID") then
         let id := replace_dash (getenv_default "GOOGLE_ADS_LOGIN_CUSTOMER_ID" "") in
         logger INFO (MsgSettingLogin id);;
         mret (<["login_customer_id" := PyStr id]> config)
       else mret config);
    load_from_dict config
  else _authenticate_oauth.

(** [SimpleKeywordResearch()] *)
Definition __init__ : M SimpleKeywordResearch :=
  logger INFO MsgInitializing;;
  client ← _setup_client;
  let customer_id := replace_dash (getenv_default "GOOGLE_ADS_CUSTOMER_ID" "") in
  let login_customer_id :=
    replace_dash (getenv_default "GOOGLE_ADS_LOGIN_CUSTOMER_ID" "") in
  if negb (str_truthy customer_id) then
    raise (ValueError "GOOGLE_ADS_CUSTOMER_ID environment variable is required")
  else
    logger INFO (MsgTargetCustomer customer_id);;
    (if str_truthy login_customer_id
     then logger INFO (MsgLoginCustomer login_customer_id)
     else mret tt);;
    mret {| client := client; customer_id := customer_id;
            login_customer_id := login_customer_id |}.

(** ** Normalizing one idea *)

Definition _extract_metrics (idea : Ads.KeywordIdea) : M KeywordMetrics :=
  let metrics := Ads.keyword_idea_metrics idea in
  let volume := int_or (Ads.avg_monthly_searches metrics) 0 in
  let competition :=
    match Ads.competition metrics with
    | Some c => if Ads.value c =? 0 then "UNKNOWN"%string else Ads.name c
    | None => "UNKNOWN"%string
    end in
  let comp_index := float_or (Ads.competition_index metrics) float_zero in
  low_bid ← lift (int_truediv (int_or (Ads.low_top_of_page_bid_micros metrics) 0) 1000000);
  high_bid ← lift (int_truediv (int_or (Ads.high_top_of_page_bid_micros metrics) 0) 1000000);
  mret {| keyword := Ads.text idea;
          search_volume := volume;
          competition := competition;
          competition_index := comp_index;
          low_bid_usd := low_bid;
          high_bid_usd := high_bid |}.

(** What [_extract_metrics] returns for an idea whose bids are in the wire's
    range (lemma [extract_metrics_inr]). *)
Definition metrics_of (idea : Ads.KeywordIdea) : KeywordMetrics :=
  let m := Ads.keyword_idea_metrics idea in
  {| keyword := Ads.text idea;
     search_volume := int_or (Ads.avg_monthly_searches m) 0;
     competition :=
       match Ads.competition m with
       | Some c => if Ads.value c =? 0 then "UNKNOWN"%string else Ads.name c
       | None => "UNKNOWN"%string
       end;
     competition_index := float_or (Ads.competition_index m) float_zero;
     low_bid_usd := fdiv (default 0 (Ads.low_top_of_page_bid_micros m)) 1000000;
     high_bid_usd := fdiv (default 0 (Ads.high_top_of_page_bid_micros m)) 1000000 |}.

(** ** Searching *)

(** The geo id chosen for a location (lines 99 to 103). *)
Definition location_id (location : string) : string :=
  if str_in (lower location) ["uk"; "united kingdom"]%string then "2826"%string
  else if str_in (lower location) ["canada"]%string then "2124"%string
  else "2840"%string.

(** [service.generate_keyword_ideas(request=request)]: one call to the
    remote service. *)
Definition generate_keyword_ideas
    (request : Ads.GenerateKeywordIdeasRequest) : M Ads.Pager :=
  fun s => (service amb (sent s) request, set_sent (sent s ++ [request]) s).

(** An item leaves the pager. *)
Definition draw (idea : Ads.KeywordIdea) : M unit :=
  fun s => (inr tt, set_drawn (drawn s ++ [idea]) s).

(** The loop [for i, idea in enumerate(ideas)], from index [i] on. *)
Fixpoint enumerate_loop (max_results i : Z) (ideas : Ads.Pager)
    (results : list KeywordMetrics) : M (list KeywordMetrics) :=
  match ideas with
  | Ads.Stop => mret results
  | Ads.Raise e => raise e
  | Ads.Yield idea rest =>
      draw idea;;
      if max_results <=? i then mret results
      else
        metrics ← _extract_metrics idea;
        enumerate_loop max_results (i + 1) rest (results ++ [metrics])
  end.

Definition build_request (self : SimpleKeywordResearch) (keywords : list string)
    (location : string) (include_adult_keywords : bool)
    : Ads.GenerateKeywordIdeasRequest :=
  {| Ads.req_customer_id := customer_id self;
     Ads.req_language := Ads.language_constant_path "1000";
     Ads.req_geo_target_constants :=
       [Ads.geo_target_constant_path (location_id location)];
     Ads.req_keyword_plan_network := Ads.GOOGLE_SEARCH;
     Ads.req_keywords := keywords;
     Ads.req_include_adult_keywords := include_adult_keywords |}.

Definition log_errors (errors : list ads_error) : M unit :=
  foldr (fun error k =>
           logger ERROR (MsgErrorCode (fst error));;
           logger ERROR (MsgErrorMessage (snd error));;
           k)
        (mret tt) errors.

(** Lines 120 to 128: the two [except] clauses; both log and raise the
    exception again. *)
Definition except_clauses (ex : exn) : M (list KeywordMetrics) :=
  match ex with
  | GoogleAdsException errors =>
      logger ERROR (MsgApiError ex);;
      log_errors errors;;
      raise ex
  | _ =>
      logger ERROR (MsgUnexpected ex);;
      raise ex
  end.

Definition search_keywords (self : SimpleKeywordResearch) (keywords : list string)
    (location : string) (max_results : Z) (include_adult_keywords : bool)
    : M (list KeywordMetrics) :=
  logger INFO (MsgSearching keywords);;
  logger INFO (MsgLocation location max_results);;
  logger INFO (MsgUsingCustomer (customer_id self));;
  try_except
    (let request := build_request self keywords location include_adult_keywords in
     logger INFO MsgFetching;;
     ideas ← generate_keyword_ideas request;
     results ← enumerate_loop max_results 0 ideas [];
     logger INFO (MsgFound (length results));;
     mret results)
    except_clauses.

(** ** Saving *)

Definition save_results (results : list KeywordMetrics) (format : string) : M string :=
  let timestamp := strftime (now amb) in
  if String.eqb (lower format) "csv" then
    let filename := "keywords_" +:+ timestamp +:+ ".csv" in
    let df := mkDataFrame (map model_dump results) in
    to_csv df filename;;
    logger INFO (MsgSaved filename);;
    mret filename
  else
    let filename := "keywords_" +:+ timestamp +:+ ".json" in
    json_dump (map model_dump results) filename;;
    logger INFO (MsgSaved filename);;
    mret filename.

(** ** Summarizing *)

Definition total (l : list Z) : Z := foldr Z.add 0 l.

(** Line 172: [sorted(results, key=lambda x: x.search_volume, reverse=True)[:3]] *)
Definition top_keywords (results : list KeywordMetrics) : list KeywordMetrics :=
  firstn 3 (sorted_reverse search_volume results).

(** Lines 164 to 175: what [print_summary] does once it has passed its
    guard. *)
Definition summary_body (results : list KeywordMetrics) : M unit :=
  let volumes := map search_volume results in
  let high_vol := List.filter (fun r => 1000 <? search_volume r) results in
  let low_comp := List.filter (fun r => String.eqb (competition r) "LOW") results in
  logger INFO MsgSummary;;
  logger INFO (MsgTotal (length results));;
  avg ← lift (int_truediv (total volumes) (Z.of_nat (length volumes)));
  logger INFO (MsgAvgVolume avg);;
  logger INFO (MsgHighVolume (length high_vol));;
  logger INFO (MsgLowCompetition (length low_comp));;
  let top := top_keywords results in
  logger INFO MsgTopKeywords;;
  foldr (fun kw k =>
           logger INFO (MsgTop (keyword kw) (search_volume kw) (competition kw));; k)
        (mret tt) top.

Definition print_summary (results : list KeywordMetrics) : M unit :=
  match results with
  | [] => logger WARNING MsgNoResults
  | _ => summary_body results
  end.

(** ** The script *)

Definition main : M unit :=
  try_except
    (logger INFO MsgStarting;;
     kr ← __init__;
     let seed_keywords := ["python programming"%string] in
     logger INFO (MsgTesting (customer_id kr));;
     results ← search_keywords kr seed_keywords "United States" 100 false;
     print_summary results;;
     (match results with
      | [] => mret tt
      | _ => csv_file ← save_results results "csv";
             logger INFO (MsgSuccess csv_file)
      end);;
     logger INFO MsgCompleted)
    (fun e => logger ERROR (MsgApplicationError e)).

End Program.

(** ** Vocabulary of the statements *)

(** The two errors of construction, under the names the specification gives
    them. *)
Definition CredentialError : exn :=
  FileNotFoundError "GOOGLE_ADS_CLIENT_TOKEN_PATH not found".
Definition ConfigurationError : exn :=
  ValueError "GOOGLE_ADS_CUSTOMER_ID environment variable is required".

(** The consent artifact can be used: its path is set, not empty, and names
    an existing file. *)
Definition consent_artifact_found (amb : ambient) (s : state) : bool :=
  match getenv amb "GOOGLE_ADS_CLIENT_TOKEN_PATH" with
  | Some p => str_truthy p && bool_decide (is_Some (files s !! p))
  | None => false
  end.

(** No refresh token in the environment and no consent artifact on disk. *)
Definition credentials_missing (amb : ambient) (s : state) : bool :=
  negb (opt_truthy (getenv amb "GOOGLE_ADS_REFRESH_TOKEN")) &&
  negb (consent_artifact_found amb s).

(** The customer id of the environment, without its dashes. *)
Definition stripped_customer_id (amb : ambient) : string :=
  replace_dash (getenv_default amb "GOOGLE_ADS_CUSTOMER_ID" "").
Definition stripped_login_customer_id (amb : ambient) : string :=
  replace_dash (getenv_default amb "GOOGLE_ADS_LOGIN_CUSTOMER_ID" "").

(** The configuration the client library is given. *)
Definition expected_config (amb : ambient) : gmap string pyval :=
  let token :=
    if opt_truthy (getenv amb "GOOGLE_ADS_REFRESH_TOKEN")
    then of_getenv (getenv amb "GOOGLE_ADS_REFRESH_TOKEN")
    else of_getenv (consent amb (default EmptyString
                                   (getenv amb "GOOGLE_ADS_CLIENT_TOKEN_PATH"))) in
  if opt_truthy (getenv amb "GOOGLE_ADS_LOGIN_CUSTOMER_ID")
  then <["login_customer_id" := PyStr (stripped_login_customer_id amb)]>
         (base_config amb token)
  else base_config amb token.

(** The exception of the consent flow, which runs only when the environment
    has no refresh token. *)
Definition flow_error (amb : ambient) : option exn :=
  if opt_truthy (getenv amb "GOOGLE_ADS_REFRESH_TOKEN") then None
  else flow_raises amb (default EmptyString (getenv amb "GOOGLE_ADS_CLIENT_TOKEN_PATH")).

(** The exception one of the two libraries raises while the client is
    built, if any: that of the consent flow, or else that of the client
    library for the configuration it is given. *)
Definition library_error (amb : ambient) : option exn :=
  match flow_error amb with
  | Some e => Some e
  | None => client_raises amb (expected_config amb)
  end.

(** The records [_setup_client] logs up to the call of the client
    library. *)
Definition setup_log (amb : ambient) : list (level * message) :=
  if opt_truthy (getenv amb "GOOGLE_ADS_REFRESH_TOKEN") then
    (INFO, MsgUsingRefreshToken) ::
    (if opt_truthy (getenv amb "GOOGLE_ADS_LOGIN_CUSTOMER_ID")
     then [(INFO, MsgSettingLogin (stripped_login_customer_id amb))] else [])
  else [(INFO, MsgOAuthSuccessful)].

(** The object and the records of a construction that succeeds. *)
Definition constructed (amb : ambient) : SimpleKeywordResearch :=
  {| client := {| config := expected_config amb |};
     customer_id := stripped_customer_id amb;
     login_customer_id := stripped_login_customer_id amb |}.

Definition init_log (amb : ambient) : list (level * message) :=
  (INFO, MsgInitializing) :: setup_log amb ++
  (INFO, MsgTargetCustomer (stripped_customer_id amb)) ::
  (if str_truthy (stripped_login_customer_id amb)
   then [(INFO, MsgLoginCustomer (stripped_login_customer_id amb))] else []).

(** Two surroundings that differ at most by dashes inside the two customer
    ids of the environment (a login id is set in both or in neither), with
    the same libraries. *)
Definition same_up_to_dashes (amb amb' : ambient) : Prop :=
  (forall k : string,
     In k ["GOOGLE_ADS_REFRESH_TOKEN"; "GOOGLE_ADS_DEVELOPER_TOKEN";
           "GOOGLE_ADS_CLIENT_ID"; "GOOGLE_ADS_CLIENT_SECRET";
           "GOOGLE_ADS_CLIENT_TOKEN_PATH"]%string ->
     getenv amb k = getenv amb' k) /\
  flow_raises amb = flow_raises amb' /\
  consent amb = consent amb' /\
  client_raises amb = client_raises amb' /\
  opt_truthy (getenv amb "GOOGLE_ADS_LOGIN_CUSTOMER_ID") =
    opt_truthy (getenv amb' "GOOGLE_ADS_LOGIN_CUSTOMER_ID") /\
  stripped_login_customer_id amb = stripped_login_customer_id amb' /\
  stripped_customer_id amb = stripped_customer_id amb'.

(** The records [search_keywords] logs before it calls the service. *)
Definition search_log (self : SimpleKeywordResearch) (keywords : list string)
    (location : string) (max_results : Z) : list (level * message) :=
  [(INFO, MsgSearching keywords); (INFO, MsgLocation location max_results);
   (INFO, MsgUsingCustomer (customer_id self)); (INFO, MsgFetching)].

(** The records the two [except] clauses log: the error codes and messages
    of a rejection by the service, one record for any other failure. *)
Definition error_log (ex : exn) : list (level * message) :=
  match ex with
  | GoogleAdsException errors =>
      (ERROR, MsgApiError ex) ::
      flat_map (fun error => [(ERROR, MsgErrorCode (fst error));
                              (ERROR, MsgErrorMessage (snd error))]) errors
  | _ => [(ERROR, MsgUnexpected ex)]
  end.

(** The remote call fails with [e]: at once, or while the loop draws from
    the sequence it returned. *)
Definition fails_with (r : exn + Ads.Pager) (max_results : Z) (e : exn) : Prop :=
  r = inl e \/
  exists ideas : list Ads.KeywordIdea,
    r = inr (Ads.pager_of ideas (Ads.Raise e)) /\
    Forall Ads.bids_in_range ideas /\
    Z.of_nat (length ideas) <= max_results.

(** One row of the table: the values of a record, in the order of the
    fields. *)
Definition row_of (r : KeywordMetrics) : list pyval := map snd (model_dump r).

(** The name [save_results] gives the file and what it writes into it. *)
Definition export_name (amb : ambient) (format : string) : string :=
  "keywords_" +:+ strftime (now amb) +:+
  (if String.eqb (lower format) "csv" then ".csv" else ".json").

Definition export_content (results : list KeywordMetrics) (format : string)
    : file_content :=
  if String.eqb (lower format) "csv" then
    CsvFile (match results with [] => [] | _ => field_names end) (map row_of results)
  else JsonFile (map model_dump results).

(** The records [print_summary] logs for a list that is not empty. *)
Definition summary_log (results : list KeywordMetrics) : list (level * message) :=
  [(INFO, MsgSummary);
   (INFO, MsgTotal (length results));
   (INFO, MsgAvgVolume (fdiv (total (map search_volume results))
                             (Z.of_nat (length results))));
   (INFO, MsgHighVolume
            (length (List.filter (fun r => 1000 <? search_volume r) results)));
   (INFO, MsgLowCompetition
            (length (List.filter (fun r => String.eqb (competition r) "LOW") results)));
   (INFO, MsgTopKeywords)] ++
  map (fun kw => (INFO, MsgTop (keyword kw) (search_volume kw) (competition kw)))
      (top_keywords results).

(** A record that reports a count or a statistic of the results. *)
Definition reports_count (entry : level * message) : bool :=
  match snd entry with
  | MsgTotal _ | MsgAvgVolume _ | MsgHighVolume _ | MsgLowCompetition _ => true
  | _ => false
  end.

(** ** Sample data *)

Definition sample_idea (t : string) (volume : Z) (low high : option Z)
    : Ads.KeywordIdea :=
  {| Ads.text := t;
     Ads.keyword_idea_metrics :=
       {| Ads.avg_monthly_searches := Some volume;
          Ads.competition := Some Ads.LOW;
          Ads.competition_index := Some float_one;
          Ads.low_top_of_page_bid_micros := low;
          Ads.high_top_of_page_bid_micros := high |} |}.

(** An idea with nothing but its text and a low bid of 2,500,000 micros. *)
Definition bare_idea : Ads.KeywordIdea :=
  {| Ads.text := "python";
     Ads.keyword_idea_metrics :=
       {| Ads.avg_monthly_searches := None;
          Ads.competition := None;
          Ads.competition_index := None;
          Ads.low_top_of_page_bid_micros := Some 2500000;
          Ads.high_top_of_page_bid_micros := None |} |}.

Definition three_ideas : list Ads.KeywordIdea :=
  [sample_idea "python course" 500 (Some 2500000) (Some 4000000);
   sample_idea "learn python" 2000 None None;
   sample_idea "python tutorial" 100 (Some 1) (Some 1000000)].

Definition sample_metrics (kw : string) (volume : Z) : KeywordMetrics :=
  {| keyword := kw; search_volume := volume; competition := "LOW";
     competition_index := float_zero; low_bid_usd := float_zero;
     high_bid_usd := float_zero |}.

(** Five records, two pairs of which tie on the search volume. *)
Definition tied_results : list KeywordMetrics :=
  [sample_metrics "a" 500; sample_metrics "b" 2000; sample_metrics "c" 500;
   sample_metrics "d" 2000; sample_metrics "e" 100].

Definition sample_self : SimpleKeywordResearch :=
  {| client := {| config := ∅ |};
     customer_id := "1234567890";
     login_customer_id := "" |}.

Definition empty_state : state :=
  {| files := ∅; sent := []; drawn := []; log := [] |}.

Definition sample_clock : datetime :=
  {| year := 2024; month := 1; day := 2; hour := 3; minute := 4; second := 5 |}.

(** An environment with a refresh token and the two customer ids. *)
Definition env_with_ids (id login : string) : gmap string string :=
  <["GOOGLE_ADS_LOGIN_CUSTOMER_ID" := login]>
    (<["GOOGLE_ADS_CUSTOMER_ID" := id]>
      (<["GOOGLE_ADS_REFRESH_TOKEN" := "1//refresh"%string]> ∅)).

(** Surroundings with a given environment, libraries that raise nothing and
    a service that answers every request the same way. *)
Definition surroundings (env : gmap string string) (answer : exn + Ads.Pager)
    : ambient :=
  {| environ := env; now := sample_clock;
     flow_raises := fun _ => None; consent := fun _ => None;
     client_raises := fun _ => None;
     service := fun _ _ => answer |}.

(** An environment with the credentials of the client, a refresh token and
    the two customer ids. *)
Definition full_env (id login : string) : gmap string string :=
  <["GOOGLE_ADS_DEVELOPER_TOKEN" := "dev-token"%string]>
    (<["GOOGLE_ADS_CLIENT_ID" := "client.apps.example"%string]>
      (<["GOOGLE_ADS_CLIENT_SECRET" := "secret"%string]> (env_with_ids id login))).

Definition InvalidLogin : exn :=
  ValueError "The specified login customer ID is invalid".

(** A client library that refuses a login customer id that is not made of
    ten digits, and nothing else. *)
Definition ten_digit_login (cfg : gmap string pyval) : option exn :=
  match cfg !! "login_customer_id"%string with
  | Some (PyStr id) =>
      if (String.length id =? 10)%nat && all_digits id then None
      else Some InvalidLogin
  | Some _ => Some InvalidLogin
  | None => None
  end.

(** Surroundings with that library. *)
Definition checked_surroundings (env : gmap string string) : ambient :=
  {| environ := env; now := sample_clock;
     flow_raises := fun _ => None; consent := fun _ => None;
     client_raises := ten_digit_login;
     service := fun _ _ => inr Ads.Stop |}.

(** ** Vocabulary of the further statements *)

(** The ideas a pager yields before it stops or raises. *)
Fixpoint yielded (p : Ads.Pager) : list Ads.KeywordIdea :=
  match p with
  | Ads.Yield idea rest => idea :: yielded rest
  | _ => []
  end.

(** An idea normalizes to a record, in every state. *)
Definition normalizes_to (idea : Ads.KeywordIdea) (r : KeywordMetrics) : Prop :=
  forall st : state, _extract_metrics idea st = (inr r, st).

(* ===================================================================== *)
(** ** The dashboard ([myseo/streamlit_app.py]) *)

(** *** Text entered and text shown *)

(** [c.isspace()] for a character below 256. *)
Definition is_space (c : ascii) : bool :=
  let n := nat_of_ascii c in
  ((9 <=? n) && (n <=? 13) || (28 <=? n) && (n <=? 32) ||
   (n =? 133) || (n =? 160))%nat.

Fixpoint lstrip (s : string) : string :=
  match s with
  | EmptyString => EmptyString
  | String c s' => if is_space c then lstrip s' else s
  end.

Fixpoint rstrip (s : string) : string :=
  match s with
  | EmptyString => EmptyString
  | String c s' =>
      match rstrip s' with
      | EmptyString => if is_space c then EmptyString else String c EmptyString
      | t => String c t
      end
  end.

(** [s.strip()] *)
Definition strip (s : string) : string := rstrip (lstrip s).

(** [s.split(sep)] for a separator of one character: the pieces between the
    separators, empty ones included; never an empty list. *)
Fixpoint str_split (sep : ascii) (s : string) : list string :=
  match s with
  | EmptyString => [EmptyString]
  | String c s' =>
      if Ascii.eqb c sep then EmptyString :: str_split sep s'
      else match str_split sep s' with
           | w :: ws => String c w :: ws
           | [] => [String c EmptyString]
           end
  end.

(** [sep.join(l)] *)
Definition str_join (sep : string) (l : list string) : string :=
  String.concat sep l.

Definition newline : ascii := "010"%char.

(** [[k.strip() for k in keywords_input.split('\n') if k.strip()]]
    (line 300). *)
Definition seed_keywords (keywords_input : string) : list string :=
  map strip
      (List.filter (fun k => str_truthy (strip k)) (str_split newline keywords_input)).

(** The decimal digits of a natural number, ["0"] for zero. *)
Definition digits (n : N) : string :=
  DecimalString.NilZero.string_of_uint (N.to_uint n).

(** A comma after every third digit, on the digits from the least
    significant one. *)
Fixpoint commas (ds : list ascii) : list ascii :=
  match ds with
  | a :: b :: c :: ((_ :: _) as rest) => a :: b :: c :: ","%char :: commas rest
  | _ => ds
  end.

(** [f"{value:,}"] for an integer (lines 87 to 89). *)
Definition format_number (value : Z) : string :=
  (if value <? 0 then "-" else "") +:+
  string_of_list_ascii
    (rev (commas (rev (list_ascii_of_string (digits (Z.abs_N value)))))).

(** Reading a number written with thousands separators. *)
Definition read_number (s : string) : option Z :=
  option_map Z.of_int
    (DecimalString.NilZero.int_of_string
       (string_of_list_ascii
          (List.filter (fun c => negb (Ascii.eqb c ","))
                       (list_ascii_of_string s)))).

(** The integer nearest to [num / den], the even one of two that are equally
    near. *)
Definition round_half_even (num den : Z) : Z :=
  let q := num / den in
  let r := num mod den in
  if 2 * r <? den then q
  else if den <? 2 * r then q + 1
  else if Z.even q then q else q + 1.

(** The integer nearest to a hundred times [m * 2 ^ e]. *)
Definition hundredths (m : positive) (e : Z) : Z :=
  if 0 <=? e then Z.pos m * 2 ^ e * 100
  else round_half_even (Z.pos m * 100) (2 ^ (- e)).

(** A number of hundredths written with two decimals. *)
Definition fixed2 (n : Z) : string :=
  digits (Z.to_N (n / 100)) +:+ "." +:+ fmt2 (n mod 100).

(** [f"{value:.2f}"] for a float. *)
Definition format_2f (value : float) : string :=
  match value with
  | S754_nan => "nan"
  | S754_infinity s => if s then "-inf" else "inf"
  | S754_zero s => (if s then "-" else "") +:+ "0.00"
  | S754_finite s m e => (if s then "-" else "") +:+ fixed2 (hundredths m e)
  end.

(** [value == 0] for a float. *)
Definition float_is_zero (value : float) : bool :=
  match value with S754_zero _ => true | _ => false end.

(** Lines 81 to 85. *)
Definition format_currency (value : float) : string :=
  if float_is_zero value then "$0.00" else "$" +:+ format_2f value.

(** *** The table shown *)

Definition float_two : float := S754_finite false 4503599627370496 (-51).

(** [x > 0] for a float. *)
Definition float_positive (x : float) : bool := SFltb float_zero x.

(** [(low + high) / 2 if high > 0 else 0] *)
Definition avg_bid (low high : float) : pyval :=
  if float_positive high
  then PyFloat (SFdiv prec emax (SFadd prec emax low high) float_two)
  else PyInt 0.

Definition display_names : list string :=
  ["Keyword"; "Monthly Searches"; "Competition"; "Competition Index";
   "Low Bid (USD)"; "High Bid (USD)"; "Avg Bid (USD)"]%string.

(** The dictionary appended for one record (lines 95 to 103). *)
Definition display_row (result : KeywordMetrics) : list (string * pyval) :=
  [("Keyword", PyStr (keyword result));
   ("Monthly Searches", PyInt (search_volume result));
   ("Competition", PyStr (competition result));
   ("Competition Index", PyFloat (competition_index result));
   ("Low Bid (USD)", PyFloat (low_bid_usd result));
   ("High Bid (USD)", PyFloat (high_bid_usd result));
   ("Avg Bid (USD)", avg_bid (low_bid_usd result) (high_bid_usd result))]%string.

Definition is_float (v : pyval) : bool :=
  match v with PyFloat _ => true | _ => false end.

Definition is_number (v : pyval) : bool :=
  match v with PyInt _ | PyFloat _ => true | _ => false end.

(** An integer cell of a float column: [float(z)], correctly rounded. *)
Definition to_float64 (v : pyval) : pyval :=
  match v with PyInt z => PyFloat (fdiv z 1) | _ => v end.

(** The cells of a table under column [j]. *)
Definition column (rows : list (list pyval)) (j : nat) : list pyval :=
  map (fun r => nth j r PyNone) rows.

(** A column of integers and floats that holds a float is a float column. *)
Definition float_column (rows : list (list pyval)) (j : nat) : bool :=
  forallb is_number (column rows j) && existsb is_float (column rows j).

(** The one type pandas gives the cells of a column, for tables of strings,
    integers and floats: the integers of a float column become floats. *)
Definition infer_dtypes (df : DataFrame) : DataFrame :=
  {| columns := columns df;
     rows := map (imap (fun j v => if float_column (rows df) j
                                   then to_float64 v else v))
                 (rows df) |}.

(** Lines 91 to 104. *)
Definition create_keyword_dataframe (results : list KeywordMetrics) : DataFrame :=
  infer_dtypes (mkDataFrame (map display_row results)).

(** *** A run of the page *)

Module App.

(** What the page shows, in the order of the calls; texts are kept as
    structured values. *)
Inductive element : Type :=
  | Title
  | ConfigurationHeader
  | EnvironmentStatus
  | VarStatus (var : string) (set : bool)
  | AllSet
  | MissingVars
  | SetUpEnv
  | InitSpinner
  | Connected
  | InitFailed (e : exn)
  | CheckCredentials
  | Divider
  | ResearchParameters
  | NotReady
  | ResearchHeader
  | NoSeedKeyword
  | ResearchSpinner (keywords : list string)
  | Progress (percent : Z)
  | ProgressCleared
  | Found (n : nat)
  | ResearchFailed (e : exn)
  | Traceback (e : exn).

(** The values of the sidebar's widgets and of the research button in one
    run of the script. *)
Record widgets : Type := {
  keywords_input : string;
  location : string;
  max_results : Z;
  include_adult : bool;
  start_pressed : bool
}.

Definition locations : list string :=
  ["United States"; "United Kingdom"; "Canada"; "India"]%string.

(** What the select box and the slider let through (lines 267 to 280). *)
Definition offered (w : widgets) : Prop :=
  In (location w) locations /\
  10 <= max_results w <= 200 /\ max_results w mod 10 = 0.

(** The program's state, [st.session_state] and the page. *)
Record app : Type := {
  world : state;
  research_results : option (list KeywordMetrics);
  kr_instance : option SimpleKeywordResearch;
  page : list element
}.

Definition set_world (s : state) (a : app) : app :=
  {| world := s; research_results := research_results a;
     kr_instance := kr_instance a; page := page a |}.
Definition set_research_results (r : option (list KeywordMetrics)) (a : app) : app :=
  {| world := world a; research_results := r;
     kr_instance := kr_instance a; page := page a |}.
Definition set_kr_instance (k : option SimpleKeywordResearch) (a : app) : app :=
  {| world := world a; research_results := research_results a;
     kr_instance := k; page := page a |}.
Definition show (x : element) (a : app) : app :=
  {| world := world a; research_results := research_results a;
     kr_instance := kr_instance a; page := page a ++ [x] |}.

Definition required_vars : list string :=
  ["GOOGLE_ADS_DEVELOPER_TOKEN"; "GOOGLE_ADS_CLIENT_ID";
   "GOOGLE_ADS_CLIENT_SECRET"; "GOOGLE_ADS_CUSTOMER_ID"]%string.

(** Calling a method of [None]. *)
Definition AttributeError : exn :=
  OtherException "'NoneType' object has no attribute 'search_keywords'".

Section Run.

Variable amb : ambient.

(** Lines 68 to 79. *)
Definition initialize_keyword_research (a : app) : bool * app :=
  match kr_instance a with
  | Some _ => (true, a)
  | None =>
      let a := show InitSpinner a in
      match __init__ amb (world a) with
      | (inr kr, s) =>
          (true, show Connected (set_kr_instance (Some kr) (set_world s a)))
      | (inl e, s) =>
          (false, show CheckCredentials (show (InitFailed e) (set_world s a)))
      end
  end.

Definition is_set (var : string) : bool := opt_truthy (getenv amb var).

(** The environment check of the sidebar (lines 233 to 254). *)
Definition environment_status (a : app) : bool * app :=
  let a := show EnvironmentStatus a in
  let a := fold_left (fun a var => show (VarStatus var (is_set var)) a)
                     required_vars a in
  if forallb is_set required_vars
  then initialize_keyword_research (show AllSet a)
  else (false, show SetUpEnv (show MissingVars a)).

(** The body of the research button (lines 300 to 328). The half second of
    [time.sleep] is not modelled. *)
Definition research (w : widgets) (a : app) : app :=
  let keywords := seed_keywords (keywords_input w) in
  match keywords with
  | [] => show NoSeedKeyword a
  | _ :: _ =>
      let a := show (Progress 25) (show (Progress 0) (show (ResearchSpinner keywords) a)) in
      let outcome :=
        match kr_instance a with
        | None => (inl AttributeError, world a)
        | Some kr =>
            search_keywords amb kr keywords (location w) (max_results w)
                            (include_adult w) (world a)
        end in
      match outcome with
      | (inr results, s) =>
          show (Found (length results))
            (show ProgressCleared
               (show (Progress 100)
                  (set_research_results (Some results)
                     (show (Progress 75) (set_world s a)))))
      | (inl e, s) => show (Traceback e) (show (ResearchFailed e) (set_world s a))
      end
  end.

(** [main] from its start to the end of the research button's column (lines
    220 to 328): the header, the sidebar, the readiness check and the
    research button. *)
Definition main (w : widgets) (a : app) : app :=
  let a := show ConfigurationHeader (show Title a) in
  let (api_ready, a) := environment_status a in
  let a := show ResearchParameters (show Divider a) in
  if negb api_ready then show NotReady a
  else
    let a := show ResearchHeader a in
    if start_pressed w then research w a else a.

End Run.

End App.

(** *** Vocabulary of the statements on the dashboard *)

(** The white space of the code points below 256: tab, line feed, vertical
    tab, form feed, carriage return, the four separators 28 to 31, space,
    next line and no-break space. *)
Definition whitespace : list ascii :=
  ["009"; "010"; "011"; "012"; "013"; "028"; "029"; "030"; "031"; " ";
   "133"; "160"]%char.

(** Neither the first nor the last character is white space. *)
Definition no_outer_space (k : string) : Prop :=
  (forall c t, k = String c t -> ~ In c whitespace) /\
  (forall t c, k = t +:+ String c EmptyString -> ~ In c whitespace).


Definition single_line (k : string) : Prop :=
  ~ In newline (list_ascii_of_string k).

(** A line that the parsing of the seed keywords leaves as it is. *)
Definition clean (k : string) : Prop :=
  k <> EmptyString /\ strip k = k /\ single_line k.

(** The widgets with another choice in the select box. *)
Definition with_location (l : string) (w : App.widgets) : App.widgets :=
  {| App.keywords_input := App.keywords_input w;
     App.location := l;
     App.max_results := App.max_results w;
     App.include_adult := App.include_adult w;
     App.start_pressed := App.start_pressed w |}.

(** The widgets as the page first shows them, with the button pressed, and
    a session that holds an object. *)
Definition default_widgets : App.widgets :=
  {| App.keywords_input := "python programming
web development
data science";
     App.location := "United States";
     App.max_results := 50;
     App.include_adult := false;
     App.start_pressed := true |}.

Definition connected_app : App.app :=
  {| App.world := empty_state;
     App.research_results := None;
     App.kr_instance := Some sample_self;
     App.page := [] |}.

(** The research of the default seed keywords for a location, by a service
    that answers with three ideas. *)
Definition research_in (l : string) : App.app :=
  App.research
    (surroundings (env_with_ids "123-456-7890" "")
                  (inr (Ads.pager_of three_ideas Ads.Stop)))
    (with_location l default_widgets) connected_app.

Definition not_comma (c : ascii) : bool := negb (Ascii.eqb c ",").

(* ===================================================================== *)
(** * Part II: properties *)
(* ===================================================================== *)

(** ** Running computations *)

Lemma bind_inr {A B : Type} (m : M A) (f : A -> M B) s a s' :
  m s = (inr a, s') -> (m ≫= f) s = f a s'.
Proof. intros H. unfold mbind, M_bind. rewrite H. reflexivity. Qed.

Lemma bind_inl {A B : Type} (m : M A) (f : A -> M B) s e s' :
  m s = (inl e, s') -> (m ≫= f) s = (inl e, s').
Proof. intros H. unfold mbind, M_bind. rewrite H. reflexivity. Qed.

Lemma bind_logger {B : Type} lv msg (f : unit -> M B) s :
  (logger lv msg ≫= f) s = f tt (set_log (log s ++ [(lv, msg)]) s).
Proof. reflexivity. Qed.

Lemma bind_lift_inr {A B : Type} (a : A) (f : A -> M B) s :
  (lift (inr a) ≫= f) s = f a s.
Proof. reflexivity. Qed.

Lemma bind_lift_inl {A B : Type} (e : exn) (f : A -> M B) s :
  (lift (inl e) ≫= f) s = (inl e, s).
Proof. reflexivity. Qed.

(** ** Binary64 division of integers *)

Lemma digits2_pos_size p : digits2_pos p = Pos.size p.
Proof. induction p; simpl; congruence. Qed.

Lemma Zdigits2_nonneg m : 0 <= Zdigits2 m.
Proof. destruct m; simpl; lia. Qed.

Lemma Zdigits2_le m k : 0 <= k -> 0 <= m < 2 ^ k -> Zdigits2 m <= k.
Proof.
  intros Hk [H0 Hm]. destruct m as [|p|p]; simpl; try lia.
  rewrite digits2_pos_size.
  destruct (Z_lt_le_dec k (Z.pos (Pos.size p))) as [Hlt|]; [|lia].
  exfalso.
  pose proof (Pos.size_le p) as Hs.
  assert (Hs' : 2 ^ Z.pos (Pos.size p) <= 2 * Z.pos p).
  { change (2 * Z.pos p) with (Z.pos p~0). rewrite <- Pos2Z.inj_pow. lia. }
  assert (2 ^ (k + 1) <= 2 ^ Z.pos (Pos.size p)) by (apply Z.pow_le_mono_r; lia).
  rewrite Z.pow_add_r in H by lia. lia.
Qed.

Lemma shr_1_m mrs : 0 <= shr_m mrs -> shr_m (shr_1 mrs) = shr_m mrs / 2.
Proof.
  destruct mrs as [m r s]; simpl. intros Hm.
  destruct m as [|[p|p|]|p]; cbn [shr_m]; try lia; try reflexivity.
  - apply Z.div_unique with (r := 1); lia.
  - apply Z.div_unique with (r := 0); lia.
Qed.

Lemma iter_pos_shr_1_m p : forall mrs, 0 <= shr_m mrs ->
  shr_m (SpecFloat.iter_pos shr_1 p mrs) = shr_m mrs / 2 ^ Z.pos p.
Proof.
  induction p as [p IH|p IH|]; intros mrs Hm; simpl SpecFloat.iter_pos.
  - assert (H1 : 0 <= shr_m (shr_1 mrs)) by (rewrite shr_1_m by lia; apply Z.div_pos; lia).
    assert (H2 : 0 <= shr_m (SpecFloat.iter_pos shr_1 p (shr_1 mrs))).
    { rewrite IH by lia. apply Z.div_pos; lia. }
    rewrite IH by lia. rewrite IH by lia. rewrite shr_1_m by lia.
    rewrite !Z.div_div by lia. f_equal.
    replace (Z.pos p~1) with (1 + Z.pos p + Z.pos p) by lia.
    rewrite !Z.pow_add_r by lia. lia.
  - assert (H2 : 0 <= shr_m (SpecFloat.iter_pos shr_1 p mrs)).
    { rewrite IH by lia. apply Z.div_pos; lia. }
    rewrite IH by lia. rewrite IH by lia.
    rewrite !Z.div_div by lia. f_equal.
    replace (Z.pos p~0) with (Z.pos p + Z.pos p) by lia.
    rewrite !Z.pow_add_r by lia. lia.
  - rewrite shr_1_m by lia. reflexivity.
Qed.

Lemma round_nearest_even_bounds m l : m <= round_nearest_even m l <= m + 1.
Proof. destruct l as [|[| |]]; simpl; try lia. destruct (Z.even m); lia. Qed.

Lemma shr_record_of_loc_m m l : shr_m (shr_record_of_loc m l) = m.
Proof. destruct l as [|[| |]]; reflexivity. Qed.

(** One shift to the format's exponent: the exponent it ends at and the
    mantissa it leaves. *)
Lemma shr_fexp_spec mx ex lx :
  0 <= mx ->
  snd (shr_fexp prec emax mx ex lx) = Z.max ex (fexp prec emax (Zdigits2 mx + ex)) /\
  shr_m (fst (shr_fexp prec emax mx ex lx)) =
    mx / 2 ^ (snd (shr_fexp prec emax mx ex lx) - ex).
Proof.
  intros Hm. unfold shr_fexp, shr.
  destruct (fexp prec emax (Zdigits2 mx + ex) - ex) as [|p|p] eqn:En; cbn [fst snd].
  - rewrite shr_record_of_loc_m, Z.sub_diag, Z.div_1_r. lia.
  - rewrite iter_pos_shr_1_m by (rewrite shr_record_of_loc_m; lia).
    rewrite shr_record_of_loc_m. split; [lia|]. f_equal. f_equal. lia.
  - rewrite shr_record_of_loc_m, Z.sub_diag, Z.div_1_r. lia.
Qed.

(** Rounding a mantissa below [2 ^ k] at an exponent that leaves room below
    [emax] gives a zero or a finite number of the sign asked for. *)
Lemma binary_round_aux_finite sx mx ex lx k :
  0 <= k -> 0 <= mx < 2 ^ k -> ex <= emax - prec -> k + ex + 1 <= emax ->
  binary_round_aux prec emax sx mx ex lx = S754_zero sx \/
  exists m e, binary_round_aux prec emax sx mx ex lx = S754_finite sx m e.
Proof.
  intros Hk [Hm0 Hmk] Hex Hke. unfold binary_round_aux.
  pose proof (shr_fexp_spec mx ex lx Hm0) as [He1 Hm1].
  destruct (shr_fexp prec emax mx ex lx) as [mrs1 e1]. cbn [fst snd] in He1, Hm1.
  set (mr := round_nearest_even (shr_m mrs1) (loc_of_shr_record mrs1)).
  pose proof (round_nearest_even_bounds (shr_m mrs1) (loc_of_shr_record mrs1)) as Hmr.
  fold mr in Hmr.
  pose proof (Zdigits2_le mx k Hk (conj Hm0 Hmk)) as Hd.
  pose proof (Zdigits2_nonneg mx) as Hd0.
  assert (Hj : 0 <= e1 - ex) by lia.
  assert (Hm1pos : 0 <= shr_m mrs1) by (rewrite Hm1; apply Z.div_pos; lia).
  assert (He1max : e1 <= emax - prec).
  { rewrite He1. unfold fexp, SpecFloat.emin, emax, prec in *. lia. }
  assert (Hdr : Zdigits2 mr + e1 <= emax).
  { destruct (Z_le_gt_dec (e1 - ex) k) as [Hjk|Hjk].
    - assert (shr_m mrs1 < 2 ^ (k - (e1 - ex))).
      { rewrite Hm1. apply Z.div_lt_upper_bound; [lia|].
        rewrite <- Z.pow_add_r by lia.
        replace (e1 - ex + (k - (e1 - ex))) with k by lia. lia. }
      assert (Zdigits2 mr <= k - (e1 - ex) + 1).
      { apply Zdigits2_le; [lia|]. rewrite Z.pow_add_r by lia. lia. }
      lia.
    - assert (shr_m mrs1 = 0).
      { rewrite Hm1. apply Z.div_small. split; [lia|].
        apply Z.lt_le_trans with (2 ^ k); [lia|]. apply Z.pow_le_mono_r; lia. }
      assert (Zdigits2 mr <= 1) by (apply Zdigits2_le; simpl; lia).
      unfold emax, prec in *. lia. }
  assert (Hmr0 : 0 <= mr) by lia.
  pose proof (shr_fexp_spec mr e1 loc_Exact Hmr0) as [He2 Hm2].
  destruct (shr_fexp prec emax mr e1 loc_Exact) as [mrs2 e2]. cbn [fst snd] in He2, Hm2.
  assert (Hm2pos : 0 <= shr_m mrs2) by (rewrite Hm2; apply Z.div_pos; lia).
  assert (He2max : e2 <= emax - prec).
  { rewrite He2. unfold fexp, SpecFloat.emin, emax, prec in *. lia. }
  destruct (shr_m mrs2) as [|m|m]; [left; reflexivity| |lia].
  right. exists m, e2. destruct (Z.leb_spec e2 (emax - prec)); [reflexivity|lia].
Qed.

(** The quotient the division core hands to the rounding: the dividend
    scaled by a power of two, divided as integers. *)
Lemma SFdiv_core_binary_spec (a b : positive) :
  exists s l, 0 <= s /\
    SFdiv_core_binary prec emax (Z.pos a) 0 (Z.pos b) 0 =
      (Z.pos a * 2 ^ s / Z.pos b, - s, l).
Proof.
  unfold SFdiv_core_binary.
  set (e' := Z.min _ _).
  assert (He' : e' <= 0) by (unfold e'; lia).
  exists (- e').
  assert (Hm : match 0 - 0 - e' with
               | 0 => Z.pos a
               | Z.pos _ => Z.shiftl (Z.pos a) (0 - 0 - e')
               | Z.neg _ => 0
               end = Z.pos a * 2 ^ (- e')).
  { destruct (0 - 0 - e') as [|p|p] eqn:Es.
    - replace (- e') with 0 by lia. lia.
    - rewrite Z.shiftl_mul_pow2 by lia. f_equal. f_equal. lia.
    - lia. }
  rewrite Hm. clear Hm.
  unfold Z.div.
  destruct (Z.div_eucl (Z.pos a * 2 ^ (- e')) (Z.pos b)) as [q r].
  eexists. split; [lia|]. cbn [fst]. rewrite Z.opp_involutive. reflexivity.
Qed.

Lemma SFdiv_int_finite (a b : positive) (sx sy : bool) K :
  0 <= K <= 1023 -> Z.pos a < Z.pos b * 2 ^ K ->
  SFdiv prec emax (S754_finite sx a 0) (S754_finite sy b 0) = S754_zero (xorb sx sy) \/
  exists m e,
    SFdiv prec emax (S754_finite sx a 0) (S754_finite sy b 0) = S754_finite (xorb sx sy) m e.
Proof.
  intros HK Hab. unfold SFdiv.
  destruct (SFdiv_core_binary_spec a b) as (s & l & Hs & ->).
  apply binary_round_aux_finite with (k := K + s); unfold emax, prec; try lia.
  split.
  - apply Z.div_pos; [|lia]. apply Z.mul_nonneg_nonneg; [lia|]. apply Z.pow_nonneg; lia.
  - apply Z.div_lt_upper_bound; [lia|].
    rewrite Z.pow_add_r by lia.
    assert (0 < 2 ^ s) by (apply Z.pow_pos_nonneg; lia). nia.
Qed.

(** A quotient below [2 ^ 1023] in size is a finite float, with the sign of
    the dividend when the divisor is positive. *)
Lemma fdiv_finite a b K :
  0 < b -> 0 <= K <= 1023 -> Z.abs a < b * 2 ^ K ->
  is_finite (fdiv a b) = true /\ sign_bit (fdiv a b) = (a <? 0).
Proof.
  intros Hb HK Hab. unfold fdiv.
  destruct b as [|b|b]; try lia.
  destruct a as [|a|a]; cbn [int_to_float].
  - split; reflexivity.
  - destruct (SFdiv_int_finite a b false false K HK) as [-> | (m & e & ->)];
      [lia | split; reflexivity | split; reflexivity].
  - destruct (SFdiv_int_finite a b true false K HK) as [-> | (m & e & ->)];
      [lia | split; reflexivity | split; reflexivity].
Qed.

Lemma int_truediv_inr a b K :
  0 < b -> 0 <= K <= 1023 -> Z.abs a < b * 2 ^ K ->
  int_truediv a b = inr (fdiv a b).
Proof.
  intros Hb HK Hab. unfold int_truediv.
  destruct (Z.eqb_spec b 0); [lia|].
  destruct (fdiv_finite a b K Hb HK Hab) as [Hf _].
  destruct (fdiv a b); try reflexivity; discriminate.
Qed.

Lemma float_le_zero_nonneg (x : float) :
  is_finite x = true -> sign_bit x = false -> float_le float_zero x = true.
Proof. destruct x as [s|s| |s m e]; simpl; try discriminate; intros _ ->; reflexivity. Qed.

Lemma int_or_range (x : option Z) (P : Z -> Prop) :
  P 0 -> (forall v, x = Some v -> P v) -> P (int_or x 0).
Proof.
  intros H0 Hx. destruct x as [v|]; simpl; [|exact H0].
  destruct (v =? 0); [exact H0 | apply Hx; reflexivity].
Qed.

Lemma Zdigits2_bounds m : 0 < m -> 2 ^ (Zdigits2 m - 1) <= m < 2 ^ Zdigits2 m.
Proof.
  intros Hm. destruct m as [|p|p]; try lia. cbn [Zdigits2].
  rewrite digits2_pos_size.
  pose proof (Pos.size_le p) as Hle. pose proof (Pos.size_gt p) as Hgt.
  split.
  - assert (H : 2 ^ Z.pos (Pos.size p) <= 2 * Z.pos p).
    { change (2 * Z.pos p) with (Z.pos p~0). rewrite <- Pos2Z.inj_pow. lia. }
    replace (Z.pos (Pos.size p)) with (1 + (Z.pos (Pos.size p) - 1)) in H by lia.
    rewrite Z.pow_add_r in H by lia. lia.
  - rewrite <- Pos2Z.inj_pow. lia.
Qed.

Lemma Zdigits2_unique m d : 2 ^ (d - 1) <= m < 2 ^ d -> 0 < d -> Zdigits2 m = d.
Proof.
  intros [Hlo Hhi] Hd.
  assert (Hm : 0 < m) by (pose proof (Z.pow_pos_nonneg 2 (d - 1)); lia).
  destruct (Zdigits2_bounds m Hm) as [Hlo' Hhi'].
  pose proof (Zdigits2_nonneg m) as H0.
  destruct (Z_lt_le_dec (Zdigits2 m) d) as [Hlt|Hge].
  - exfalso. assert (2 ^ Zdigits2 m <= 2 ^ (d - 1)) by (apply Z.pow_le_mono_r; lia). lia.
  - destruct (Z_lt_le_dec d (Zdigits2 m)) as [Hlt|Hle]; [|lia].
    exfalso. assert (2 ^ d <= 2 ^ (Zdigits2 m - 1)) by (apply Z.pow_le_mono_r; lia). lia.
Qed.

Lemma Zdigits2_shift k j : 0 < k -> 0 <= j -> Zdigits2 (k * 2 ^ j) = Zdigits2 k + j.
Proof.
  intros Hk Hj. destruct (Zdigits2_bounds k Hk) as [Hlo Hhi].
  pose proof (Zdigits2_nonneg k).
  assert (0 < Zdigits2 k).
  { destruct k; try lia. cbn. lia. }
  assert (0 < 2 ^ j) by (apply Z.pow_pos_nonneg; lia).
  apply Zdigits2_unique; [|lia].
  replace (Zdigits2 k + j - 1) with (Zdigits2 k - 1 + j) by lia.
  rewrite !Z.pow_add_r by lia. nia.
Qed.

Lemma shr_1_even m : 0 <= m ->
  shr_1 {| shr_m := 2 * m; shr_r := false; shr_s := false |} =
  {| shr_m := m; shr_r := false; shr_s := false |}.
Proof. intros Hm. destruct m as [|p|p]; try lia; reflexivity. Qed.

Lemma shr_fexp_exact (m e j : Z) :
  0 <= m -> 0 <= j <= 1 ->
  fexp prec emax (Zdigits2 (m * 2 ^ j) + e) - e = j ->
  shr_fexp prec emax (m * 2 ^ j) e loc_Exact =
  ({| shr_m := m; shr_r := false; shr_s := false |}, e + j).
Proof.
  intros Hm Hj Hn. unfold shr_fexp. rewrite Hn.
  assert (Hcase : j = 0 \/ j = 1) by lia.
  destruct Hcase as [-> | ->]; cbn [shr shr_record_of_loc SpecFloat.iter_pos].
  - rewrite Z.mul_1_r, Z.add_0_r. reflexivity.
  - change (2 ^ 1) with 2. rewrite (Z.mul_comm m 2), shr_1_even by lia. reflexivity.
Qed.

(** The quotient of a whole multiple of the divisor is the float of the
    whole number itself. *)
Lemma fdiv_whole (k : Z) :
  0 < k < 2 ^ 53 ->
  fdiv (k * 1000000) 1000000 =
  S754_finite false (Z.to_pos (k * 2 ^ (53 - Zdigits2 k))) (Zdigits2 k - 53).
Proof.
  intros Hk.
  set (dk := Zdigits2 k).
  assert (Hdk : 1 <= dk <= 53).
  { destruct (Zdigits2_bounds k ltac:(lia)) as [Hlo Hhi]. fold dk in Hlo, Hhi.
    split.
    - destruct k; try lia. unfold dk. cbn. lia.
    - pose proof (Zdigits2_le k 53 ltac:(lia) ltac:(lia)). fold dk in H. lia. }
  unfold fdiv.
  destruct (k * 1000000) as [|a|a] eqn:Ea; try lia.
  cbn [int_to_float]. unfold SFdiv, SFdiv_core_binary.
  change (Zdigits2 1000000) with 20.
  rewrite <- Ea.
  set (d1 := Zdigits2 (k * 1000000)).
  assert (Hd1 : dk + 19 <= d1 <= dk + 20).
  { destruct (Zdigits2_bounds k ltac:(lia)) as [Hlo Hhi]. fold dk in Hlo, Hhi.
    destruct (Zdigits2_bounds (k * 1000000) ltac:(lia)) as [Hlo1 Hhi1]. fold d1 in Hlo1, Hhi1.
    assert (0 <= d1) by apply Zdigits2_nonneg.
    split.
    - destruct (Z_lt_le_dec d1 (dk + 19)) as [Hlt|]; [|lia]. exfalso.
      assert (2 ^ d1 <= 2 ^ (dk - 1 + 19)) by (apply Z.pow_le_mono_r; lia).
      rewrite Z.pow_add_r in H0 by lia. change (2 ^ 19) with 524288 in H0. nia.
    - destruct (Z_lt_le_dec (dk + 20) d1) as [Hlt|]; [|lia]. exfalso.
      assert (2 ^ (dk + 20) <= 2 ^ (d1 - 1)) by (apply Z.pow_le_mono_r; lia).
      rewrite Z.pow_add_r in H0 by lia. change (2 ^ 20) with 1048576 in H0. nia. }
  assert (He' : Z.min (fexp prec emax (d1 + 0 - (20 + 0))) (0 - 0) = d1 - 73).
  { unfold fexp, SpecFloat.emin, prec, emax. lia. }
  rewrite He'.
  set (s := 73 - d1).
  assert (Hs : 0 <= s) by (unfold s; lia).
  replace (0 - 0 - (d1 - 73)) with s by (unfold s; lia).
  assert (Hm' : match s with
                | 0 => k * 1000000
                | Z.pos _ => Z.shiftl (k * 1000000) s
                | Z.neg _ => 0
                end = k * 2 ^ s * 1000000).
  { destruct s as [|p|p] eqn:Es; try lia.
    rewrite Z.shiftl_mul_pow2 by lia. lia. }
  rewrite Hm'. clear Hm'.
  assert (Hdiv : Z.div_eucl (k * 2 ^ s * 1000000) 1000000 = (k * 2 ^ s, 0)).
  { pose proof (Z.div_eucl_eq (k * 2 ^ s * 1000000) 1000000 ltac:(lia)) as Heq.
    pose proof (Z.mod_pos_bound (k * 2 ^ s * 1000000) 1000000 ltac:(lia)) as Hmod.
    unfold Z.modulo in Hmod.
    destruct (Z.div_eucl (k * 2 ^ s * 1000000) 1000000) as [q r].
    f_equal; nia. }
  rewrite Hdiv.
  change (new_location 1000000 0) with loc_Exact.
  change (xorb false false) with false.
  unfold binary_round_aux.
  replace (d1 - 73) with (- s) by (unfold s; lia).
  set (n1 := dk + 20 - d1).
  assert (Hn1 : 0 <= n1 <= 1) by (unfold n1; lia).
  assert (Hpow : 0 < 2 ^ (53 - dk)) by (apply Z.pow_pos_nonneg; lia).
  assert (Hsplit : k * 2 ^ s = k * 2 ^ (53 - dk) * 2 ^ n1).
  { rewrite <- Z.mul_assoc, <- Z.pow_add_r by lia. f_equal. f_equal. unfold s, n1. lia. }
  rewrite Hsplit.
  rewrite (shr_fexp_exact (k * 2 ^ (53 - dk)) (- s) n1); [|nia|exact Hn1|].
  2:{ rewrite <- Hsplit, Zdigits2_shift by lia. fold dk.
      unfold fexp, SpecFloat.emin, prec, emax, s, n1. lia. }
  cbn [shr_m loc_of_shr_record round_nearest_even].
  replace (k * 2 ^ (53 - dk)) with (k * 2 ^ (53 - dk) * 2 ^ 0) at 1 by (cbn; lia).
  rewrite (shr_fexp_exact (k * 2 ^ (53 - dk)) (- s + n1) 0); [|nia|lia|].
  2:{ replace (k * 2 ^ (53 - dk) * 2 ^ 0) with (k * 2 ^ (53 - dk)) by (cbn; lia).
      rewrite Zdigits2_shift by lia. fold dk.
      unfold fexp, SpecFloat.emin, prec, emax, s, n1. lia. }
  cbn [shr_m].
  destruct (k * 2 ^ (53 - dk)) as [|m|m] eqn:Em; try nia.
  replace (- s + n1 + 0) with (dk - 53) by (unfold s, n1; lia).
  destruct (Z.leb_spec (dk - 53) (emax - prec)) as [_|Hbad];
    [|unfold emax, prec in Hbad; lia].
  reflexivity.
Qed.

Lemma fdiv_whole_value (k : Z) :
  0 <= k < 2 ^ 53 ->
  exists q : Q,
    float_value (fdiv (k * 1000000) 1000000) = Some q /\ (q == inject_Z k)%Q.
Proof.
  intros Hk. destruct (Z.eq_dec k 0) as [->|Hk0].
  { exists 0%Q. split; reflexivity. }
  rewrite fdiv_whole by lia.
  set (dk := Zdigits2 k).
  assert (Hdk : 1 <= dk <= 53).
  { split.
    - destruct k; try lia. unfold dk. cbn. lia.
    - apply Zdigits2_le; lia. }
  assert (Hpow : 0 < 2 ^ (53 - dk)) by (apply Z.pow_pos_nonneg; lia).
  assert (Hm : Z.pos (Z.to_pos (k * 2 ^ (53 - dk))) = k * 2 ^ (53 - dk))
    by (apply Z2Pos.id; nia).
  cbn [float_value]. eexists. split; [reflexivity|].
  rewrite Qred_correct.
  destruct (Z.leb_spec 0 (dk - 53)) as [He|He].
  - replace (dk - 53) with 0 by lia. rewrite Hm.
    replace (53 - dk) with 0 by lia. unfold Qeq. cbn. lia.
  - unfold Qeq. cbn [Qnum Qden inject_Z]. rewrite Hm, Pos2Z.inj_pow, Z2Pos.id by lia.
    replace (- (dk - 53)) with (53 - dk) by lia. lia.
Qed.

(** ** Normalization *)

Lemma bid_inr (x : option Z) :
  opt_all int64_range x ->
  int_truediv (int_or x 0) 1000000 = inr (fdiv (default 0 x) 1000000).
Proof.
  intros Hx.
  assert (Hd : int_or x 0 = default 0 x).
  { destruct x as [v|]; simpl; [|reflexivity]. destruct (Z.eqb_spec v 0); congruence. }
  rewrite Hd. apply int_truediv_inr with (K := 63); [lia | lia |].
  assert (int64_range (default 0 x)).
  { destruct x as [v|]; simpl; [apply Hx; reflexivity | unfold int64_range; lia]. }
  unfold int64_range in *. lia.
Qed.

Lemma extract_metrics_inr (idea : Ads.KeywordIdea) (s : state) :
  Ads.bids_in_range idea ->
  _extract_metrics idea s = (inr (metrics_of idea), s).
Proof.
  intros [Hlo Hhi]. unfold _extract_metrics. cbv zeta.
  rewrite (bid_inr _ Hlo), bind_lift_inr.
  rewrite (bid_inr _ Hhi), bind_lift_inr.
  reflexivity.
Qed.

(** C3. Normalizing an idea record changes nothing and always returns a
    [KeywordMetrics]: the keyword is the idea's text; a missing search
    volume becomes [0], a missing competition ["UNKNOWN"], a missing
    competition index [0.0], and a value that is there is kept; each bid is
    the binary64 quotient of the micro amount (or [0]) by 1,000,000, with
    no further rounding, so that 2,500,000 micros give exactly 2.5 and a
    whole number of millions below [2 ^ 53] gives exactly that number. *)
Theorem extract_metrics_defaults (idea : Ads.KeywordIdea) (s : state) :
  Ads.bids_in_range idea ->
  let m := Ads.keyword_idea_metrics idea in
  exists r : KeywordMetrics,
    _extract_metrics idea s = (inr r, s) /\
    keyword r = Ads.text idea /\
    search_volume r = default 0 (Ads.avg_monthly_searches m) /\
    competition r =
      match Ads.competition m with
      | Some Ads.LOW => "LOW" | Some Ads.MEDIUM => "MEDIUM" | Some Ads.HIGH => "HIGH"
      | Some Ads.UNKNOWN | Some Ads.UNSPECIFIED | None => "UNKNOWN"
      end%string /\
    (Ads.competition_index m = None -> competition_index r = float_zero) /\
    (forall f, Ads.competition_index m = Some f -> float_truthy f = true ->
               competition_index r = f) /\
    (forall f, Ads.competition_index m = Some f -> float_truthy f = false ->
               competition_index r = float_zero) /\
    low_bid_usd r = fdiv (default 0 (Ads.low_top_of_page_bid_micros m)) 1000000 /\
    high_bid_usd r = fdiv (default 0 (Ads.high_top_of_page_bid_micros m)) 1000000 /\
    (Ads.low_top_of_page_bid_micros m = Some 2500000 ->
       float_value (low_bid_usd r) = Some (5 # 2)%Q) /\
    (Ads.high_top_of_page_bid_micros m = Some 2500000 ->
       float_value (high_bid_usd r) = Some (5 # 2)%Q) /\
    (forall k, 0 <= k < 2 ^ 53 ->
       Ads.low_top_of_page_bid_micros m = Some (k * 1000000) ->
       exists q, float_value (low_bid_usd r) = Some q /\ (q == inject_Z k)%Q) /\
    (forall k, 0 <= k < 2 ^ 53 ->
       Ads.high_top_of_page_bid_micros m = Some (k * 1000000) ->
       exists q, float_value (high_bid_usd r) = Some q /\ (q == inject_Z k)%Q).
Proof.
  intros Hb m. subst m.
  set (m := Ads.keyword_idea_metrics idea).
  eexists. split; [apply extract_metrics_inr; exact Hb|].
  unfold metrics_of.
  cbn [keyword search_volume competition competition_index low_bid_usd high_bid_usd].
  fold m.
  split; [reflexivity|]. split.
  { destruct (Ads.avg_monthly_searches m) as [v|]; simpl; [|reflexivity].
    destruct (Z.eqb_spec v 0); congruence. }
  split.
  { destruct (Ads.competition m) as [[]|]; reflexivity. }
  split.
  { intros ->. reflexivity. }
  split.
  { intros f -> Hf. simpl. rewrite Hf. reflexivity. }
  split.
  { intros f -> Hf. simpl. rewrite Hf. reflexivity. }
  split; [reflexivity|]. split; [reflexivity|].
  split; [intros ->; reflexivity|].
  split; [intros ->; reflexivity|].
  split; intros k Hk ->; apply fdiv_whole_value; exact Hk.
Qed.

Lemma extract_metrics_defaults_witness :
  exists r : KeywordMetrics,
    _extract_metrics bare_idea empty_state = (inr r, empty_state) /\
    keyword r = "python"%string /\
    search_volume r = 0 /\
    competition r = "UNKNOWN"%string /\
    competition_index r = float_zero /\
    float_value (low_bid_usd r) = Some (5 # 2)%Q /\
    high_bid_usd r = float_zero.
Proof.
  destruct (extract_metrics_defaults bare_idea empty_state)
    as (r & Hrun & Hk & Hv & Hc & Hci & _ & _ & _ & Hhi & Hlo25 & _ & _ & _).
  - split; intros v Hv; cbn in Hv; try discriminate.
    injection Hv as <-. unfold int64_range. lia.
  - exists r. split; [exact Hrun|]. split; [exact Hk|]. split; [exact Hv|].
    split; [exact Hc|]. split; [apply Hci; reflexivity|].
    split; [apply Hlo25; reflexivity | exact Hhi].
Defined.

Lemma fdiv_micros_nonneg (x : option Z) :
  opt_all (fun v => 0 <= v < 2 ^ 63) x ->
  float_le float_zero (fdiv (default 0 x) 1000000) = true.
Proof.
  intros Hx.
  assert (H : 0 <= default 0 x < 2 ^ 63).
  { destruct x as [v|]; simpl; [apply Hx; reflexivity | lia]. }
  destruct (fdiv_finite (default 0 x) 1000000 63) as [Hf Hs]; [lia | lia | lia |].
  apply float_le_zero_nonneg; [exact Hf|].
  rewrite Hs. apply Z.ltb_ge. lia.
Qed.

Lemma well_formed_bids_in_range (idea : Ads.KeywordIdea) :
  Ads.well_formed idea -> Ads.bids_in_range idea.
Proof.
  intros (_ & Hlo & Hhi & _).
  split; intros v Hv; [apply Hlo in Hv | apply Hhi in Hv]; unfold int64_range; lia.
Qed.

(** C4. A well-formed idea record (search count and bids not negative, the
    competition index a number between 0.0 and 1.0, any competition level)
    normalizes to a [KeywordMetrics] whose search volume and bids are not
    negative and whose competition index is a number between 0.0 and 1.0. *)
Theorem extract_metrics_ranges (idea : Ads.KeywordIdea) (s : state) :
  Ads.well_formed idea ->
  exists r : KeywordMetrics,
    _extract_metrics idea s = (inr r, s) /\
    0 <= search_volume r /\
    float_le float_zero (low_bid_usd r) = true /\
    float_le float_zero (high_bid_usd r) = true /\
    unit_interval (competition_index r) = true.
Proof.
  intros Hwf. pose proof (well_formed_bids_in_range idea Hwf) as Hb.
  destruct Hwf as (Hv & Hlo & Hhi & Hci).
  eexists. split; [apply extract_metrics_inr; exact Hb|].
  unfold metrics_of.
  cbn [keyword search_volume competition competition_index low_bid_usd high_bid_usd].
  split.
  { apply (int_or_range _ (fun v => 0 <= v)); [lia | exact Hv]. }
  split; [apply fdiv_micros_nonneg; exact Hlo|].
  split; [apply fdiv_micros_nonneg; exact Hhi|].
  destruct (Ads.competition_index (Ads.keyword_idea_metrics idea)) as [f|] eqn:Ef;
    simpl; [|reflexivity].
  destruct (float_truthy f); [apply Hci; reflexivity | reflexivity].
Qed.

Lemma extract_metrics_ranges_witness :
  exists r : KeywordMetrics,
    _extract_metrics (sample_idea "python course" 500 (Some 2500000) (Some 4000000))
                     empty_state = (inr r, empty_state) /\
    0 <= search_volume r /\
    float_le float_zero (low_bid_usd r) = true /\
    float_le float_zero (high_bid_usd r) = true /\
    unit_interval (competition_index r) = true.
Proof.
  apply (extract_metrics_ranges
           (sample_idea "python course" 500 (Some 2500000) (Some 4000000)) empty_state).
  unfold Ads.well_formed, opt_all. cbn.
  split; [intros v [= <-]; lia|].
  split; [intros v [= <-]; lia|].
  split; [intros v [= <-]; lia|].
  intros f [= <-]. reflexivity.
Defined.

(** ** The geo id of a location *)

Lemma lower_char_same_letter (a b : ascii) :
  lower_char a = lower_char b <-> same_letter a b.
Proof.
  pose proof (nat_ascii_bounded a) as Ha. pose proof (nat_ascii_bounded b) as Hb.
  pose proof (ascii_nat_embedding a) as Ea. pose proof (ascii_nat_embedding b) as Eb.
  assert (Hinj : forall x y, (x < 256)%nat -> (y < 256)%nat ->
                             ascii_of_nat x = ascii_of_nat y -> x = y).
  { intros x y Hx Hy H. apply (f_equal nat_of_ascii) in H.
    rewrite !nat_ascii_embedding in H by assumption. exact H. }
  unfold lower_char, is_upper, same_letter.
  remember (nat_of_ascii a) as x eqn:Hxa. remember (nat_of_ascii b) as y eqn:Hyb.
  split.
  - destruct ((65 <=? x)%nat && (x <=? 90)%nat) eqn:Ux;
      destruct ((65 <=? y)%nat && (y <=? 90)%nat) eqn:Uy;
      try (apply andb_true_iff in Ux; rewrite !Nat.leb_le in Ux);
      try (apply andb_false_iff in Ux; rewrite !Nat.leb_gt in Ux);
      try (apply andb_true_iff in Uy; rewrite !Nat.leb_le in Uy);
      try (apply andb_false_iff in Uy; rewrite !Nat.leb_gt in Uy);
      intros H.
    + left. rewrite <- Ea, <- Eb. f_equal.
      apply Hinj in H; clear Hinj; lia.
    + rewrite <- Eb in H. apply Hinj in H; clear Hinj; [|lia|lia].
      right. exists (x - 65)%nat. split; [lia|]. left.
      split; [rewrite <- Ea | rewrite <- Eb]; f_equal; lia.
    + rewrite <- Ea in H. apply Hinj in H; clear Hinj; [|lia|lia].
      right. exists (y - 65)%nat. split; [lia|]. right.
      split; [rewrite <- Ea | rewrite <- Eb]; f_equal; lia.
    + left. exact H.
  - clear Hinj. intros [->|(n & Hn & [[Hx Hy]|[Hx Hy]])]; [subst x y; reflexivity| |].
    + assert (Ex : x = (65 + n)%nat)
        by (rewrite Hxa, Hx; apply nat_ascii_embedding; lia).
      assert (Ey : y = (97 + n)%nat)
        by (rewrite Hyb, Hy; apply nat_ascii_embedding; lia).
      replace ((65 <=? x)%nat && (x <=? 90)%nat) with true
        by (symmetry; apply andb_true_iff; rewrite !Nat.leb_le; lia).
      replace ((65 <=? y)%nat && (y <=? 90)%nat) with false
        by (symmetry; apply andb_false_iff; rewrite !Nat.leb_gt; lia).
      rewrite Hy, Ex. f_equal. lia.
    + assert (Ex : x = (97 + n)%nat)
        by (rewrite Hxa, Hx; apply nat_ascii_embedding; lia).
      assert (Ey : y = (65 + n)%nat)
        by (rewrite Hyb, Hy; apply nat_ascii_embedding; lia).
      replace ((65 <=? x)%nat && (x <=? 90)%nat) with false
        by (symmetry; apply andb_false_iff; rewrite !Nat.leb_gt; lia).
      replace ((65 <=? y)%nat && (y <=? 90)%nat) with true
        by (symmetry; apply andb_true_iff; rewrite !Nat.leb_le; lia).
      rewrite Hx, Ey. f_equal. lia.
Qed.

Lemma lower_same_ignoring_case (s t : string) :
  lower s = lower t <-> same_ignoring_case s t.
Proof.
  split.
  - revert t. induction s as [|a s IH]; intros [|b t] H; simpl in H;
      try discriminate; constructor.
    + apply lower_char_same_letter. congruence.
    + apply IH. congruence.
  - induction 1 as [|a b s t Hab _ IH]; simpl; [reflexivity|].
    apply lower_char_same_letter in Hab. congruence.
Qed.

Lemma lower_is (s t : string) :
  lower t = t -> (lower s = t <-> same_ignoring_case s t).
Proof. intros Ht. rewrite <- lower_same_ignoring_case, Ht. reflexivity. Qed.

(** C2. The geo id of a location is always one of the three known ids: the
    UK id 2826 exactly for the locations that are "uk" or "united kingdom"
    up to the case of their letters ("UK", "Uk", "United Kingdom"), the
    Canada id 2124 exactly for those that are "canada" up to case
    ("Canada", "CANADA"), and the US id 2840 for every other location,
    "united states" and the empty string among them. Two strings are the
    same up to case when they have the same length and, place by place, the
    same character or the same letter in its two cases. The id is a total
    function of the location, and it is the id the request carries. *)
Theorem location_id_cases :
  forall location : string,
    (location_id location = "2826"%string <->
       same_ignoring_case location "uk" \/
       same_ignoring_case location "united kingdom") /\
    (location_id location = "2124"%string <-> same_ignoring_case location "canada") /\
    (location_id location = "2840"%string <->
       ~ (same_ignoring_case location "uk" \/
          same_ignoring_case location "united kingdom" \/
          same_ignoring_case location "canada")) /\
    (location_id location = "2826"%string \/ location_id location = "2124"%string \/
     location_id location = "2840"%string) /\
    map location_id ["uk"; "UK"; "Uk"; "uK"; "united kingdom"; "United Kingdom";
                     "UNITED KINGDOM"]%string =
      ["2826"; "2826"; "2826"; "2826"; "2826"; "2826"; "2826"]%string /\
    map location_id ["canada"; "Canada"; "CANADA"; "cAnAdA"]%string =
      ["2124"; "2124"; "2124"; "2124"]%string /\
    map location_id ["united states"; "United States"; ""; "India"; "u.k."; " uk";
                     "uk "; "great britain"]%string =
      ["2840"; "2840"; "2840"; "2840"; "2840"; "2840"; "2840"; "2840"]%string /\
    (forall self keywords include_adult_keywords,
       Ads.req_geo_target_constants
         (build_request self keywords location include_adult_keywords) =
       [Ads.geo_target_constant_path (location_id location)]).
Proof.
  intros location.
  assert (Hcases :
    (location_id location = "2826"%string <->
       same_ignoring_case location "uk" \/
       same_ignoring_case location "united kingdom") /\
    (location_id location = "2124"%string <-> same_ignoring_case location "canada") /\
    (location_id location = "2840"%string <->
       ~ (same_ignoring_case location "uk" \/
          same_ignoring_case location "united kingdom" \/
          same_ignoring_case location "canada"))).
  { pose proof (lower_is location "uk" eq_refl) as Huk.
    pose proof (lower_is location "united kingdom" eq_refl) as Hunited.
    pose proof (lower_is location "canada" eq_refl) as Hca.
    unfold location_id, str_in, existsb.
    destruct (String.eqb_spec (lower location) "uk") as [E1|E1];
      [|destruct (String.eqb_spec (lower location) "united kingdom") as [E2|E2];
        [|destruct (String.eqb_spec (lower location) "canada") as [E3|E3]]];
      cbn [orb].
    - assert (lower location <> "canada"%string) by (rewrite E1; discriminate).
      intuition (try reflexivity; try discriminate).
    - assert (lower location <> "canada"%string) by (rewrite E2; discriminate).
      intuition (try reflexivity; try discriminate).
    - intuition (try reflexivity; try discriminate).
    - intuition (try reflexivity; try discriminate). }
  destruct Hcases as (H1 & H2 & H3).
  split; [exact H1|]. split; [exact H2|]. split; [exact H3|].
  split.
  { unfold location_id.
    destruct (str_in (lower location) ["uk"; "united kingdom"]%string); [tauto|].
    destruct (str_in (lower location) ["canada"]%string); tauto. }
  repeat split.
Qed.

Example location_id_samples :
  map location_id ["UK"; "uk"; "United Kingdom"; "UNITED KINGDOM"; "Canada"; "cAnAdA";
                   "United States"; "India"; "u.k."; " uk"; ""]%string =
  ["2826"; "2826"; "2826"; "2826"; "2124"; "2124";
   "2840"; "2840"; "2840"; "2840"; "2840"]%string.
Proof. reflexivity. Qed.

(** ** The search loop *)

Lemma set_drawn_nil (s : state) : set_drawn (drawn s ++ []) s = s.
Proof. destruct s. unfold set_drawn. cbn. rewrite app_nil_r. reflexivity. Qed.

Lemma set_drawn_set_drawn (d1 d2 : list Ads.KeywordIdea) (s : state) :
  set_drawn d2 (set_drawn d1 s) = set_drawn d2 s.
Proof. reflexivity. Qed.


(** While the cap is not reached, the loop draws and normalizes every item
    of the sequence, in order. *)
Lemma enumerate_loop_below (max_results : Z) (last : Ads.Pager) :
  forall (ideas : list Ads.KeywordIdea) (i : Z) (results : list KeywordMetrics) (s : state),
    Forall Ads.bids_in_range ideas ->
    i + Z.of_nat (length ideas) <= max_results ->
    enumerate_loop max_results i (Ads.pager_of ideas last) results s =
    enumerate_loop max_results (i + Z.of_nat (length ideas)) last
      (results ++ map metrics_of ideas) (set_drawn (drawn s ++ ideas) s).
Proof.
  induction ideas as [|idea ideas IH]; intros i results s Hb Hlen.
  - cbn [Ads.pager_of length map]. rewrite Z.add_0_r, app_nil_r, set_drawn_nil. reflexivity.
  - inversion Hb as [|? ? Hidea Hrest]; subst.
    cbn [Ads.pager_of enumerate_loop].
    cbn [length] in Hlen.
    unfold mbind at 1, M_bind at 1, draw at 1.
    destruct (Z.leb_spec max_results i) as [Hle|Hlt]; [lia|].
    rewrite (bind_inr _ _ _ _ _ (extract_metrics_inr idea _ Hidea)).
    rewrite IH by (try assumption; cbn [drawn set_drawn]; lia).
    cbn [map length drawn set_drawn].
    rewrite set_drawn_set_drawn.
    f_equal; [lia | rewrite <- app_assoc; reflexivity |].
    unfold set_drawn. cbn. rewrite <- app_assoc. reflexivity.
Qed.


(** A sequence that fails before the cap: the failure comes out, and what
    was normalized so far is dropped. *)
Lemma enumerate_loop_raise (max_results : Z) (ideas : list Ads.KeywordIdea)
    (e : exn) (s : state) :
  Forall Ads.bids_in_range ideas ->
  Z.of_nat (length ideas) <= max_results ->
  enumerate_loop max_results 0 (Ads.pager_of ideas (Ads.Raise e)) [] s =
  (inl e, set_drawn (drawn s ++ ideas) s).
Proof.
  intros Hb Hlen. rewrite enumerate_loop_below by (try assumption; lia). reflexivity.
Qed.


(** ** Searching *)

Lemma log_errors_run (errors : list ads_error) (s : state) :
  log_errors errors s =
  (inr tt,
   set_log (log s ++ flat_map (fun error => [(ERROR, MsgErrorCode (fst error));
                                             (ERROR, MsgErrorMessage (snd error))]) errors) s).
Proof.
  revert s. induction errors as [|error errors IH]; intros s.
  - destruct s. unfold set_log. cbn. rewrite app_nil_r. reflexivity.
  - cbn [log_errors foldr flat_map]. rewrite !bind_logger.
    fold (log_errors errors). rewrite IH.
    unfold set_log. cbn. rewrite <- !app_assoc. reflexivity.
Qed.

Lemma except_clauses_run (e : exn) (s : state) :
  except_clauses e s = (inl e, set_log (log s ++ error_log e) s).
Proof.
  destruct e; try reflexivity.
  unfold except_clauses. rewrite bind_logger.
  rewrite (bind_inr _ _ _ _ _ (log_errors_run errors _)).
  unfold raise, set_log. cbn. rewrite <- app_assoc. reflexivity.
Qed.

(** [search_keywords], one step at a time: the four records, the one
    request, then the loop, and the record or the records that follow. *)
Lemma search_keywords_run (amb : ambient) (self : SimpleKeywordResearch)
    (keywords : list string) (location : string) (max_results : Z)
    (include_adult_keywords : bool) (s : state) :
  let request := build_request self keywords location include_adult_keywords in
  let s1 := set_sent (sent s ++ [request])
              (set_log (log s ++ search_log self keywords location max_results) s) in
  search_keywords amb self keywords location max_results include_adult_keywords s =
  match service amb (sent s) request with
  | inl e => (inl e, set_log (log s1 ++ error_log e) s1)
  | inr ideas =>
      match enumerate_loop max_results 0 ideas [] s1 with
      | (inr results, s2) =>
          (inr results, set_log (log s2 ++ [(INFO, MsgFound (length results))]) s2)
      | (inl e, s2) => (inl e, set_log (log s2 ++ error_log e) s2)
      end
  end.
Proof.
  intros request s1.
  unfold search_keywords. rewrite !bind_logger.
  unfold try_except. cbv zeta. fold request.
  rewrite bind_logger.
  unfold mbind at 1, M_bind at 1, generate_keyword_ideas at 1.
  cbn [sent set_log log].
  assert (Hs1 : set_sent (sent s ++ [request])
                  (set_log (((((log s ++ [(INFO, MsgSearching keywords)]) ++
                               [(INFO, MsgLocation location max_results)]) ++
                              [(INFO, MsgUsingCustomer (customer_id self))]) ++
                            [(INFO, MsgFetching)]))
                     (set_log (((log s ++ [(INFO, MsgSearching keywords)]) ++
                               [(INFO, MsgLocation location max_results)]) ++
                              [(INFO, MsgUsingCustomer (customer_id self))])
                        (set_log ((log s ++ [(INFO, MsgSearching keywords)]) ++
                               [(INFO, MsgLocation location max_results)])
                           (set_log (log s ++ [(INFO, MsgSearching keywords)]) s)))) = s1).
  { unfold s1, set_sent, set_log, search_log. cbn. rewrite <- !app_assoc. reflexivity. }
  rewrite Hs1.
  destruct (service amb (sent s) request) as [e|ideas].
  - apply except_clauses_run.
  - unfold mbind, M_bind.
    destruct (enumerate_loop max_results 0 ideas [] s1) as [[e|results] s2].
    + apply except_clauses_run.
    + reflexivity.
Qed.






(** C7. When the remote call fails, at once or while the sequence it
    returned is drawn from, [search_keywords] raises the very exception the
    service raised (a [GoogleAdsException] with its list of error codes and
    messages, or any other exception) and returns no record, whatever was
    normalized before; it has sent one request and does not send another;
    it logs the error codes and messages of a rejection, or one record for
    any other failure. *)
Theorem search_keywords_failure (amb : ambient) (self : SimpleKeywordResearch)
    (keywords : list string) (location : string) (max_results : Z)
    (include_adult_keywords : bool) (e : exn) (s : state) :
  fails_with
    (service amb (sent s)
       (build_request self keywords location include_adult_keywords))
    max_results e ->
  exists s' : state,
    search_keywords amb self keywords location max_results include_adult_keywords s =
      (inl e, s') /\
    sent s' = sent s ++ [build_request self keywords location include_adult_keywords] /\
    log s' = log s ++ search_log self keywords location max_results ++ error_log e /\
    files s' = files s.
Proof.
  intros [Hservice | (ideas & Hservice & Hb & Hlen)];
    rewrite search_keywords_run; cbv zeta; rewrite Hservice.
  - eexists. split; [reflexivity|]. cbn [sent log files set_log set_sent].
    rewrite <- app_assoc. repeat split.
  - rewrite enumerate_loop_raise by assumption.
    eexists. split; [reflexivity|]. cbn [sent log files set_log set_sent set_drawn].
    rewrite <- app_assoc. repeat split.
Qed.

Lemma search_keywords_failure_witness :
  exists s' : state,
    search_keywords
      (surroundings ∅
         (inl (GoogleAdsException [("QUOTA_ERROR", "Too many requests")]%string)))
      sample_self ["python"%string] "Canada" 50 false empty_state =
      (inl (GoogleAdsException [("QUOTA_ERROR", "Too many requests")]%string), s') /\
    sent s' = [build_request sample_self ["python"%string] "Canada" false] /\
    log s' =
      search_log sample_self ["python"%string] "Canada" 50 ++
      [(ERROR, MsgApiError (GoogleAdsException [("QUOTA_ERROR", "Too many requests")]%string));
       (ERROR, MsgErrorCode "QUOTA_ERROR");
       (ERROR, MsgErrorMessage "Too many requests")] /\
    files s' = ∅.
Proof.
  apply (search_keywords_failure
           (surroundings ∅
              (inl (GoogleAdsException [("QUOTA_ERROR", "Too many requests")]%string)))
           sample_self ["python"%string] "Canada" 50 false
           (GoogleAdsException [("QUOTA_ERROR", "Too many requests")]%string)
           empty_state).
  left. reflexivity.
Defined.

(** ** Sorting by decreasing key *)

Section SortedFacts.
Context {A : Type} (key : A -> Z).

Lemma with_key_insert_desc (v : Z) (x : A) (l : list A) :
  with_key key v (insert_desc key x l) =
  if key x =? v then x :: with_key key v l else with_key key v l.
Proof.
  unfold with_key. induction l as [|y l IH]; cbn [insert_desc List.filter].
  - reflexivity.
  - destruct (Z.leb_spec (key y) (key x)) as [Hle|Hgt]; cbn [List.filter].
    + reflexivity.
    + rewrite IH. destruct (Z.eqb_spec (key x) v) as [Hx|Hx]; [|reflexivity].
      destruct (Z.eqb_spec (key y) v); [lia | reflexivity].
Qed.

(** Stability: the items with one key keep the order they came in. *)
Lemma with_key_sorted_reverse (v : Z) (l : list A) :
  with_key key v (sorted_reverse key l) = with_key key v l.
Proof.
  induction l as [|x l IH]; [reflexivity|].
  cbn [sorted_reverse foldr]. fold (sorted_reverse key l).
  rewrite with_key_insert_desc, IH. reflexivity.
Qed.

Lemma insert_desc_Permutation (x : A) (l : list A) :
  Permutation (insert_desc key x l) (x :: l).
Proof.
  induction l as [|y l IH]; cbn [insert_desc]; [reflexivity|].
  destruct (key y <=? key x); [reflexivity|].
  rewrite IH. apply perm_swap.
Qed.

Lemma sorted_reverse_Permutation (l : list A) : Permutation (sorted_reverse key l) l.
Proof.
  induction l as [|x l IH]; [reflexivity|].
  cbn [sorted_reverse foldr]. fold (sorted_reverse key l).
  rewrite insert_desc_Permutation, IH. reflexivity.
Qed.

Lemma insert_desc_descending (x : A) (l : list A) :
  descending key l -> descending key (insert_desc key x l).
Proof.
  unfold descending. induction l as [|y l IH]; intros Hl; cbn [insert_desc].
  - repeat constructor.
  - inversion Hl as [|? ? Hl' Hy]; subst.
    destruct (Z.leb_spec (key y) (key x)) as [Hle|Hgt].
    + constructor; [exact Hl|]. constructor; [exact Hle|].
      eapply Forall_impl; [exact Hy|]. intros z Hz. cbn in Hz. lia.
    + constructor; [apply IH; exact Hl'|].
      eapply Permutation_Forall.
      * symmetry. apply insert_desc_Permutation.
      * constructor; [lia | exact Hy].
Qed.

Lemma sorted_reverse_descending (l : list A) : descending key (sorted_reverse key l).
Proof.
  induction l as [|x l IH]; [constructor|].
  cbn [sorted_reverse foldr]. apply insert_desc_descending. exact IH.
Qed.

Lemma with_key_head (x : A) (l : list A) :
  with_key key (key x) (x :: l) = x :: with_key key (key x) l.
Proof. unfold with_key. cbn [List.filter]. rewrite Z.eqb_refl. reflexivity. Qed.

Lemma with_key_In (v : Z) (x : A) (l : list A) :
  In x (with_key key v l) <-> In x l /\ key x = v.
Proof. unfold with_key. rewrite filter_In, Z.eqb_eq. reflexivity. Qed.

(** Two arrangements by decreasing key that keep the items of every key in
    the same order are the same list: a stable sort has one result. *)
Lemma descending_unique (l1 : list A) :
  forall l2 : list A,
    descending key l1 -> descending key l2 ->
    (forall v, with_key key v l1 = with_key key v l2) ->
    l1 = l2.
Proof.
  unfold descending. induction l1 as [|x l1 IH]; intros l2 H1 H2 Hkeys.
  - destruct l2 as [|y l2]; [reflexivity|].
    specialize (Hkeys (key y)). rewrite with_key_head in Hkeys. discriminate.
  - destruct l2 as [|y l2].
    { specialize (Hkeys (key x)). rewrite with_key_head in Hkeys. discriminate. }
    inversion H1 as [|? ? H1' Hx]; subst. inversion H2 as [|? ? H2' Hy]; subst.
    assert (Hyx : key y <= key x).
    { assert (Hin : In y (x :: l1)).
      { apply (proj1 (with_key_In (key y) y (x :: l1))).
        rewrite Hkeys, with_key_head. left. reflexivity. }
      destruct Hin as [->|Hin]; [lia|].
      rewrite List.Forall_forall in Hx. apply Hx. exact Hin. }
    assert (Hxy : key x <= key y).
    { assert (Hin : In x (y :: l2)).
      { apply (proj1 (with_key_In (key x) x (y :: l2))).
        rewrite <- Hkeys, with_key_head. left. reflexivity. }
      destruct Hin as [->|Hin]; [lia|].
      rewrite List.Forall_forall in Hy. apply Hy. exact Hin. }
    assert (Hk : key x = key y) by lia.
    pose proof (Hkeys (key x)) as Hhead.
    rewrite with_key_head, Hk, with_key_head in Hhead.
    injection Hhead as Hxeq Htail. subst y.
    f_equal. apply IH; [exact H1' | exact H2' |].
    intros v. specialize (Hkeys v). unfold with_key in *. cbn [List.filter] in Hkeys.
    destruct (key x =? v); [injection Hkeys as Hkeys|]; exact Hkeys.
Qed.

Lemma descending_app_inv (l1 l2 : list A) :
  descending key (l1 ++ l2) ->
  forall x y, In x l1 -> In y l2 -> key y <= key x.
Proof.
  unfold descending. induction l1 as [|a l1 IH]; intros H x y Hx Hy; [destruct Hx|].
  cbn [app] in H. inversion H as [|? ? H' Ha]; subst.
  destruct Hx as [->|Hx].
  - rewrite List.Forall_forall in Ha. apply Ha. apply in_or_app. right. exact Hy.
  - apply (IH H' x y Hx Hy).
Qed.

End SortedFacts.

(** ** Summarizing *)

Lemma total_bound (l : list Z) :
  Forall int64_range l -> Z.abs (total l) <= Z.of_nat (length l) * 2 ^ 63.
Proof.
  unfold int64_range. induction 1 as [|v l Hv Hl IH]; cbn [total foldr length].
  - lia.
  - fold (total l). lia.
Qed.

Lemma top_lines_run (top : list KeywordMetrics) (s : state) :
  foldr (fun kw k =>
           logger INFO (MsgTop (keyword kw) (search_volume kw) (competition kw));; k)
        (mret tt) top s =
  (inr tt,
   set_log (log s ++ map (fun kw => (INFO, MsgTop (keyword kw) (search_volume kw)
                                             (competition kw))) top) s).
Proof.
  revert s. induction top as [|kw top IH]; intros s; cbn [foldr map].
  - destruct s. unfold set_log. cbn. rewrite app_nil_r. reflexivity.
  - rewrite bind_logger, IH. unfold set_log. cbn. rewrite <- app_assoc. reflexivity.
Qed.

Lemma mean_inr (results : list KeywordMetrics) :
  results <> [] ->
  Forall (fun r => int64_range (search_volume r)) results ->
  int_truediv (total (map search_volume results)) (Z.of_nat (length (map search_volume results))) =
  inr (fdiv (total (map search_volume results)) (Z.of_nat (length results))).
Proof.
  intros Hne Hv. rewrite length_map.
  assert (Hlen : 0 < Z.of_nat (length results)) by (destruct results; [congruence | cbn; lia]).
  apply int_truediv_inr with (K := 64); [exact Hlen | lia |].
  assert (Hb : Z.abs (total (map search_volume results)) <=
               Z.of_nat (length (map search_volume results)) * 2 ^ 63).
  { apply total_bound. rewrite Forall_map. exact Hv. }
  rewrite length_map in Hb.
  replace (2 ^ 64) with (2 * 2 ^ 63) by reflexivity. nia.
Qed.

Lemma summary_body_run (results : list KeywordMetrics) (s : state) :
  results <> [] ->
  Forall (fun r => int64_range (search_volume r)) results ->
  summary_body results s = (inr tt, set_log (log s ++ summary_log results) s).
Proof.
  intros Hne Hv. unfold summary_body. cbv zeta.
  rewrite !bind_logger, (mean_inr results Hne Hv), bind_lift_inr, !bind_logger.
  rewrite top_lines_run. unfold summary_log, set_log. cbn [log files sent drawn].
  f_equal. f_equal. rewrite <- !app_assoc. reflexivity.
Qed.

(** On a list that is not empty the mean is never a division by zero. *)
Lemma summary_body_no_division_by_zero (results : list KeywordMetrics) (s : state) :
  results <> [] ->
  fst (summary_body results s) = inr tt \/
  fst (summary_body results s) = inl OverflowError.
Proof.
  intros Hne. unfold summary_body. cbv zeta. rewrite !bind_logger.
  unfold int_truediv. rewrite length_map.
  destruct (Z.eqb_spec (Z.of_nat (length results)) 0) as [H0|_].
  { destruct results; [congruence | cbn in H0; lia]. }
  destruct (fdiv _ _); try (right; reflexivity);
    rewrite bind_lift_inr, !bind_logger, top_lines_run; left; reflexivity.
Qed.

(** C5. For a list of records that is not empty, the top keywords
    [print_summary] selects and logs are the first three items (all of them
    when there are fewer) of the arrangement of the list by decreasing
    search volume: the three come in decreasing order, no record left out
    has a larger volume than one of them, and records of equal volume keep,
    among the three and after them, the order they have in the input (the
    sort is stable; it is the only arrangement with these properties). The
    summary is logged whenever the volumes are in the 64-bit range of the
    wire, which keeps the mean from overflowing. *)
Theorem top_keywords_stable (results : list KeywordMetrics) (s : state) :
  results <> [] ->
  let top := top_keywords results in
  exists rest : list KeywordMetrics,
    (Forall (fun r => int64_range (search_volume r)) results ->
     print_summary results s = (inr tt, set_log (log s ++ summary_log results) s)) /\
    skipn 6 (summary_log results) =
      map (fun kw => (INFO, MsgTop (keyword kw) (search_volume kw) (competition kw))) top /\
    length top = Nat.min 3 (length results) /\
    Permutation results (top ++ rest) /\
    descending search_volume (top ++ rest) /\
    (forall x y, In x top -> In y rest -> search_volume y <= search_volume x) /\
    (forall v, with_key search_volume v results =
               with_key search_volume v top ++ with_key search_volume v rest) /\
    (forall l, descending search_volume l ->
               (forall v, with_key search_volume v l = with_key search_volume v results) ->
               top = firstn 3 l).
Proof.
  intros Hne top.
  exists (skipn 3 (sorted_reverse search_volume results)).
  assert (Hsplit : top ++ skipn 3 (sorted_reverse search_volume results) =
                   sorted_reverse search_volume results)
    by apply firstn_skipn.
  split.
  { intros Hv. destruct results as [|r results]; [congruence|].
    apply summary_body_run; assumption. }
  split; [reflexivity|].
  split.
  { unfold top, top_keywords. rewrite length_firstn.
    rewrite (Permutation_length (sorted_reverse_Permutation search_volume results)).
    reflexivity. }
  rewrite Hsplit.
  split; [symmetry; apply sorted_reverse_Permutation|].
  split; [apply sorted_reverse_descending|].
  split.
  { apply descending_app_inv. rewrite Hsplit. apply sorted_reverse_descending. }
  split.
  { intros v. unfold with_key. rewrite <- List.filter_app. fold (with_key search_volume v).
    rewrite Hsplit. symmetry. apply with_key_sorted_reverse. }
  intros l Hl Hkeys. unfold top, top_keywords. f_equal.
  apply descending_unique with (key := search_volume);
    [apply sorted_reverse_descending | exact Hl |].
  intros v. rewrite with_key_sorted_reverse, Hkeys. reflexivity.
Qed.

Lemma top_keywords_stable_witness :
  top_keywords tied_results =
    [sample_metrics "b" 2000; sample_metrics "d" 2000; sample_metrics "a" 500] /\
  exists rest : list KeywordMetrics,
    print_summary tied_results empty_state =
      (inr tt, set_log (log empty_state ++ summary_log tied_results) empty_state) /\
    Permutation tied_results (top_keywords tied_results ++ rest) /\
    (forall v, with_key search_volume v tied_results =
               with_key search_volume v (top_keywords tied_results) ++
               with_key search_volume v rest).
Proof.
  split; [reflexivity|].
  destruct (top_keywords_stable tied_results empty_state)
    as (rest & Hrun & _ & _ & Hperm & _ & _ & Hkeys & _).
  - discriminate.
  - exists rest. split; [|split; [exact Hperm | exact Hkeys]].
    apply Hrun. unfold tied_results.
    repeat (constructor; [unfold int64_range; cbn; lia|]). constructor.
Defined.

(** C6 (amended). On the empty list [print_summary] raises nothing, logs
    the one warning that there are no results, and returns: no total, mean
    or count is logged. The return is what keeps the mean from dividing by
    zero: the lines after it would raise [ZeroDivisionError] on the empty
    list, and on a list that is not empty they never do. *)
Theorem print_summary_empty (s : state) :
  print_summary [] s = (inr tt, set_log (log s ++ [(WARNING, MsgNoResults)]) s) /\
  existsb reports_count [(WARNING, MsgNoResults)] = false /\
  fst (summary_body [] s) = inl ZeroDivisionError /\
  (forall results s', fst (print_summary results s') <> inl ZeroDivisionError).
Proof.
  split; [reflexivity|]. split; [reflexivity|]. split; [reflexivity|].
  intros [|r results] s'; [discriminate|].
  destruct (summary_body_no_division_by_zero (r :: results) s') as [H|H];
    [discriminate | |]; cbn [print_summary]; rewrite H; discriminate.
Qed.

(** C6, as stated, fails: on the empty list the log gets the warning and
    nothing else, so no count of zero is reported. *)
Lemma print_summary_empty_reports_no_count :
  log (snd (print_summary [] empty_state)) = [(WARNING, MsgNoResults)] /\
  existsb reports_count (log (snd (print_summary [] empty_state))) = false.
Proof. split; reflexivity. Qed.

(** ** Construction *)

Lemma set_log_set_log (l1 l2 : list (level * message)) (s : state) :
  set_log l2 (set_log l1 s) = set_log l2 s.
Proof. reflexivity. Qed.

Lemma authenticate_oauth_run (amb : ambient) (s : state) :
  _authenticate_oauth amb s =
  if consent_artifact_found amb s then
    match flow_raises amb (default EmptyString
                             (getenv amb "GOOGLE_ADS_CLIENT_TOKEN_PATH")) with
    | Some e => (inl e, s)
    | None =>
        let cfg :=
          let token := of_getenv (consent amb (default EmptyString
                                     (getenv amb "GOOGLE_ADS_CLIENT_TOKEN_PATH"))) in
          if opt_truthy (getenv amb "GOOGLE_ADS_LOGIN_CUSTOMER_ID")
          then <["login_customer_id" := PyStr (stripped_login_customer_id amb)]>
                 (base_config amb token)
          else base_config amb token in
        (match client_raises amb cfg with
         | Some e => inl e
         | None => inr {| config := cfg |}
         end,
         set_log (log s ++ [(INFO, MsgOAuthSuccessful)]) s)
    end
  else (inl CredentialError, s).
Proof.
  unfold _authenticate_oauth, consent_artifact_found. cbv zeta.
  destruct (getenv amb "GOOGLE_ADS_CLIENT_TOKEN_PATH") as [p|]; [|reflexivity].
  destruct (str_truthy p); [|reflexivity].
  unfold mbind at 1, M_bind at 1, path_exists at 1. cbn [andb].
  destruct (bool_decide (is_Some (files s !! p))); [|reflexivity].
  cbn [negb]. change (default EmptyString (Some p)) with p.
  unfold mbind at 1, M_bind at 1, run_consent_flow.
  destruct (flow_raises amb p); [reflexivity|].
  unfold mret at 1, M_ret at 1. rewrite bind_logger. unfold load_from_dict.
  fold (stripped_login_customer_id amb).
  match goal with |- context [client_raises amb ?c] => destruct (client_raises amb c) end;
    reflexivity.
Qed.

Lemma setup_client_run (amb : ambient) (s : state) :
  _setup_client amb s =
  if credentials_missing amb s then (inl CredentialError, s)
  else match flow_error amb with
       | Some e => (inl e, s)
       | None =>
           (match client_raises amb (expected_config amb) with
            | Some e => inl e
            | None => inr {| config := expected_config amb |}
            end,
            set_log (log s ++ setup_log amb) s)
       end.
Proof.
  unfold _setup_client, credentials_missing, flow_error, expected_config, setup_log.
  cbv zeta.
  destruct (opt_truthy (getenv amb "GOOGLE_ADS_REFRESH_TOKEN")); cbn [negb andb].
  - rewrite bind_logger. fold (stripped_login_customer_id amb).
    destruct (opt_truthy (getenv amb "GOOGLE_ADS_LOGIN_CUSTOMER_ID")).
    + unfold mbind at 1, M_bind at 1. rewrite bind_logger.
      unfold mret at 1, M_ret at 1, load_from_dict.
      match goal with |- context [client_raises amb ?c] =>
        destruct (client_raises amb c) end;
        unfold raise, mret, M_ret, set_log; cbn; rewrite <- app_assoc; reflexivity.
    + unfold mbind at 1, M_bind at 1, mret at 1, M_ret at 1, load_from_dict.
      match goal with |- context [client_raises amb ?c] =>
        destruct (client_raises amb c) end; reflexivity.
  - rewrite authenticate_oauth_run.
    destruct (consent_artifact_found amb s); [|reflexivity].
    destruct (flow_raises amb _); reflexivity.
Qed.

(** Construction, case by case. *)
Lemma init_run (amb : ambient) (s : state) :
  __init__ amb s =
  if credentials_missing amb s then
    (inl CredentialError, set_log (log s ++ [(INFO, MsgInitializing)]) s)
  else
    match flow_error amb with
    | Some e => (inl e, set_log (log s ++ [(INFO, MsgInitializing)]) s)
    | None =>
        match client_raises amb (expected_config amb) with
        | Some e =>
            (inl e, set_log (log s ++ (INFO, MsgInitializing) :: setup_log amb) s)
        | None =>
            if str_truthy (stripped_customer_id amb) then
              (inr (constructed amb), set_log (log s ++ init_log amb) s)
            else
              (inl ConfigurationError,
               set_log (log s ++ (INFO, MsgInitializing) :: setup_log amb) s)
        end
    end.
Proof.
  unfold __init__. rewrite bind_logger.
  unfold mbind at 1, M_bind at 1. rewrite setup_client_run.
  change (credentials_missing amb (set_log (log s ++ [(INFO, MsgInitializing)]) s))
    with (credentials_missing amb s).
  destruct (credentials_missing amb s); [reflexivity|].
  destruct (flow_error amb); [reflexivity|].
  destruct (client_raises amb (expected_config amb)).
  { unfold set_log. cbn. rewrite <- app_assoc. reflexivity. }
  cbv zeta. fold (stripped_customer_id amb). fold (stripped_login_customer_id amb).
  unfold init_log.
  destruct (str_truthy (stripped_customer_id amb)); cbn [negb].
  - rewrite bind_logger.
    destruct (str_truthy (stripped_login_customer_id amb)).
    + rewrite bind_logger. unfold mbind, M_bind, mret, M_ret, set_log, constructed. cbn.
      rewrite <- !app_assoc. reflexivity.
    + unfold mbind, M_bind, mret, M_ret, set_log, constructed. cbn.
      rewrite <- !app_assoc. reflexivity.
  - unfold raise, set_log. cbn. rewrite <- !app_assoc. reflexivity.
Qed.

(** Whatever its outcome, construction changes the log only, which it
    extends from its opening record on. *)
Lemma init_frame (amb : ambient) (s : state) :
  exists l, snd (__init__ amb s) = set_log (log s ++ (INFO, MsgInitializing) :: l) s.
Proof.
  rewrite init_run.
  destruct (credentials_missing amb s); [exists []; reflexivity|].
  destruct (flow_error amb); [exists []; reflexivity|].
  destruct (client_raises amb (expected_config amb)); [eexists; reflexivity|].
  destruct (str_truthy (stripped_customer_id amb)); eexists; unfold init_log; reflexivity.
Qed.

(** The outcome of construction does not depend on the log it starts
    from. *)
Lemma init_outcome_log (amb : ambient) (s : state) (l0 : list (level * message)) :
  fst (__init__ amb (set_log l0 s)) = fst (__init__ amb s) /\
  exists l, snd (__init__ amb (set_log l0 s)) =
            set_log (l0 ++ (INFO, MsgInitializing) :: l) s.
Proof.
  rewrite !init_run.
  change (credentials_missing amb (set_log l0 s)) with (credentials_missing amb s).
  destruct (credentials_missing amb s); [split; [reflexivity|exists []; reflexivity]|].
  destruct (flow_error amb); [split; [reflexivity|exists []; reflexivity]|].
  destruct (client_raises amb (expected_config amb));
    [split; [reflexivity|eexists; reflexivity]|].
  destruct (str_truthy (stripped_customer_id amb));
    (split; [reflexivity|eexists; unfold init_log; reflexivity]).
Qed.

Lemma replace_dash_filter (v : string) :
  list_ascii_of_string (replace_dash v) =
  List.filter (fun c => negb (Ascii.eqb c "-")) (list_ascii_of_string v).
Proof.
  induction v as [|c v IH]; [reflexivity|].
  cbn [replace_dash list_ascii_of_string List.filter].
  destruct (Ascii.eqb c "-"); cbn [negb list_ascii_of_string]; congruence.
Qed.

Lemma replace_dash_empty (v : string) :
  replace_dash v = EmptyString <->
  forall c, In c (list_ascii_of_string v) -> c = "-"%char.
Proof.
  induction v as [|c v IH]; cbn [replace_dash list_ascii_of_string In].
  - split; [intros _ c [] | reflexivity].
  - destruct (Ascii.eqb_spec c "-") as [->|Hc].
    + rewrite IH. split; [intros H c [<-|Hin]; [reflexivity | apply H; exact Hin]|].
      intros H c Hin. apply H. right. exact Hin.
    + split; [discriminate|]. intros H. exfalso. apply Hc. apply H. left. reflexivity.
Qed.

Lemma str_truthy_false (v : string) : str_truthy v = false <-> v = EmptyString.
Proof. destruct v; split; intros H; try reflexivity; discriminate. Qed.

(** C8 (amended). Construction first builds the client and then checks the
    customer id. It fails with the credential error when the environment
    has no refresh token (none, or an empty one) and the consent artifact's
    path is unset, empty, or names no file. Otherwise an exception that the
    consent flow or the client library raises while the client is built
    comes out as it is. Otherwise it fails with the configuration error
    when the customer id of the environment is empty once its dashes are
    removed (missing, empty, or dashes only), and in every other case it
    yields the object with the client handle. Each of the two errors is
    raised in these cases only, as long as the libraries do not raise that
    very exception themselves. *)
Theorem init_outcomes (amb : ambient) (s : state) :
  let outcome := fst (__init__ amb s) in
  (credentials_missing amb s = true -> outcome = inl CredentialError) /\
  (credentials_missing amb s = false ->
     forall e, library_error amb = Some e -> outcome = inl e) /\
  (credentials_missing amb s = false -> library_error amb = None ->
     (stripped_customer_id amb = EmptyString -> outcome = inl ConfigurationError) /\
     (stripped_customer_id amb <> EmptyString -> outcome = inr (constructed amb))) /\
  (library_error amb <> Some CredentialError ->
     (outcome = inl CredentialError <-> credentials_missing amb s = true)) /\
  (library_error amb <> Some ConfigurationError ->
     (outcome = inl ConfigurationError <->
        credentials_missing amb s = false /\ library_error amb = None /\
        stripped_customer_id amb = EmptyString)) /\
  ((exists kr, outcome = inr kr) <->
     credentials_missing amb s = false /\ library_error amb = None /\
     stripped_customer_id amb <> EmptyString) /\
  (credentials_missing amb s = true <->
     (getenv amb "GOOGLE_ADS_REFRESH_TOKEN" = None \/
      getenv amb "GOOGLE_ADS_REFRESH_TOKEN" = Some EmptyString) /\
     (getenv amb "GOOGLE_ADS_CLIENT_TOKEN_PATH" = None \/
      getenv amb "GOOGLE_ADS_CLIENT_TOKEN_PATH" = Some EmptyString \/
      exists p, getenv amb "GOOGLE_ADS_CLIENT_TOKEN_PATH" = Some p /\ files s !! p = None)) /\
  (library_error amb = None <->
     (opt_truthy (getenv amb "GOOGLE_ADS_REFRESH_TOKEN") = true \/
      flow_raises amb (default EmptyString
                         (getenv amb "GOOGLE_ADS_CLIENT_TOKEN_PATH")) = None) /\
     client_raises amb (expected_config amb) = None) /\
  (stripped_customer_id amb = EmptyString <->
     forall c, In c (list_ascii_of_string (getenv_default amb "GOOGLE_ADS_CUSTOMER_ID" "")) ->
               c = "-"%char).
Proof.
  intros outcome. subst outcome. rewrite init_run.
  pose proof (str_truthy_false (stripped_customer_id amb)) as Hblank.
  assert (Hlib : library_error amb =
                 match flow_error amb with
                 | Some e => Some e
                 | None => client_raises amb (expected_config amb)
                 end) by reflexivity.
  split; [|split; [|split; [|split; [|split; [|split; [|split; [|split]]]]]]].
  - intros ->. reflexivity.
  - intros -> e He. rewrite Hlib in He.
    destruct (flow_error amb) as [e'|]; [injection He as ->; reflexivity|].
    rewrite He. reflexivity.
  - intros -> Hnone. rewrite Hlib in Hnone.
    destruct (flow_error amb) as [e'|]; [discriminate|]. rewrite Hnone.
    destruct (str_truthy (stripped_customer_id amb)); cbn [fst].
    + split; [|reflexivity]. intros H. apply Hblank in H. discriminate.
    + split; [reflexivity|]. intros H. exfalso. apply H, Hblank. reflexivity.
  - intros Hne. rewrite Hlib in Hne.
    destruct (credentials_missing amb s); [split; reflexivity|].
    destruct (flow_error amb) as [e'|]; cbn [fst];
      [split; [congruence|discriminate]|].
    destruct (client_raises amb (expected_config amb)) as [e'|]; cbn [fst];
      [split; [congruence|discriminate]|].
    destruct (str_truthy (stripped_customer_id amb)); split; discriminate.
  - intros Hne. rewrite Hlib in Hne |- *.
    destruct (credentials_missing amb s);
      [split; [discriminate|intros [H _]; discriminate]|].
    destruct (flow_error amb) as [e'|]; cbn [fst];
      [split; [congruence|intros (_ & H & _); discriminate]|].
    destruct (client_raises amb (expected_config amb)) as [e'|]; cbn [fst];
      [split; [congruence|intros (_ & H & _); discriminate]|].
    destruct (str_truthy (stripped_customer_id amb)); cbn [fst].
    + split; [discriminate|]. intros (_ & _ & H). apply Hblank in H. discriminate.
    + split; [|reflexivity]. intros _. repeat split. apply Hblank. reflexivity.
  - rewrite Hlib.
    destruct (credentials_missing amb s);
      [split; [intros [kr H]; discriminate|intros [H _]; discriminate]|].
    destruct (flow_error amb) as [e'|]; cbn [fst];
      [split; [intros [kr H]; discriminate|intros (_ & H & _); discriminate]|].
    destruct (client_raises amb (expected_config amb)) as [e'|]; cbn [fst];
      [split; [intros [kr H]; discriminate|intros (_ & H & _); discriminate]|].
    destruct (str_truthy (stripped_customer_id amb)) eqn:Ht; cbn [fst].
    + split; [|eauto]. intros _. repeat split. intros H. apply Hblank in H. congruence.
    + split; [intros [kr H]; discriminate|].
      intros (_ & _ & H). exfalso. apply H, Hblank. reflexivity.
  - unfold credentials_missing, consent_artifact_found.
    destruct (getenv amb "GOOGLE_ADS_REFRESH_TOKEN") as [[|c t]|];
      destruct (getenv amb "GOOGLE_ADS_CLIENT_TOKEN_PATH") as [[|c' p]|];
      cbn [opt_truthy str_truthy negb andb];
      try (split; [discriminate | intros [[H|H] _]; discriminate]);
      try (split; [intros _; split; [auto | auto] | reflexivity]).
    + destruct (files s !! String c' p) as [f|] eqn:Hf.
      * rewrite bool_decide_eq_true_2 by eauto. cbn [negb].
        split; [discriminate|]. intros [_ [H|[H|(q & Hq & Hnone)]]]; try discriminate.
        injection Hq as <-. congruence.
      * rewrite bool_decide_eq_false_2 by (intros [? ?]; discriminate). cbn [negb].
        split; [|reflexivity]. intros _. split; [auto|]. right. right. eauto.
    + destruct (files s !! String c' p) as [f|] eqn:Hf.
      * rewrite bool_decide_eq_true_2 by eauto. cbn [negb].
        split; [discriminate|]. intros [_ [H|[H|(q & Hq & Hnone)]]]; try discriminate.
        injection Hq as <-. congruence.
      * rewrite bool_decide_eq_false_2 by (intros [? ?]; discriminate). cbn [negb].
        split; [|reflexivity]. intros _. split; [auto|]. right. right. eauto.
  - rewrite Hlib. unfold flow_error.
    destruct (opt_truthy (getenv amb "GOOGLE_ADS_REFRESH_TOKEN")).
    + split; [intros H; split; [left; reflexivity|exact H]|intros [_ H]; exact H].
    + destruct (flow_raises amb _) as [e'|].
      * split; [discriminate|]. intros [[H|H] _]; discriminate.
      * split; [intros H; split; [right; reflexivity|exact H]|intros [_ H]; exact H].
  - apply replace_dash_empty.
Qed.

(** C8, as stated, fails, in three ways. With nothing set in the
    environment the customer id is missing, yet the error is the credential
    error, raised before the customer id is looked at. A customer id made
    of dashes is neither missing nor empty, yet it brings the configuration
    error. And with a refresh token and a customer id in the environment
    neither error's condition holds, yet a client library that refuses the
    login customer id leaves no handle: its exception comes out. *)
Lemma init_error_precedence :
  getenv (surroundings ∅ (inr Ads.Stop)) "GOOGLE_ADS_CUSTOMER_ID" = None /\
  fst (__init__ (surroundings ∅ (inr Ads.Stop)) empty_state) = inl CredentialError /\
  getenv (surroundings (full_env "---" "") (inr Ads.Stop)) "GOOGLE_ADS_CUSTOMER_ID" =
    Some "---"%string /\
  fst (__init__ (surroundings (full_env "---" "") (inr Ads.Stop)) empty_state) =
    inl ConfigurationError /\
  credentials_missing (checked_surroundings (full_env "1234567890" "12345"))
                      empty_state = false /\
  stripped_customer_id (checked_surroundings (full_env "1234567890" "12345")) =
    "1234567890"%string /\
  fst (__init__ (checked_surroundings (full_env "1234567890" "12345")) empty_state) =
    inl InvalidLogin.
Proof. vm_compute. repeat split. Qed.

Lemma replace_dash_idempotent (v : string) :
  replace_dash (replace_dash v) = replace_dash v.
Proof.
  induction v as [|c v IH]; [reflexivity|]. cbn [replace_dash].
  destruct (Ascii.eqb c "-") eqn:Hc; [exact IH|].
  cbn [replace_dash]. rewrite Hc, IH. reflexivity.
Qed.

Lemma init_same_up_to_dashes (amb amb' : ambient) (s : state) :
  same_up_to_dashes amb amb' -> __init__ amb s = __init__ amb' s.
Proof.
  intros (Hk & Hflow & Hconsent & Hclient & Hset & Hlogin & Hid).
  assert (H1 := Hk "GOOGLE_ADS_REFRESH_TOKEN"%string ltac:(cbn; tauto)).
  assert (H2 := Hk "GOOGLE_ADS_DEVELOPER_TOKEN"%string ltac:(cbn; tauto)).
  assert (H3 := Hk "GOOGLE_ADS_CLIENT_ID"%string ltac:(cbn; tauto)).
  assert (H4 := Hk "GOOGLE_ADS_CLIENT_SECRET"%string ltac:(cbn; tauto)).
  assert (H5 := Hk "GOOGLE_ADS_CLIENT_TOKEN_PATH"%string ltac:(cbn; tauto)).
  rewrite !init_run.
  unfold credentials_missing, consent_artifact_found, flow_error, constructed, init_log,
    setup_log, expected_config, base_config.
  rewrite H1, H2, H3, H4, H5, Hflow, Hconsent, Hclient, Hset, Hlogin, Hid. reflexivity.
Qed.

(** C10 (amended). The object construction yields holds the two customer
    ids of the environment with every dash removed and the other characters
    kept in order; the login id goes into the client's configuration
    without its dashes, when the environment sets one: that test is made on
    the value as it is read. The emptiness check is made on the customer id
    without its dashes, and an id that is not empty then is the one of the
    object constructed. Two environments that differ only by dashes inside
    the ids, with a login id set in both or in neither, are treated alike,
    "123-456-7890" like "1234567890". *)
Theorem customer_ids_without_dashes (amb amb' : ambient) (s : state)
    (Hsame : same_up_to_dashes amb amb') :
  (forall kr s', __init__ amb s = (inr kr, s') ->
     customer_id kr = replace_dash (getenv_default amb "GOOGLE_ADS_CUSTOMER_ID" "") /\
     login_customer_id kr =
       replace_dash (getenv_default amb "GOOGLE_ADS_LOGIN_CUSTOMER_ID" "") /\
     config (client kr) !! "login_customer_id"%string =
       (if opt_truthy (getenv amb "GOOGLE_ADS_LOGIN_CUSTOMER_ID")
        then Some (PyStr (replace_dash
                            (getenv_default amb "GOOGLE_ADS_LOGIN_CUSTOMER_ID" "")))
        else None) /\
     customer_id kr <> EmptyString) /\
  (forall v, list_ascii_of_string (replace_dash v) =
             List.filter (fun c => negb (Ascii.eqb c "-")) (list_ascii_of_string v)) /\
  replace_dash "123-456-7890" = "1234567890"%string /\
  (credentials_missing amb s = false -> library_error amb = None ->
   (replace_dash (getenv_default amb "GOOGLE_ADS_CUSTOMER_ID" "") = EmptyString <->
    fst (__init__ amb s) = inl ConfigurationError) /\
   (replace_dash (getenv_default amb "GOOGLE_ADS_CUSTOMER_ID" "") <> EmptyString ->
    exists kr,
      fst (__init__ amb s) = inr kr /\
      customer_id kr = replace_dash (getenv_default amb "GOOGLE_ADS_CUSTOMER_ID" "") /\
      login_customer_id kr =
        replace_dash (getenv_default amb "GOOGLE_ADS_LOGIN_CUSTOMER_ID" ""))) /\
  __init__ amb s = __init__ amb' s.
Proof.
  assert (Hlib : library_error amb =
                 match flow_error amb with
                 | Some e => Some e
                 | None => client_raises amb (expected_config amb)
                 end) by reflexivity.
  split; [|split; [|split; [|split]]].
  - intros kr s'. rewrite init_run.
    destruct (credentials_missing amb s); [discriminate|].
    destruct (flow_error amb); [discriminate|].
    destruct (client_raises amb (expected_config amb)); [discriminate|].
    destruct (str_truthy (stripped_customer_id amb)) eqn:Ht; [|discriminate].
    intros [= <- _]. cbn [customer_id login_customer_id client constructed config].
    split; [reflexivity|]. split; [reflexivity|]. split.
    + unfold expected_config. cbv zeta.
      destruct (opt_truthy (getenv amb "GOOGLE_ADS_LOGIN_CUSTOMER_ID")).
      * rewrite lookup_insert_eq. reflexivity.
      * unfold base_config. rewrite !lookup_insert_ne by discriminate. apply lookup_empty.
    + intros H. apply (proj2 (str_truthy_false _)) in H. congruence.
  - apply replace_dash_filter.
  - reflexivity.
  - intros Hcred Hnone. fold (stripped_customer_id amb).
    fold (stripped_login_customer_id amb). rewrite init_run, Hcred.
    rewrite Hlib in Hnone.
    destruct (flow_error amb); [discriminate|]. rewrite Hnone.
    pose proof (str_truthy_false (stripped_customer_id amb)) as Hblank.
    destruct (str_truthy (stripped_customer_id amb)); cbn [fst].
    + split; [split; [|discriminate]|].
      * intros H. apply Hblank in H. discriminate.
      * intros _. exists (constructed amb). repeat split.
    + split; [split; [reflexivity|]|].
      * intros _. apply Hblank. reflexivity.
      * intros H. exfalso. apply H, Hblank. reflexivity.
  - apply init_same_up_to_dashes, Hsame.
Qed.

Lemma customer_ids_without_dashes_witness :
  same_up_to_dashes
    (checked_surroundings (full_env "123-456-7890" "987-654-3210"))
    (checked_surroundings (full_env "1234567890" "9876543210")) /\
  __init__ (checked_surroundings (full_env "123-456-7890" "987-654-3210")) empty_state =
  __init__ (checked_surroundings (full_env "1234567890" "9876543210")) empty_state /\
  exists kr,
    fst (__init__ (checked_surroundings (full_env "123-456-7890" "987-654-3210"))
                  empty_state) = inr kr /\
    customer_id kr = "1234567890"%string /\
    login_customer_id kr = "9876543210"%string.
Proof.
  assert (Hsame : same_up_to_dashes
                    (checked_surroundings (full_env "123-456-7890" "987-654-3210"))
                    (checked_surroundings (full_env "1234567890" "9876543210"))).
  { split; [|repeat split].
    intros k Hin. cbn [In] in Hin.
    repeat (destruct Hin as [<-|Hin]; [reflexivity|]). destruct Hin. }
  split; [exact Hsame|].
  destruct (customer_ids_without_dashes _ _ empty_state Hsame)
    as (_ & _ & _ & Hcheck & Heq).
  split; [exact Heq|].
  destruct (Hcheck eq_refl eq_refl) as [_ Hsome].
  destruct (Hsome ltac:(discriminate)) as (kr & Hkr & Hid & Hlogin).
  exists kr. split; [exact Hkr|]. split; [exact Hid|exact Hlogin].
Defined.

(** C10, as stated, fails: the login customer id is used once with its
    dashes, in the test whether it is set. A login id made of dashes only
    is empty once the dashes are removed, like a login id that is empty,
    yet the two are not treated alike: with a client library that accepts
    every configuration the first is configured as the empty string and the
    second is not configured at all, and with a client library that refuses
    a login id that is not made of ten digits the first construction fails
    and the second succeeds. *)
Lemma login_id_of_dashes_counts_as_set :
  replace_dash "---" = replace_dash "" /\
  (exists kr,
     fst (__init__ (surroundings (full_env "1234567890" "---") (inr Ads.Stop))
                   empty_state) = inr kr /\
     config (client kr) !! "login_customer_id"%string = Some (PyStr "")) /\
  (exists kr,
     fst (__init__ (surroundings (full_env "1234567890" "") (inr Ads.Stop))
                   empty_state) = inr kr /\
     config (client kr) !! "login_customer_id"%string = None) /\
  fst (__init__ (checked_surroundings (full_env "1234567890" "---")) empty_state) =
    inl InvalidLogin /\
  (exists kr,
     fst (__init__ (checked_surroundings (full_env "1234567890" "")) empty_state) =
       inr kr).
Proof.
  split; [reflexivity|].
  split; [eexists; split; [rewrite init_run; reflexivity|reflexivity]|].
  split; [eexists; split; [rewrite init_run; reflexivity|reflexivity]|].
  split; [reflexivity|]. eexists. rewrite init_run. reflexivity.
Qed.

(** ** Saving *)

Lemma is_digit_digit (n : Z) : is_digit (digit n) = true.
Proof.
  unfold is_digit, digit.
  assert (H : 0 <= n mod 10 < 10) by (apply Z.mod_pos_bound; lia).
  rewrite nat_ascii_embedding by lia.
  apply andb_true_intro. split; apply Nat.leb_le; lia.
Qed.

Lemma digit_value_digit (n : Z) : digit_value (digit n) = n mod 10.
Proof.
  unfold digit_value, digit.
  assert (H : 0 <= n mod 10 < 10) by (apply Z.mod_pos_bound; lia).
  rewrite nat_ascii_embedding by lia. lia.
Qed.

Lemma decimal_fmt2 (n : Z) : 0 <= n <= 99 -> decimal (fmt2 n) 0 = n.
Proof.
  intros Hn. unfold fmt2. cbn [decimal]. rewrite !digit_value_digit.
  Z.div_mod_to_equations. lia.
Qed.

Lemma decimal_fmt4 (n : Z) : 0 <= n <= 9999 -> decimal (fmt4 n) 0 = n.
Proof.
  intros Hn. unfold fmt4, fmt2. cbn [decimal]. rewrite !digit_value_digit.
  Z.div_mod_to_equations. lia.
Qed.

#[local] Arguments digit : simpl never.

(** The timestamp has the pattern, and reads back as the clock's time. *)
Lemma strftime_pattern (t : datetime) :
  is_timestamp (strftime t) = true /\
  (valid_datetime t -> read_timestamp (strftime t) = t).
Proof.
  split.
  - unfold is_timestamp, strftime, fmt4, fmt2. cbv [String.append]. cbn.
    rewrite !is_digit_digit. reflexivity.
  - intros (Hy & Hm & Hd & Hh & Hmi & Hs). destruct t as [y m d h mi sec].
    cbn [year month day hour minute second] in *.
    unfold read_timestamp, strftime.
    change (substring 0 4 _) with (fmt4 y).
    change (substring 4 2 _) with (fmt2 m).
    change (substring 6 2 _) with (fmt2 d).
    change (substring 9 2 _) with (fmt2 h).
    change (substring 11 2 _) with (fmt2 mi).
    change (substring 13 2 _) with (fmt2 sec).
    rewrite decimal_fmt4 by lia. rewrite !decimal_fmt2 by lia. reflexivity.
Qed.

Lemma frame_columns_dump (results : list KeywordMetrics) :
  frame_columns (map model_dump results) =
  match results with [] => [] | _ => field_names end.
Proof.
  destruct results as [|r results]; [reflexivity|].
  unfold frame_columns. cbn [map fold_left].
  change (add_keys [] (map fst (model_dump r))) with field_names.
  induction results as [|r' results IH]; [reflexivity|].
  cbn [map fold_left].
  change (add_keys field_names (map fst (model_dump r'))) with field_names.
  exact IH.
Qed.

Lemma mkDataFrame_dump (results : list KeywordMetrics) :
  mkDataFrame (map model_dump results) =
  {| columns := match results with [] => [] | _ => field_names end;
     rows := map row_of results |}.
Proof.
  unfold mkDataFrame. cbv zeta. rewrite frame_columns_dump. f_equal.
  destruct results as [|r results]; [reflexivity|].
  rewrite map_map. apply map_ext. intros r'. reflexivity.
Qed.

Lemma save_results_run (amb : ambient) (results : list KeywordMetrics)
    (format : string) (s : state) :
  save_results amb results format s =
  (inr (export_name amb format),
   set_log (log s ++ [(INFO, MsgSaved (export_name amb format))])
     (set_files (<[export_name amb format := export_content results format]> (files s)) s)).
Proof.
  unfold save_results, export_name, export_content. cbv zeta.
  destruct (String.eqb (lower format) "csv").
  - rewrite mkDataFrame_dump. reflexivity.
  - reflexivity.
Qed.

(** C9 (amended). [save_results] writes one file and returns its name,
    [keywords_<YYYYMMDD_HHMMSS>] with the clock's time followed by [.csv]
    when the format is "csv" up to the case of its letters and by [.json]
    for every other format. The tabular file holds one row per record, in
    the order of the list, each row the values of the record in the order
    of the fields; its header is the list of field names when the list of
    records is not empty, and is empty when the list is empty. The other
    file holds the list of the records' field-name/value objects, in
    order. *)
Theorem save_results_export (amb : ambient) (results : list KeywordMetrics)
    (format : string) (s : state) :
  valid_datetime (now amb) ->
  exists (filename : string) (content : file_content),
    save_results amb results format s =
      (inr filename,
       set_log (log s ++ [(INFO, MsgSaved filename)])
         (set_files (<[filename := content]> (files s)) s)) /\
    (same_ignoring_case format "csv" ->
       filename = "keywords_" +:+ strftime (now amb) +:+ ".csv" /\
       content = CsvFile (match results with [] => [] | _ => field_names end)
                         (map row_of results)) /\
    (~ same_ignoring_case format "csv" ->
       filename = "keywords_" +:+ strftime (now amb) +:+ ".json" /\
       content = JsonFile (map model_dump results)) /\
    is_timestamp (strftime (now amb)) = true /\
    read_timestamp (strftime (now amb)) = now amb /\
    (forall r, combine field_names (row_of r) = model_dump r) /\
    (forall r, In r results -> map fst (model_dump r) = field_names).
Proof.
  intros Hclock.
  exists (export_name amb format), (export_content results format).
  split; [apply save_results_run|].
  pose proof (lower_is format "csv" eq_refl) as Hcsv.
  unfold export_name, export_content.
  destruct (String.eqb_spec (lower format) "csv") as [E|E].
  - split; [intros _; split; reflexivity|].
    split; [intros H; exfalso; apply H, Hcsv, E|].
    destruct (strftime_pattern (now amb)) as [Hp Hr].
    split; [exact Hp|]. split; [apply Hr, Hclock|]. split; reflexivity.
  - split; [intros H; exfalso; apply E, Hcsv, H|].
    split; [intros _; split; reflexivity|].
    destruct (strftime_pattern (now amb)) as [Hp Hr].
    split; [exact Hp|]. split; [apply Hr, Hclock|]. split; reflexivity.
Qed.

Lemma sample_clock_valid : valid_datetime sample_clock.
Proof. unfold valid_datetime, sample_clock. cbn. lia. Qed.

Lemma save_results_export_witness :
  exists (filename : string) (content : file_content),
    save_results (surroundings ∅ (inr Ads.Stop)) tied_results "CSV" empty_state =
      (inr filename,
       set_log [(INFO, MsgSaved filename)]
         (set_files (<[filename := content]> ∅) empty_state)) /\
    filename = "keywords_20240102_030405.csv"%string /\
    content = CsvFile field_names (map row_of tied_results).
Proof.
  destruct (save_results_export (surroundings ∅ (inr Ads.Stop)) tied_results "CSV"
              empty_state sample_clock_valid)
    as (filename & content & Hrun & Hcsv & _).
  exists filename, content. split; [exact Hrun|].
  apply Hcsv. apply lower_same_ignoring_case. reflexivity.
Defined.

(** C9, as stated, fails: for the empty list and the format "csv" the file
    written has an empty header, not the six field names, and no row. *)
Lemma save_results_empty_csv :
  fst (save_results (surroundings ∅ (inr Ads.Stop)) [] "csv" empty_state) =
    inr "keywords_20240102_030405.csv"%string /\
  files (snd (save_results (surroundings ∅ (inr Ads.Stop)) [] "csv" empty_state))
    !! "keywords_20240102_030405.csv"%string = Some (CsvFile [] []) /\
  length field_names = 6%nat.
Proof. vm_compute. repeat split. Qed.

(** ** The script, end to end *)

(** With a refresh token and a customer id in the environment and a service
    that yields three ideas of volumes 500, 2000 and 100, the script logs a
    summary of three keywords, one of them of high volume, with the top
    keywords in the order 2000, 500, 100 and a mean between 866.66 and
    866.67, and saves the three records, in the service's order, as a
    table. *)
Example main_run :
  let amb := surroundings (full_env "123-456-7890" "")
                          (inr (Ads.pager_of three_ideas Ads.Stop)) in
  let results := map metrics_of three_ideas in
  fst (main amb empty_state) = inr tt /\
  files (snd (main amb empty_state)) !! "keywords_20240102_030405.csv"%string =
    Some (CsvFile field_names (map row_of results)) /\
  map Ads.req_geo_target_constants (sent (snd (main amb empty_state))) =
    [["geoTargetConstants/2840"%string]] /\
  List.filter (fun entry => reports_count entry) (log (snd (main amb empty_state))) =
    [(INFO, MsgTotal 3); (INFO, MsgAvgVolume (fdiv 2600 3));
     (INFO, MsgHighVolume 1); (INFO, MsgLowCompetition 3)] /\
  map search_volume (top_keywords results) = [2000; 500; 100] /\
  (exists q, float_value (fdiv 2600 3) = Some q /\
             Qle_bool (86666 # 100) q && Qle_bool q (86667 # 100) = true).
Proof.
  vm_compute. repeat split. eexists. split; reflexivity.
Qed.

(** With nothing in the environment the script logs the credential error
    and ends without raising and without calling the service. *)
Example main_without_credentials :
  main (surroundings ∅ (inr Ads.Stop)) empty_state =
  (inr tt,
   set_log [(INFO, MsgStarting); (INFO, MsgInitializing);
            (ERROR, MsgApplicationError CredentialError)] empty_state).
Proof. reflexivity. Qed.

(* ===================================================================== *)
(** * Part III: further properties of the code *)
(* ===================================================================== *)

(** ** The search, whatever the service does *)

Lemma int_truediv_error (a b : Z) (e : exn) :
  b <> 0 -> int_truediv a b = inl e -> e = OverflowError.
Proof.
  intros Hb. unfold int_truediv. destruct (Z.eqb_spec b 0); [contradiction|].
  destruct (fdiv a b); intros H; try discriminate. injection H as <-. reflexivity.
Qed.

(** Normalizing never changes the state, and can only fail by overflow. *)
Lemma extract_metrics_cases (idea : Ads.KeywordIdea) :
  (exists r, normalizes_to idea r) \/
  (forall st, _extract_metrics idea st = (inl OverflowError, st)).
Proof.
  unfold normalizes_to, _extract_metrics. cbv zeta.
  destruct (int_truediv
              (int_or (Ads.low_top_of_page_bid_micros (Ads.keyword_idea_metrics idea)) 0)
              1000000) as [e|lo] eqn:Hlo.
  { apply int_truediv_error in Hlo; [|lia]. subst e. right. reflexivity. }
  destruct (int_truediv
              (int_or (Ads.high_top_of_page_bid_micros (Ads.keyword_idea_metrics idea)) 0)
              1000000) as [e|hi] eqn:Hhi.
  { apply int_truediv_error in Hhi; [|lia]. subst e. right. reflexivity. }
  left. eexists. intros st. reflexivity.
Qed.

Lemma set_drawn_app (d1 d2 : list Ads.KeywordIdea) (s : state) :
  set_drawn (drawn (set_drawn (drawn s ++ d1) s) ++ d2) (set_drawn (drawn s ++ d1) s) =
  set_drawn (drawn s ++ d1 ++ d2) s.
Proof. unfold set_drawn. cbn. rewrite <- app_assoc. reflexivity. Qed.

(** The loop on any pager: what it draws is a prefix of what the pager
    yields, one item more than the cap at most; what it returns extends the
    list it started from by the normalized first items drawn, the cap at
    most. *)
Lemma enumerate_loop_general (max_results : Z) (p : Ads.Pager) :
  forall (i : Z) (results : list KeywordMetrics) (s : state),
  exists (d : list Ads.KeywordIdea) (out : exn + list KeywordMetrics),
    enumerate_loop max_results i p results s = (out, set_drawn (drawn s ++ d) s) /\
    d = firstn (length d) (yielded p) /\
    (length d <= Z.to_nat (max_results - i) + 1)%nat /\
    forall res, out = inr res ->
      exists extra,
        res = results ++ extra /\
        (length extra <= Z.to_nat (max_results - i))%nat /\
        (length extra <= length d)%nat /\
        Forall2 normalizes_to (firstn (length extra) d) extra.
Proof.
  induction p as [|idea rest IH|e]; intros i results s.
  - exists [], (inr results). rewrite set_drawn_nil.
    split; [reflexivity|]. split; [reflexivity|]. split; [cbn; lia|].
    intros res [= <-]. exists []. rewrite app_nil_r.
    split; [reflexivity|]. split; [cbn; lia|]. split; [cbn; lia | constructor].
  - cbn [enumerate_loop]. unfold mbind at 1, M_bind at 1, draw at 1.
    destruct (Z.leb_spec max_results i) as [Hle|Hlt].
    + exists [idea], (inr results).
      split; [reflexivity|]. split; [reflexivity|]. split; [cbn; lia|].
      intros res [= <-]. exists []. rewrite app_nil_r.
      split; [reflexivity|]. split; [cbn; lia|]. split; [cbn; lia | constructor].
    + destruct (extract_metrics_cases idea) as [[r Hr] | Hover].
      * rewrite (bind_inr _ _ _ _ _ (Hr _)).
        destruct (IH (i + 1) (results ++ [r]) (set_drawn (drawn s ++ [idea]) s))
          as (d & out & Hrun & Hd & Hlen & Hres).
        exists (idea :: d), out.
        split; [rewrite Hrun, set_drawn_app; reflexivity|].
        split; [cbn [length firstn yielded]; f_equal; exact Hd|].
        split; [cbn [length]; lia|].
        intros res Hout. destruct (Hres res Hout) as (extra & -> & He1 & He2 & He3).
        exists (r :: extra). rewrite <- app_assoc.
        split; [reflexivity|]. split; [cbn [length]; lia|]. split; [cbn [length]; lia|].
        cbn [length firstn]. constructor; assumption.
      * rewrite (bind_inl _ _ _ _ _ (Hover _)).
        exists [idea], (inl OverflowError).
        split; [reflexivity|]. split; [reflexivity|]. split; [cbn; lia|].
        intros res [=].
  - exists [], (inl e). rewrite set_drawn_nil.
    split; [reflexivity|]. split; [reflexivity|]. split; [cbn; lia|]. intros res [=].
Qed.

Lemma search_keywords_general (amb : ambient) (self : SimpleKeywordResearch)
    (keywords : list string) (location : string) (max_results : Z)
    (include_adult_keywords : bool) (s : state) :
  let request := build_request self keywords location include_adult_keywords in
  exists (d : list Ads.KeywordIdea) (l : list (level * message))
         (out : exn + list KeywordMetrics),
    search_keywords amb self keywords location max_results include_adult_keywords s =
      (out, set_log (log s ++ search_log self keywords location max_results ++ l)
              (set_drawn (drawn s ++ d) (set_sent (sent s ++ [request]) s))) /\
    (length d <= Z.to_nat max_results + 1)%nat /\
    (forall e, service amb (sent s) request = inl e -> d = [] /\ out = inl e) /\
    (forall ideas, service amb (sent s) request = inr ideas ->
                   d = firstn (length d) (yielded ideas)) /\
    (forall results, out = inr results ->
       (length results <= Z.to_nat max_results)%nat /\
       (length results <= length d)%nat /\
       Forall2 normalizes_to (firstn (length results) d) results).
Proof.
  intros request. rewrite search_keywords_run. cbv zeta. fold request.
  destruct (service amb (sent s) request) as [e|ideas].
  - exists [], (error_log e), (inl e). split.
    { f_equal. unfold set_log, set_drawn, set_sent. cbn.
      rewrite app_nil_r, <- app_assoc. reflexivity. }
    split; [cbn; lia|]. split; [intros e' [= <-]; split; reflexivity|].
    split; [intros ideas [=] | intros results [=]].
  - destruct (enumerate_loop_general max_results ideas 0 []
                (set_sent (sent s ++ [request])
                   (set_log (log s ++ search_log self keywords location max_results) s)))
      as (d & out & Hrun & Hd & Hlen & Hres).
    rewrite Hrun. rewrite Z.sub_0_r in *.
    destruct out as [e|results].
    + exists d, (error_log e), (inl e). split.
      { f_equal. unfold set_log, set_drawn, set_sent. cbn.
        rewrite <- app_assoc. reflexivity. }
      split; [exact Hlen|]. split; [intros e' [=]|].
      split; [intros ideas' [= <-]; exact Hd | intros results [=]].
    + exists d, [(INFO, MsgFound (length results))], (inr results). split.
      { f_equal. unfold set_log, set_drawn, set_sent. cbn.
        rewrite <- app_assoc. reflexivity. }
      split; [exact Hlen|]. split; [intros e' [=]|].
      split; [intros ideas' [= <-]; exact Hd|].
      intros results' [= <-].
      destruct (Hres results eq_refl) as (extra & Hextra & He1 & He2 & He3).
      cbn [app] in Hextra. subst extra. repeat split; assumption.
Qed.

(** X1. Whatever the service answers, one run of [search_keywords] sends
    exactly one request: for the object's customer id, the language 1000,
    the one geo target of the location, the search network, the seed
    keywords and the adult flag as given. It writes no file, and it only
    adds to the log, starting with its four opening records. *)
Theorem search_keywords_one_request (amb : ambient) (self : SimpleKeywordResearch)
    (keywords : list string) (location : string) (max_results : Z)
    (include_adult_keywords : bool) (s : state) :
  let run :=
    search_keywords amb self keywords location max_results include_adult_keywords s in
  sent (snd run) =
    sent s ++
    [{| Ads.req_customer_id := customer_id self;
        Ads.req_language := "languageConstants/1000";
        Ads.req_geo_target_constants :=
          [String.append "geoTargetConstants/" (location_id location)];
        Ads.req_keyword_plan_network := Ads.GOOGLE_SEARCH;
        Ads.req_keywords := keywords;
        Ads.req_include_adult_keywords := include_adult_keywords |}] /\
  files (snd run) = files s /\
  exists l, log (snd run) =
            log s ++ search_log self keywords location max_results ++ l.
Proof.
  intros run. subst run.
  destruct (search_keywords_general amb self keywords location max_results
              include_adult_keywords s) as (d & l & out & Hrun & _).
  rewrite Hrun. cbn [snd sent files log set_log set_drawn set_sent].
  split; [reflexivity|]. split; [reflexivity|]. exists l. reflexivity.
Qed.

(** X2. Whatever the service answers and whatever the cap, [search_keywords]
    draws from the remote sequence a prefix of what it yields, of at most
    [max_results + 1] items (none when the call itself fails), and when it
    returns, it returns at most [max_results] records, which are the
    normalized first items drawn, in their order; with a cap of zero or
    less it returns no record. *)
Theorem search_keywords_within_cap (amb : ambient) (self : SimpleKeywordResearch)
    (keywords : list string) (location : string) (max_results : Z)
    (include_adult_keywords : bool) (s : state) :
  let request := build_request self keywords location include_adult_keywords in
  let run :=
    search_keywords amb self keywords location max_results include_adult_keywords s in
  exists d : list Ads.KeywordIdea,
    drawn (snd run) = drawn s ++ d /\
    (length d <= Z.to_nat max_results + 1)%nat /\
    (forall e, service amb (sent s) request = inl e -> d = []) /\
    (forall ideas, service amb (sent s) request = inr ideas ->
                   d = firstn (length d) (yielded ideas)) /\
    (forall results, fst run = inr results ->
       (length results <= Z.to_nat max_results)%nat /\
       Forall2 normalizes_to (firstn (length results) d) results /\
       (max_results <= 0 -> results = [])).
Proof.
  intros request run. subst run.
  destruct (search_keywords_general amb self keywords location max_results
              include_adult_keywords s) as (d & l & out & Hrun & Hlen & Hfail & Hpre & Hres).
  fold request in Hfail, Hpre. rewrite Hrun. cbn [fst snd drawn set_log set_drawn].
  exists d. split; [reflexivity|]. split; [exact Hlen|].
  split; [intros e He; apply (Hfail e He)|]. split; [exact Hpre|].
  intros results ->. destruct (Hres results eq_refl) as (H1 & H2 & H3).
  split; [exact H1|]. split; [exact H3|].
  intros Hmax. destruct results as [|r results]; [reflexivity|]. cbn in H1. lia.
Qed.

(** ** Files written by [save_results] *)

Lemma export_name_inj_ext (amb : ambient) (f1 f2 : string) :
  export_name amb f1 = export_name amb f2 <->
  String.eqb (lower f1) "csv" = String.eqb (lower f2) "csv".
Proof.
  unfold export_name.
  assert (Hinj : forall a b c : string, a +:+ b = a +:+ c -> b = c).
  { intros a. induction a as [|x a IH]; intros b c H; cbn in H; [exact H|].
    injection H as H. apply IH. exact H. }
  destruct (String.eqb (lower f1) "csv"), (String.eqb (lower f2) "csv");
    split; intros H; try reflexivity; try discriminate;
    apply Hinj, Hinj in H; discriminate.
Qed.

(** X4. The file name has the resolution of a second. Two exports of the
    same kind made within one second get the same name, and the second
    replaces the first; a table and a list of objects made within one
    second get different names, and both stay. *)
Theorem save_results_same_second (amb1 amb2 : ambient)
    (results1 results2 : list KeywordMetrics) (format1 format2 : string) (s : state) :
  now amb1 = now amb2 ->
  let run1 := save_results amb1 results1 format1 s in
  let run2 := save_results amb2 results2 format2 (snd run1) in
  (String.eqb (lower format1) "csv" = String.eqb (lower format2) "csv" ->
     fst run1 = fst run2 /\
     files (snd run2) =
       <[export_name amb2 format2 := export_content results2 format2]> (files s)) /\
  (String.eqb (lower format1) "csv" <> String.eqb (lower format2) "csv" ->
     files (snd run2) !! export_name amb1 format1 =
       Some (export_content results1 format1) /\
     files (snd run2) !! export_name amb2 format2 =
       Some (export_content results2 format2)).
Proof.
  intros Hnow run1 run2. subst run1 run2. rewrite !save_results_run.
  cbn [fst snd files set_log set_files].
  assert (Hname : export_name amb1 format1 = export_name amb1 format1) by reflexivity.
  assert (Hsame : forall f, export_name amb1 f = export_name amb2 f).
  { intros f. unfold export_name. rewrite Hnow. reflexivity. }
  split.
  - intros Hkind.
    assert (Heq : export_name amb1 format1 = export_name amb2 format2).
    { rewrite <- Hsame. apply export_name_inj_ext. exact Hkind. }
    rewrite Heq. split; [reflexivity|]. apply insert_insert_eq.
  - intros Hkind.
    assert (Hne : export_name amb2 format2 <> export_name amb1 format1).
    { rewrite <- Hsame. intros H. apply Hkind. symmetry.
      apply (export_name_inj_ext amb1). exact H. }
    rewrite lookup_insert_ne by exact Hne. rewrite !lookup_insert_eq.
    split; reflexivity.
Qed.

Lemma save_results_same_second_witness :
  let amb := surroundings ∅ (inr Ads.Stop) in
  let run1 := save_results amb tied_results "csv" empty_state in
  let run2 := save_results amb [sample_metrics "only" 1] "CSV" (snd run1) in
  fst run1 = fst run2 /\
  files (snd run2) =
    <[export_name amb "CSV" := export_content [sample_metrics "only" 1] "CSV"]> ∅.
Proof.
  apply (proj1 (save_results_same_second
                  (surroundings ∅ (inr Ads.Stop)) (surroundings ∅ (inr Ads.Stop))
                  tied_results [sample_metrics "only" 1] "csv" "CSV" empty_state
                  eq_refl)).
  reflexivity.
Defined.

(** ** The summary, whatever the records *)

Lemma int_truediv_inr_eq (a b : Z) (r : float) :
  int_truediv a b = inr r -> r = fdiv a b.
Proof.
  unfold int_truediv. destruct (b =? 0); [discriminate|].
  destruct (fdiv a b); intros H; try discriminate; injection H as <-; reflexivity.
Qed.

Lemma print_summary_general (results : list KeywordMetrics) (s : state) :
  print_summary results s =
    (inr tt,
     set_log (log s ++ match results with
                       | [] => [(WARNING, MsgNoResults)]
                       | _ => summary_log results
                       end) s) \/
  (results <> [] /\
   print_summary results s =
     (inl OverflowError,
      set_log (log s ++ [(INFO, MsgSummary); (INFO, MsgTotal (length results))]) s)).
Proof.
  destruct results as [|r results]; [left; reflexivity|].
  change (print_summary (r :: results) s) with (summary_body (r :: results) s).
  generalize (r :: results) (@nil_cons _ r results). clear r results.
  intros rs Hrs.
  unfold summary_body. cbv zeta. rewrite !bind_logger.
  destruct (int_truediv (total (map search_volume rs))
              (Z.of_nat (length (map search_volume rs)))) as [e|avg] eqn:Havg.
  - right. split; [congruence|].
    apply int_truediv_error in Havg;
      [|rewrite length_map; destruct rs; [congruence | cbn; lia]]. subst e.
    rewrite bind_lift_inl. unfold set_log. cbn. rewrite <- app_assoc. reflexivity.
  - left. apply int_truediv_inr_eq in Havg. rewrite length_map in Havg. subst avg.
    rewrite bind_lift_inr, !bind_logger, top_lines_run.
    unfold summary_log, set_log. cbn [log files sent drawn].
    f_equal. f_equal. rewrite <- !app_assoc. reflexivity.
Qed.

Lemma top_keywords_incl (results : list KeywordMetrics) (r : KeywordMetrics) :
  In r (top_keywords results) -> In r results.
Proof.
  intros H. unfold top_keywords in H.
  apply (Permutation_in _ (sorted_reverse_Permutation search_volume results)).
  rewrite <- (firstn_skipn 3 (sorted_reverse search_volume results)).
  apply in_or_app. left. exact H.
Qed.

(** X6. [print_summary] changes nothing but the log, to which it adds at
    most nine records; it can fail only by the overflow of the mean, and
    does not fail when the volumes are within 64 bits; every top keyword it
    logs is a record of the list it was given. *)
Theorem print_summary_only_logs (results : list KeywordMetrics) (s : state) :
  let run := print_summary results s in
  exists l : list (level * message),
    snd run = set_log (log s ++ l) s /\
    (length l <= 9)%nat /\
    (fst run = inr tt \/ fst run = inl OverflowError) /\
    (Forall (fun r => int64_range (search_volume r)) results -> fst run = inr tt) /\
    (forall kw volume comp, In (INFO, MsgTop kw volume comp) l ->
       exists r, In r results /\ keyword r = kw /\ search_volume r = volume /\
                 competition r = comp).
Proof.
  intros run. subst run.
  destruct (print_summary_general results s) as [Hok | [Hne Hover]].
  - rewrite Hok. eexists. split; [reflexivity|]. cbn [fst].
    split.
    { destruct results as [|r results]; [cbn; lia|].
      unfold summary_log. rewrite length_app, length_map.
      unfold top_keywords. rewrite length_firstn. cbn [length]. lia. }
    split; [left; reflexivity|]. split; [reflexivity|].
    intros kw volume comp Hin.
    destruct results as [|r results].
    { destruct Hin as [H|[]]. discriminate. }
    unfold summary_log in Hin. apply in_app_or in Hin. destruct Hin as [Hin|Hin].
    { cbn in Hin. repeat (destruct Hin as [Hin|Hin]; [discriminate|]). destruct Hin. }
    apply in_map_iff in Hin. destruct Hin as (r' & Heq & Hr').
    injection Heq as <- <- <-. exists r'.
    split; [apply top_keywords_incl; exact Hr' | repeat split].
  - rewrite Hover. eexists. split; [reflexivity|]. cbn [fst].
    split; [cbn; lia|]. split; [right; reflexivity|]. split.
    { intros Hv. exfalso.
      destruct results as [|r results]; [congruence|].
      change (print_summary (r :: results) s) with (summary_body (r :: results) s)
        in Hover.
      rewrite (summary_body_run (r :: results) s Hne Hv) in Hover. discriminate. }
    intros kw volume comp Hin. cbn in Hin.
    repeat (destruct Hin as [Hin|Hin]; [discriminate|]). destruct Hin.
Qed.

(** ** The script, whatever happens *)

(** X7. The script never raises. When construction fails it sends no
    request, writes no file, and its last log record is the error. When
    construction succeeds it sends exactly one request, the one for the
    seed keyword "python programming" in the United States, and it writes
    at most one file: a table of at most 100 records, only when the search
    returned at least one. *)
Theorem main_contained (amb : ambient) (s : state) :
  let run := main amb s in
  fst run = inr tt /\
  (forall e, fst (__init__ amb s) = inl e ->
     sent (snd run) = sent s /\ files (snd run) = files s /\
     drawn (snd run) = drawn s /\
     exists l, log (snd run) = log s ++ l ++ [(ERROR, MsgApplicationError e)]) /\
  (forall kr, fst (__init__ amb s) = inr kr ->
     sent (snd run) =
       sent s ++ [build_request kr ["python programming"%string] "United States" false] /\
     (files (snd run) = files s \/
      exists results : list KeywordMetrics,
        results <> [] /\ (length results <= 100)%nat /\
        files (snd run) =
          <[export_name amb "csv" := export_content results "csv"]> (files s))).
Proof.
  intros run. subst run.
  destruct (init_outcome_log amb s (log s ++ [(INFO, MsgStarting)]))
    as (Hfst & l0 & Hsnd).
  rewrite <- Hfst.
  remember (main amb s) as run eqn:Hrun.
  unfold main, try_except in Hrun.
  rewrite bind_logger in Hrun. unfold mbind at 1, M_bind at 1 in Hrun.
  destruct (__init__ amb (set_log (log s ++ [(INFO, MsgStarting)]) s)) as [out st].
  cbn [fst snd] in Hsnd |- *. subst st. clear Hfst.
  destruct out as [e0|kr0].
  { subst run. cbn [fst snd sent files drawn log set_log logger].
    split; [reflexivity|]. split; [|intros kr [=]].
    intros e [= <-]. repeat split.
    exists ((INFO, MsgStarting) :: (INFO, MsgInitializing) :: l0).
    rewrite <- !app_assoc. reflexivity. }
  rewrite bind_logger in Hrun. unfold mbind at 1, M_bind at 1 in Hrun.
  match type of Hrun with
  | context [search_keywords amb ?kr ?kw ?loc ?mx ?inc ?st] =>
      destruct (search_keywords_general amb kr kw loc mx inc st)
        as (d & l & out & Hsearch & _ & _ & _ & Hres);
      rewrite Hsearch in Hrun; clear Hsearch
  end.
  destruct out as [e|results].
  { subst run. cbn [fst snd sent files drawn log set_log set_drawn set_sent logger].
    split; [reflexivity|]. split; [intros e' [=]|].
    intros kr [= <-]. split; [reflexivity | left; reflexivity]. }
  destruct (Hres results eq_refl) as (Hlen & _ & _). clear Hres.
  unfold mbind at 1, M_bind at 1 in Hrun.
  match type of Hrun with
  | context [print_summary results ?st] =>
      destruct (print_summary_general results st) as [Hsum | [Hne Hsum]];
      rewrite Hsum in Hrun; clear Hsum
  end.
  2:{ subst run. cbn [fst snd sent files drawn log set_log set_drawn set_sent logger].
      split; [reflexivity|]. split; [intros e' [=]|].
      intros kr [= <-]. split; [reflexivity | left; reflexivity]. }
  destruct results as [|r results].
  { subst run.
    cbn [fst snd sent files drawn log set_log set_drawn set_sent logger mbind M_bind
         mret M_ret].
    split; [reflexivity|]. split; [intros e' [=]|].
    intros kr [= <-]. split; [reflexivity | left; reflexivity]. }
  unfold mbind at 1, M_bind at 1 in Hrun. unfold mbind at 1, M_bind at 1 in Hrun.
  rewrite save_results_run in Hrun. subst run.
  cbn [fst snd sent files drawn log set_log set_drawn set_sent set_files logger
       mbind M_bind mret M_ret].
  split; [reflexivity|]. split; [intros e' [=]|].
  intros kr [= <-]. split; [reflexivity|]. right.
  exists (r :: results). split; [discriminate|].
  split; [exact Hlen | reflexivity].
Qed.

(** ** Construction, further *)

(** X8. With a refresh token in the environment the consent flow plays no
    part: with the same client library, construction gives the same result
    and logs the same records whatever the consent artifact's path, the
    files on disk and what the flow would raise or end with, it never logs
    a successful OAuth authentication, and a client it yields carries the
    environment's refresh token. *)
Theorem stored_token_skips_consent (amb amb' : ambient) (s s' : state) :
  opt_truthy (getenv amb "GOOGLE_ADS_REFRESH_TOKEN") = true ->
  (forall k, k <> "GOOGLE_ADS_CLIENT_TOKEN_PATH"%string -> getenv amb k = getenv amb' k) ->
  (forall cfg, client_raises amb cfg = client_raises amb' cfg) ->
  fst (__init__ amb s) = fst (__init__ amb' s') /\
  (exists l, log (snd (__init__ amb s)) = log s ++ l /\
             log (snd (__init__ amb' s')) = log s' ++ l /\
             ~ In (INFO, MsgOAuthSuccessful) l) /\
  (forall kr, fst (__init__ amb s) = inr kr ->
     config (client kr) !! "refresh_token"%string =
       PyStr <$> getenv amb "GOOGLE_ADS_REFRESH_TOKEN").
Proof.
  intros Htoken Henv Hclient.
  assert (H1 := Henv "GOOGLE_ADS_REFRESH_TOKEN"%string ltac:(discriminate)).
  assert (H2 := Henv "GOOGLE_ADS_DEVELOPER_TOKEN"%string ltac:(discriminate)).
  assert (H3 := Henv "GOOGLE_ADS_CLIENT_ID"%string ltac:(discriminate)).
  assert (H4 := Henv "GOOGLE_ADS_CLIENT_SECRET"%string ltac:(discriminate)).
  assert (H5 := Henv "GOOGLE_ADS_LOGIN_CUSTOMER_ID"%string ltac:(discriminate)).
  assert (H6 := Henv "GOOGLE_ADS_CUSTOMER_ID"%string ltac:(discriminate)).
  assert (Hid : stripped_customer_id amb = stripped_customer_id amb').
  { unfold stripped_customer_id, getenv_default. rewrite H6. reflexivity. }
  assert (Hlogin : stripped_login_customer_id amb = stripped_login_customer_id amb').
  { unfold stripped_login_customer_id, getenv_default. rewrite H5. reflexivity. }
  assert (Hcfg : expected_config amb = expected_config amb').
  { unfold expected_config, base_config. cbv zeta.
    rewrite <- H1, Htoken, <- H2, <- H3, <- H4, <- H5, <- Hlogin. reflexivity. }
  assert (Hsetup : setup_log amb = setup_log amb').
  { unfold setup_log. rewrite <- H1, <- H5, <- Hlogin. reflexivity. }
  assert (Hnolog : ~ In (INFO, MsgOAuthSuccessful) (setup_log amb)).
  { unfold setup_log. rewrite Htoken.
    destruct (opt_truthy (getenv amb "GOOGLE_ADS_LOGIN_CUSTOMER_ID")); cbn;
      intros H; repeat (destruct H as [H|H]; [discriminate|]); exact H. }
  rewrite !init_run. unfold credentials_missing, flow_error.
  rewrite <- H1, Htoken. cbn [negb andb].
  rewrite <- Hid, <- Hcfg, <- Hclient.
  destruct (client_raises amb (expected_config amb)) as [e|]; cbn [fst snd log set_log].
  { split; [reflexivity|]. split; [|intros kr [=]].
    exists ((INFO, MsgInitializing) :: setup_log amb).
    split; [reflexivity|]. split; [rewrite Hsetup; reflexivity|].
    intros [H|H]; [discriminate | exact (Hnolog H)]. }
  destruct (str_truthy (stripped_customer_id amb)); cbn [fst snd log set_log].
  - split.
    { f_equal. unfold constructed. rewrite Hcfg, Hid, Hlogin. reflexivity. }
    split.
    { exists (init_log amb). split; [reflexivity|]. split.
      - unfold init_log. rewrite Hsetup, Hid, Hlogin. reflexivity.
      - unfold init_log. intros [H|H]; [discriminate|].
        apply in_app_or in H. destruct H as [H|H]; [exact (Hnolog H)|].
        destruct H as [H|H]; [discriminate|].
        destruct (str_truthy (stripped_login_customer_id amb)); cbn in H;
          repeat (destruct H as [H|H]; [discriminate|]); exact H. }
    intros kr [= <-]. cbn [client constructed config].
    unfold expected_config. cbv zeta. rewrite Htoken.
    destruct (getenv amb "GOOGLE_ADS_REFRESH_TOKEN") as [t|]; [|discriminate].
    destruct (opt_truthy (getenv amb "GOOGLE_ADS_LOGIN_CUSTOMER_ID"));
      unfold base_config; rewrite ?lookup_insert_ne by discriminate;
      rewrite lookup_insert_eq; reflexivity.
  - split; [reflexivity|]. split; [|intros kr [=]].
    exists ((INFO, MsgInitializing) :: setup_log amb).
    split; [reflexivity|]. split; [rewrite Hsetup; reflexivity|].
    intros [H|H]; [discriminate | exact (Hnolog H)].
Qed.

Lemma stored_token_skips_consent_witness :
  fst (__init__ (surroundings (env_with_ids "123-456-7890" "") (inr Ads.Stop))
                empty_state) =
  fst (__init__ (surroundings
                   (<["GOOGLE_ADS_CLIENT_TOKEN_PATH" := "/tmp/client_secret.json"%string]>
                      (env_with_ids "123-456-7890" ""))
                   (inl (OtherException "unused")))
                (set_files (<["/tmp/client_secret.json"%string := OtherFile "{}"]> ∅)
                           empty_state)).
Proof.
  apply (stored_token_skips_consent
           (surroundings (env_with_ids "123-456-7890" "") (inr Ads.Stop))
           (surroundings
              (<["GOOGLE_ADS_CLIENT_TOKEN_PATH" := "/tmp/client_secret.json"%string]>
                 (env_with_ids "123-456-7890" ""))
              (inl (OtherException "unused")))
           empty_state
           (set_files (<["/tmp/client_secret.json"%string := OtherFile "{}"]> ∅)
                      empty_state)).
  - reflexivity.
  - intros k Hk. unfold getenv, surroundings. cbn [environ].
    rewrite lookup_insert_ne by congruence. reflexivity.
  - reflexivity.
Defined.

(** X9. Construction sends no request, writes no file and draws nothing; it
    only adds to the log, starting with its opening record. The client it
    yields is configured with [use_proto_plus] true, with the developer
    token, client id and client secret as the environment has them ([None]
    when one is missing), with a refresh token that is the environment's
    when it has one and otherwise what the consent flow returned, and with
    a login customer id only when the environment sets one. *)
Theorem init_frame_and_config (amb : ambient) (s : state) :
  let run := __init__ amb s in
  files (snd run) = files s /\ sent (snd run) = sent s /\ drawn (snd run) = drawn s /\
  (exists l, log (snd run) = log s ++ (INFO, MsgInitializing) :: l) /\
  (forall kr, fst run = inr kr ->
     let cfg := config (client kr) in
     cfg !! "use_proto_plus"%string = Some (PyBool true) /\
     cfg !! "developer_token"%string =
       Some (of_getenv (getenv amb "GOOGLE_ADS_DEVELOPER_TOKEN")) /\
     cfg !! "client_id"%string = Some (of_getenv (getenv amb "GOOGLE_ADS_CLIENT_ID")) /\
     cfg !! "client_secret"%string =
       Some (of_getenv (getenv amb "GOOGLE_ADS_CLIENT_SECRET")) /\
     cfg !! "refresh_token"%string =
       Some (if opt_truthy (getenv amb "GOOGLE_ADS_REFRESH_TOKEN")
             then of_getenv (getenv amb "GOOGLE_ADS_REFRESH_TOKEN")
             else of_getenv (consent amb (default EmptyString
                                            (getenv amb "GOOGLE_ADS_CLIENT_TOKEN_PATH")))) /\
     (is_Some (cfg !! "login_customer_id"%string) <->
      opt_truthy (getenv amb "GOOGLE_ADS_LOGIN_CUSTOMER_ID") = true) /\
     (forall k, is_Some (cfg !! k) ->
        In k ["use_proto_plus"; "developer_token"; "client_id"; "client_secret";
              "refresh_token"; "login_customer_id"]%string)).
Proof.
  intros run. subst run. rewrite init_run.
  destruct (credentials_missing amb s).
  { cbn [fst snd files sent drawn log set_log].
    split; [reflexivity|]. split; [reflexivity|]. split; [reflexivity|].
    split; [exists []; reflexivity | intros kr [=]]. }
  destruct (flow_error amb).
  { cbn [fst snd files sent drawn log set_log].
    split; [reflexivity|]. split; [reflexivity|]. split; [reflexivity|].
    split; [exists []; reflexivity | intros kr [=]]. }
  destruct (client_raises amb (expected_config amb)).
  { cbn [fst snd files sent drawn log set_log].
    split; [reflexivity|]. split; [reflexivity|]. split; [reflexivity|].
    split; [exists (setup_log amb); reflexivity | intros kr [=]]. }
  destruct (str_truthy (stripped_customer_id amb)).
  2:{ cbn [fst snd files sent drawn log set_log].
      split; [reflexivity|]. split; [reflexivity|]. split; [reflexivity|].
      split; [exists (setup_log amb); reflexivity | intros kr [=]]. }
  cbn [fst snd files sent drawn log set_log].
  split; [reflexivity|]. split; [reflexivity|]. split; [reflexivity|].
  split; [eexists; unfold init_log; reflexivity|].
  intros kr [= <-]. cbv zeta.
  cbn [client constructed config].
  unfold expected_config. cbv zeta.
  destruct (opt_truthy (getenv amb "GOOGLE_ADS_LOGIN_CUSTOMER_ID")); unfold base_config.
  - rewrite !lookup_insert_ne by discriminate.
    repeat (split; [rewrite ?lookup_insert_ne by discriminate;
                    rewrite lookup_insert_eq; reflexivity|]).
    split.
    + rewrite lookup_insert_eq. split; [reflexivity | eauto].
    + intros k Hk.
      repeat (rewrite lookup_insert in Hk;
              destruct (decide (_ = k)) as [<-|?]; [cbn; tauto|]).
      rewrite lookup_empty in Hk. destruct Hk as [x Hx]. discriminate.
  - repeat (split; [rewrite ?lookup_insert_ne by discriminate;
                    rewrite lookup_insert_eq; reflexivity|]).
    split.
    + rewrite !lookup_insert_ne by discriminate. rewrite lookup_empty.
      split; [intros [x Hx]; discriminate | discriminate].
    + intros k Hk.
      repeat (rewrite lookup_insert in Hk;
              destruct (decide (_ = k)) as [<-|?]; [cbn; tauto|]).
      rewrite lookup_empty in Hk. destruct Hk as [x Hx]. discriminate.
Qed.

(* ===================================================================== *)
(** * Part IV: the dashboard *)
(* ===================================================================== *)

(** ** Seed keywords *)

Lemma lstrip_head (s : string) (c : ascii) (t : string) :
  lstrip s = String c t -> is_space c = false.
Proof.
  induction s as [|a s IH]; cbn [lstrip]; [discriminate|].
  destruct (is_space a) eqn:Ha; [exact IH|].
  intros [= <- _]. exact Ha.
Qed.

Lemma rstrip_head (s : string) (c : ascii) (t : string) :
  rstrip s = String c t -> exists t', s = String c t'.
Proof.
  destruct s as [|a s]; cbn [rstrip]; [discriminate|].
  destruct (rstrip s); [destruct (is_space a); [discriminate|]|];
    intros [= <- _]; eexists; reflexivity.
Qed.

Lemma append_last_inv (t u : string) (a c : ascii) :
  String a u = t +:+ String c EmptyString ->
  (t = EmptyString /\ u = EmptyString /\ a = c) \/
  (exists t', t = String a t' /\ u = t' +:+ String c EmptyString).
Proof.
  destruct t as [|b t]; cbn [String.append].
  - intros [= -> ->]. left. auto.
  - intros [= -> ->]. right. eexists. split; reflexivity.
Qed.

Lemma append_last_nonempty (t : string) (c : ascii) :
  t +:+ String c EmptyString <> EmptyString.
Proof. destruct t; cbn [String.append]; discriminate. Qed.

Lemma rstrip_last (s t : string) (c : ascii) :
  rstrip s = t +:+ String c EmptyString -> is_space c = false.
Proof.
  revert t. induction s as [|a s IH]; intros t; cbn [rstrip].
  - intros H. symmetry in H. destruct (append_last_nonempty _ _ H).
  - destruct (rstrip s) as [|b u] eqn:Hr.
    + destruct (is_space a) eqn:Ha.
      * intros H. symmetry in H. destruct (append_last_nonempty _ _ H).
      * intros H. destruct (append_last_inv _ _ _ _ H) as [(_ & _ & <-)|(t' & _ & H')];
          [exact Ha|]. symmetry in H'. destruct (append_last_nonempty _ _ H').
    + intros H. destruct (append_last_inv _ _ _ _ H) as [(_ & [=] & _)|(t' & _ & H')].
      apply (IH t'). exact H'.
Qed.

(** The white space [strip] removes is the white space of the code points
    below 256. *)
Lemma is_space_whitespace (c : ascii) : is_space c = true <-> In c whitespace.
Proof.
  destruct c as [[] [] [] [] [] [] [] []]; vm_compute;
    (split; [intros H; first [discriminate H | tauto]
            |intros H; first [reflexivity
                             |repeat (destruct H as [H|H]; [discriminate H|]);
                              destruct H]]).
Qed.

Lemma not_space_whitespace (c : ascii) : is_space c = false <-> ~ In c whitespace.
Proof.
  rewrite <- is_space_whitespace. destruct (is_space c); split; congruence.
Qed.

Lemma strip_no_outer_space (s : string) : no_outer_space (strip s).
Proof.
  unfold strip. split.
  - intros c t H. destruct (rstrip_head _ _ _ H) as (t' & H').
    apply not_space_whitespace. exact (lstrip_head _ _ _ H').
  - intros t c H. apply not_space_whitespace. exact (rstrip_last _ _ _ H).
Qed.

Lemma rstrip_fixed (k : string) :
  (forall t c, k = t +:+ String c EmptyString -> is_space c = false) ->
  rstrip k = k.
Proof.
  induction k as [|a k IH]; intros H; cbn [rstrip]; [reflexivity|].
  rewrite IH.
  - destruct k as [|b k]; [|reflexivity].
    rewrite (H EmptyString a eq_refl). reflexivity.
  - intros t c ->. apply (H (String a t) c). reflexivity.
Qed.

Lemma no_outer_space_strip (k : string) : no_outer_space k -> strip k = k.
Proof.
  intros [Hhead Hlast]. unfold strip.
  assert (Hl : lstrip k = k).
  { destruct k as [|a k]; [reflexivity|]. cbn [lstrip].
    rewrite (proj2 (not_space_whitespace a) (Hhead a k eq_refl)). reflexivity. }
  rewrite Hl. apply rstrip_fixed.
  intros t c H. apply not_space_whitespace. exact (Hlast t c H).
Qed.




Lemma strip_strip (s : string) : strip (strip s) = strip s.
Proof. apply no_outer_space_strip, strip_no_outer_space. Qed.




Lemma str_split_nonempty (sep : ascii) (s : string) : str_split sep s <> [].
Proof.
  destruct s as [|a s]; cbn [str_split]; [discriminate|].
  destruct (Ascii.eqb a sep); [discriminate|].
  destruct (str_split sep s); discriminate.
Qed.


Lemma str_split_whole (sep : ascii) (w : string) :
  ~ In sep (list_ascii_of_string w) -> str_split sep w = [w].
Proof.
  induction w as [|a w IH]; cbn [str_split list_ascii_of_string In]; [reflexivity|].
  intros H. destruct (Ascii.eqb_spec a sep) as [->|Hne]; [tauto|].
  rewrite IH by tauto. reflexivity.
Qed.

Lemma str_split_app (sep : ascii) (w rest : string) :
  ~ In sep (list_ascii_of_string w) ->
  str_split sep (w +:+ String sep rest) = w :: str_split sep rest.
Proof.
  induction w as [|a w IH].
  - intros _. change (EmptyString +:+ String sep rest) with (String sep rest).
    cbn [str_split]. rewrite Ascii.eqb_refl. reflexivity.
  - change (String a w +:+ String sep rest) with (String a (w +:+ String sep rest)).
    cbn [str_split list_ascii_of_string In].
    intros H. destruct (Ascii.eqb_spec a sep) as [->|Hne]; [tauto|].
    rewrite IH by tauto. reflexivity.
Qed.

Lemma str_split_join (sep : ascii) (l : list string) :
  l <> [] ->
  Forall (fun w => ~ In sep (list_ascii_of_string w)) l ->
  str_split sep (str_join (String sep EmptyString) l) = l.
Proof.
  unfold str_join. induction l as [|w l IH]; [congruence|]. intros _ H.
  inversion H as [|? ? Hw Hl]; subst.
  destruct l as [|w' l].
  - cbn [String.concat]. apply str_split_whole, Hw.
  - change (String.concat (String sep EmptyString) (w :: w' :: l))
      with (w +:+ String sep (String.concat (String sep EmptyString) (w' :: l))).
    rewrite str_split_app by exact Hw. rewrite IH; [reflexivity|discriminate|exact Hl].
Qed.


(** X11. Parsing undoes joining: lines that are non-empty, trimmed and free
    of line breaks, put one per line into the text area, are read back as
    they are, in their order. *)
Theorem seed_keywords_round_trip (l : list string) (Hclean : Forall clean l) :
  seed_keywords (str_join (String newline EmptyString) l) = l.
Proof.
  unfold seed_keywords. destruct l as [|k l]; [reflexivity|].
  rewrite str_split_join.
  - induction Hclean as [|w ws (Hne & Hs & _) _ IH]; cbn [List.filter map]; [reflexivity|].
    rewrite Hs. destruct w as [|c t]; [congruence|]. cbn [str_truthy map].
    rewrite Hs, IH. reflexivity.
  - discriminate.
  - eapply List.Forall_impl; [|exact Hclean]. intros w (_ & _ & H). exact H.
Qed.

Lemma seed_keywords_round_trip_witness :
  Forall clean ["python programming"; "web development"; "data science"]%string /\
  seed_keywords "python programming
web development
data science" =
  ["python programming"; "web development"; "data science"]%string.
Proof.
  assert (H : Forall clean ["python programming"; "web development"; "data science"]%string).
  { repeat constructor; try discriminate;
      intros H; cbn in H; repeat (destruct H as [H|H]; [discriminate H|]); exact H. }
  split; [exact H|]. exact (seed_keywords_round_trip _ H).
Defined.

(** ** The dashboard's connection *)

(** X12. The dashboard creates the research object once and reuses it:
    [initialize_keyword_research] answers true exactly when the session
    then holds an object; with an object in the session it changes nothing,
    so a call after a successful one neither constructs nor shows anything.
    Without one it constructs: on success it stores the object, on failure
    it stores nothing, shows the exception and answers false, so that the
    next run tries again. It never raises, sends no request, writes no file
    and leaves the results of the session alone. *)
Theorem initialize_once (amb : ambient) (a : App.app) :
  let run := App.initialize_keyword_research amb a in
  let a' := snd run in
  (fst run = true <-> is_Some (App.kr_instance a')) /\
  (is_Some (App.kr_instance a) -> run = (true, a)) /\
  (fst run = true -> App.initialize_keyword_research amb a' = (true, a')) /\
  (App.kr_instance a = None ->
     (forall kr s, __init__ amb (App.world a) = (inr kr, s) ->
        fst run = true /\ App.kr_instance a' = Some kr /\ App.world a' = s /\
        App.page a' = App.page a ++ [App.InitSpinner; App.Connected]) /\
     (forall e s, __init__ amb (App.world a) = (inl e, s) ->
        fst run = false /\ App.kr_instance a' = None /\ App.world a' = s /\
        App.page a' =
          App.page a ++ [App.InitSpinner; App.InitFailed e; App.CheckCredentials])) /\
  App.research_results a' = App.research_results a /\
  sent (App.world a') = sent (App.world a) /\
  files (App.world a') = files (App.world a) /\
  drawn (App.world a') = drawn (App.world a).
Proof.
  intros run a'. subst a' run. unfold App.initialize_keyword_research.
  destruct (App.kr_instance a) as [kr0|] eqn:Hk.
  - cbn [fst snd]. rewrite Hk.
    split; [split; [eauto|reflexivity]|]. split; [reflexivity|].
    split; [reflexivity|]. split; [discriminate|]. repeat split; reflexivity.
  - cbv zeta. change (App.world (App.show App.InitSpinner a)) with (App.world a).
    assert (Hframe : sent (snd (__init__ amb (App.world a))) = sent (App.world a) /\
                     files (snd (__init__ amb (App.world a))) = files (App.world a) /\
                     drawn (snd (__init__ amb (App.world a))) = drawn (App.world a)).
    { destruct (init_frame amb (App.world a)) as [l ->]. repeat split; reflexivity. }
    destruct (__init__ amb (App.world a)) as [[e|kr] s] eqn:Hinit;
      cbn [fst snd App.kr_instance App.show App.set_kr_instance App.set_world
           App.world App.research_results App.page] in *.
    + split; [split; [discriminate|intros [x Hx]; congruence]|].
      split; [intros [x Hx]; discriminate|]. split; [discriminate|].
      split; [|tauto]. intros _. split; [intros kr s' [=]|].
      intros e' s' [= <- <-]. rewrite <- !app_assoc.
      repeat split; try reflexivity; exact Hk.
    + split; [split; [eauto|reflexivity]|].
      split; [intros [x Hx]; discriminate|]. split; [reflexivity|].
      split; [|tauto]. intros _. split; [|intros e s' [=]].
      intros kr' s' [= <- <-]. rewrite <- !app_assoc. repeat split; reflexivity.
Qed.

(** ** The research button *)

Lemma enumerate_loop_uniform (max_results : Z) (p : Ads.Pager) :
  forall (i : Z) (results : list KeywordMetrics),
  exists (d : list Ads.KeywordIdea) (out : exn + list KeywordMetrics),
    forall s : state,
      enumerate_loop max_results i p results s = (out, set_drawn (drawn s ++ d) s).
Proof.
  induction p as [|idea rest IH|e]; intros i results.
  - exists [], (inr results). intros s. rewrite set_drawn_nil. reflexivity.
  - cbn [enumerate_loop].
    destruct (Z.leb_spec max_results i) as [Hle|Hlt].
    + exists [idea], (inr results). intros s. reflexivity.
    + destruct (extract_metrics_cases idea) as [[r Hr] | Hover].
      * destruct (IH (i + 1) (results ++ [r])) as (d & out & Hrun).
        exists (idea :: d), out. intros s.
        unfold mbind at 1, M_bind at 1, draw at 1.
        rewrite (bind_inr _ _ _ _ _ (Hr _)). rewrite Hrun, set_drawn_app. reflexivity.
      * exists [idea], (inl OverflowError). intros s.
        unfold mbind at 1, M_bind at 1, draw at 1.
        rewrite (bind_inl _ _ _ _ _ (Hover _)). reflexivity.
  - exists [], (inl e). intros s. rewrite set_drawn_nil. reflexivity.
Qed.

(** What a search gives and what it sends and draws depend on the location
    through its geo target only. *)
Lemma search_keywords_by_geo_target (amb : ambient) (self : SimpleKeywordResearch)
    (keywords : list string) (l1 l2 : string) (max_results : Z)
    (include_adult_keywords : bool) (s : state) :
  location_id l1 = location_id l2 ->
  let run1 := search_keywords amb self keywords l1 max_results include_adult_keywords s in
  let run2 := search_keywords amb self keywords l2 max_results include_adult_keywords s in
  fst run1 = fst run2 /\ sent (snd run1) = sent (snd run2) /\
  drawn (snd run1) = drawn (snd run2) /\ files (snd run1) = files (snd run2).
Proof.
  intros Hid run1 run2. subst run1 run2. rewrite !search_keywords_run. cbv zeta.
  assert (Hreq : build_request self keywords l1 include_adult_keywords =
                 build_request self keywords l2 include_adult_keywords).
  { unfold build_request. rewrite Hid. reflexivity. }
  rewrite Hreq.
  destruct (service amb (sent s) (build_request self keywords l2 include_adult_keywords))
    as [e|ideas].
  - repeat split; reflexivity.
  - destruct (enumerate_loop_uniform max_results ideas 0 []) as (d & out & Hrun).
    rewrite !Hrun. destruct out; repeat split; reflexivity.
Qed.

(** X13. The research button: with no seed keyword left after parsing it
    shows one error and does nothing else (no request, no log record, the
    results of the session as they were). Otherwise, with an object in the
    session, it runs that object's [search_keywords] once, for the parsed
    keywords and the values of the widgets, and the program's state
    afterwards is the state that search leaves, with its one request. When
    the search returns, the records it returned replace the results of the
    session and their number is shown; when the search raises, the
    exception it raised is shown and the results of the session stay as
    they were. Without an object in the session the call itself fails, and
    that failure is shown. In no case does it raise, write a file or change
    the object of the session. *)
Theorem research_outcomes (amb : ambient) (w : App.widgets) (a : App.app) :
  let keywords := seed_keywords (App.keywords_input w) in
  let a' := App.research amb w a in
  App.kr_instance a' = App.kr_instance a /\
  files (App.world a') = files (App.world a) /\
  (keywords = [] ->
     App.world a' = App.world a /\
     App.research_results a' = App.research_results a /\
     App.page a' = App.page a ++ [App.NoSeedKeyword]) /\
  (keywords <> [] ->
     forall kr, App.kr_instance a = Some kr ->
       let search :=
         search_keywords amb kr keywords (App.location w) (App.max_results w)
                         (App.include_adult w) (App.world a) in
       App.world a' = snd search /\
       sent (App.world a') =
         sent (App.world a) ++
         [build_request kr keywords (App.location w) (App.include_adult w)] /\
       (forall results, fst search = inr results ->
          App.research_results a' = Some results /\
          (length results <= Z.to_nat (App.max_results w))%nat /\
          App.page a' =
            App.page a ++
            [App.ResearchSpinner keywords; App.Progress 0; App.Progress 25;
             App.Progress 75; App.Progress 100; App.ProgressCleared;
             App.Found (length results)]) /\
       (forall e, fst search = inl e ->
          App.research_results a' = App.research_results a /\
          App.page a' =
            App.page a ++
            [App.ResearchSpinner keywords; App.Progress 0; App.Progress 25;
             App.ResearchFailed e; App.Traceback e])) /\
  (keywords <> [] -> App.kr_instance a = None ->
     App.world a' = App.world a /\
     App.research_results a' = App.research_results a /\
     App.page a' =
       App.page a ++
       [App.ResearchSpinner keywords; App.Progress 0; App.Progress 25;
        App.ResearchFailed App.AttributeError; App.Traceback App.AttributeError]).
Proof.
  intros keywords a'. subst a'. unfold App.research. fold keywords.
  destruct keywords as [|k ks] eqn:Hkw.
  - cbn [App.show App.kr_instance App.world App.research_results App.page].
    split; [reflexivity|]. split; [reflexivity|].
    split; [intros _; repeat split; reflexivity|]. split; congruence.
  - cbv zeta.
    cbn [App.show App.kr_instance App.world App.research_results App.page].
    destruct (App.kr_instance a) as [kr|] eqn:Hk.
    + destruct (search_keywords_general amb kr (k :: ks) (App.location w)
                  (App.max_results w) (App.include_adult w) (App.world a))
        as (d & l & out & Hrun & _ & _ & _ & Hres).
      rewrite Hrun. destruct out as [e|results];
        cbn [App.show App.kr_instance App.world App.research_results App.page
             App.set_world App.set_research_results files sent set_log set_drawn set_sent];
        (split; [exact Hk|]); (split; [reflexivity|]); (split; [discriminate|]);
        (split; [|intros _ [=]]); intros _ kr' [= <-]; rewrite Hrun; cbn [fst snd];
        (split; [reflexivity|]); (split; [reflexivity|]).
      * split; [intros results [=]|]. intros e' [= <-].
        split; [reflexivity|]. rewrite <- !app_assoc. reflexivity.
      * split; [|intros e [=]]. intros results' [= <-].
        split; [reflexivity|]. split; [apply (Hres results eq_refl)|].
        rewrite <- !app_assoc. reflexivity.
    + cbn [App.show App.kr_instance App.world App.research_results App.page
           App.set_world App.set_research_results].
      split; [exact Hk|]. split; [reflexivity|]. split; [discriminate|].
      split; [intros _ kr [=]|]. intros _ _.
      split; [reflexivity|]. split; [reflexivity|].
      rewrite <- !app_assoc. reflexivity.
Qed.

(** What the research button does to the session and to the requests. *)
Lemma research_state (amb : ambient) (w : App.widgets) (a : App.app) :
  let keywords := seed_keywords (App.keywords_input w) in
  let a' := App.research amb w a in
  App.kr_instance a' = App.kr_instance a /\
  files (App.world a') = files (App.world a) /\
  (keywords = [] ->
     App.world a' = App.world a /\
     App.research_results a' = App.research_results a) /\
  (keywords <> [] ->
     forall kr, App.kr_instance a = Some kr ->
       sent (App.world a') =
         sent (App.world a) ++
         [build_request kr keywords (App.location w) (App.include_adult w)]) /\
  (App.research_results a' = App.research_results a \/
   exists results,
     App.research_results a' = Some results /\
     (length results <= Z.to_nat (App.max_results w))%nat).
Proof.
  intros keywords a'. subst a'. unfold App.research. fold keywords.
  destruct keywords as [|k ks] eqn:Hkw.
  - cbn [App.show App.kr_instance App.world App.research_results App.page].
    split; [reflexivity|]. split; [reflexivity|].
    split; [intros _; split; reflexivity|]. split; [congruence|]. left. reflexivity.
  - cbv zeta.
    cbn [App.show App.kr_instance App.world App.research_results App.page].
    destruct (App.kr_instance a) as [kr|] eqn:Hk.
    + destruct (search_keywords_general amb kr (k :: ks) (App.location w)
                  (App.max_results w) (App.include_adult w) (App.world a))
        as (d & l & out & Hrun & _ & _ & _ & Hres).
      rewrite Hrun. destruct out as [e|results];
        cbn [App.show App.kr_instance App.world App.research_results App.page
             App.set_world App.set_research_results files sent set_log set_drawn set_sent];
        (split; [exact Hk|]); (split; [reflexivity|]); (split; [discriminate|]);
        (split; [intros _ kr' [= <-]; reflexivity|]).
      * left. reflexivity.
      * right. exists results. split; [reflexivity|]. apply (Hres results eq_refl).
    + cbn [App.show App.kr_instance App.world App.research_results App.page
           App.set_world App.set_research_results].
      split; [exact Hk|]. split; [reflexivity|]. split; [discriminate|].
      split; [intros _ kr [=]|]. left. reflexivity.
Qed.

(** X14. One run of the page up to its research button. The page counts as
    ready exactly when the four required variables are set and not empty
    and the session holds an object or construction returns one. When it is
    not ready, the run ends on the not-ready error: no request is sent and
    the results of the session stay, whether or not the button was pressed;
    when a required variable is missing, construction is not even tried,
    and when construction was tried, the exception it raised is shown and
    the session holds no object. When it is ready, the session holds an
    object afterwards, the one construction returned if it held none
    before, and a request is sent, exactly one and with that object's
    customer id, exactly when the button was pressed and a seed keyword is
    left after parsing. No run writes a file. *)
Theorem dashboard_run (amb : ambient) (w : App.widgets) (a : App.app) :
  let a' := App.main amb w a in
  let keywords := seed_keywords (App.keywords_input w) in
  let vars_set := forallb (App.is_set amb) App.required_vars in
  let construction := fst (__init__ amb (App.world a)) in
  let ready :=
    vars_set &&
    (bool_decide (is_Some (App.kr_instance a)) ||
     match construction with inr _ => true | inl _ => false end) in
  let asked :=
    App.start_pressed w && match keywords with [] => false | _ => true end in
  files (App.world a') = files (App.world a) /\
  (vars_set = false ->
     App.world a' = App.world a /\ App.kr_instance a' = App.kr_instance a) /\
  (ready = false ->
     last (App.page a') = Some App.NotReady /\
     sent (App.world a') = sent (App.world a) /\
     drawn (App.world a') = drawn (App.world a) /\
     App.research_results a' = App.research_results a /\
     (vars_set = true ->
      exists e, construction = inl e /\ App.kr_instance a' = None /\
                In (App.InitFailed e) (App.page a'))) /\
  (ready = true ->
     exists kr,
       App.kr_instance a' = Some kr /\
       (App.kr_instance a = None -> construction = inr kr) /\
       if asked
       then sent (App.world a') =
              sent (App.world a) ++
              [build_request kr keywords (App.location w) (App.include_adult w)]
       else sent (App.world a') = sent (App.world a) /\
            drawn (App.world a') = drawn (App.world a) /\
            App.research_results a' = App.research_results a).
Proof.
  intros a' keywords vars_set construction ready asked.
  subst a' ready asked construction. unfold App.main, App.environment_status. cbv zeta.
  fold vars_set. destruct vars_set eqn:Hvars; cbn [andb].
  2:{ cbn [negb App.show App.world App.kr_instance App.research_results App.page
           fold_left App.required_vars].
      split; [reflexivity|]. split; [intros _; split; reflexivity|].
      split; [|discriminate]. intros _.
      split; [rewrite last_snoc; reflexivity|].
      split; [reflexivity|]. split; [reflexivity|]. split; [reflexivity|]. discriminate. }
  unfold App.initialize_keyword_research.
  cbn [App.show App.world App.kr_instance App.research_results App.page
       fold_left App.required_vars].
  destruct (App.kr_instance a) as [kr0|] eqn:Hk.
  - rewrite bool_decide_eq_true_2 by eauto. cbn [orb negb].
    split; [|split; [discriminate|split; [discriminate|intros _]]].
    + destruct (App.start_pressed w); [|reflexivity].
      match goal with |- context [App.research amb w ?b] =>
        destruct (research_state amb w b) as (_ & Hf & _) end.
      exact Hf.
    + destruct (App.start_pressed w); cbn [andb].
      2:{ exists kr0. cbn [App.kr_instance App.world App.research_results].
          split; [exact Hk|]. split; [discriminate|]. repeat split; reflexivity. }
      match goal with |- context [App.research amb w ?b] =>
        destruct (research_state amb w b) as (Hkr & _ & Hnone & Hsome & _) end.
      fold keywords in Hnone, Hsome.
      cbn [App.kr_instance App.world App.research_results App.page App.show] in *.
      exists kr0. split; [congruence|]. split; [discriminate|].
      destruct keywords as [|k ks] eqn:Hkw.
      * destruct (Hnone eq_refl) as (Hw & Hr). rewrite Hw.
        repeat split; [exact Hr].
      * exact (Hsome ltac:(discriminate) kr0 Hk).
  - rewrite bool_decide_eq_false_2 by (intros [x Hx]; discriminate). cbn [orb].
    destruct (init_frame amb (App.world a)) as [l Hl].
    destruct (__init__ amb (App.world a)) as [[e|kr] st]; cbn [fst snd] in Hl |- *;
      subst st.
    { cbn [negb App.show App.world App.kr_instance App.research_results App.page
           App.set_world sent files drawn set_log].
      split; [reflexivity|]. split; [discriminate|]. split; [|discriminate].
      intros _. split; [rewrite last_snoc; reflexivity|].
      split; [reflexivity|]. split; [reflexivity|]. split; [reflexivity|].
      intros _. exists e. split; [reflexivity|]. split; [exact Hk|].
      rewrite !in_app_iff. cbn. tauto. }
    cbn [negb].
    split; [|split; [discriminate|split; [discriminate|intros _]]].
    + destruct (App.start_pressed w); [|reflexivity].
      match goal with |- context [App.research amb w ?b] =>
        destruct (research_state amb w b) as (_ & Hf & _) end.
      exact Hf.
    + destruct (App.start_pressed w); cbn [andb].
      2:{ exists kr.
          cbn [App.kr_instance App.world App.research_results App.show
               App.set_kr_instance App.set_world sent drawn set_log].
          repeat split; reflexivity. }
      match goal with |- context [App.research amb w ?b] =>
        destruct (research_state amb w b) as (Hkr & _ & Hnone & Hsome & _) end.
      fold keywords in Hnone, Hsome.
      cbn [App.kr_instance App.world App.research_results App.page App.show
           App.set_kr_instance App.set_world sent drawn set_log] in *.
      exists kr. split; [exact Hkr|]. split; [reflexivity|].
      destruct keywords as [|k ks] eqn:Hkw.
      * destruct (Hnone eq_refl) as (Hw & Hr). rewrite Hw.
        repeat split; [exact Hr].
      * exact (Hsome ltac:(discriminate) _ eq_refl).
Qed.

(** X15. The research of the dashboard depends on the chosen location
    through its geo target only: two choices with the same geo target give
    the same request, the same items drawn, the same results in the session
    and the same page. The select box offers India, whose geo target is that
    of the United States. *)
Theorem research_by_geo_target (amb : ambient) (w : App.widgets) (l1 l2 : string)
    (a : App.app) (Hgeo : location_id l1 = location_id l2) :
  let a1 := App.research amb (with_location l1 w) a in
  let a2 := App.research amb (with_location l2 w) a in
  App.research_results a1 = App.research_results a2 /\
  sent (App.world a1) = sent (App.world a2) /\
  drawn (App.world a1) = drawn (App.world a2) /\
  files (App.world a1) = files (App.world a2) /\
  App.page a1 = App.page a2.
Proof.
  intros a1 a2. subst a1 a2. unfold App.research.
  cbn [with_location App.keywords_input App.location App.max_results App.include_adult].
  destruct (seed_keywords (App.keywords_input w)) as [|k ks];
    [repeat split; reflexivity|].
  cbv zeta. cbn [App.show App.kr_instance App.world].
  destruct (App.kr_instance a) as [kr|]; [|repeat split; reflexivity].
  destruct (search_keywords_by_geo_target amb kr (k :: ks) l1 l2 (App.max_results w)
              (App.include_adult w) (App.world a) Hgeo) as (Hout & Hsent & Hdrawn & Hfiles).
  cbv zeta in Hout, Hsent, Hdrawn, Hfiles.
  destruct (search_keywords amb kr (k :: ks) l1 (App.max_results w)
              (App.include_adult w) (App.world a)) as [o1 s1].
  destruct (search_keywords amb kr (k :: ks) l2 (App.max_results w)
              (App.include_adult w) (App.world a)) as [o2 s2].
  cbn [fst snd] in Hout, Hsent, Hdrawn, Hfiles. subst o2.
  destruct o1 as [e|results];
    cbn [App.show App.kr_instance App.world App.research_results App.page
         App.set_world App.set_research_results];
    repeat split; assumption || reflexivity.
Qed.

Lemma research_by_geo_target_witness :
  location_id "India" = location_id "United States" /\
  App.research_results (research_in "India") =
    App.research_results (research_in "United States") /\
  sent (App.world (research_in "India")) =
    sent (App.world (research_in "United States")) /\
  drawn (App.world (research_in "India")) =
    drawn (App.world (research_in "United States")) /\
  files (App.world (research_in "India")) =
    files (App.world (research_in "United States")) /\
  App.page (research_in "India") = App.page (research_in "United States").
Proof.
  split; [reflexivity|].
  apply (research_by_geo_target _ default_widgets "India" "United States").
  reflexivity.
Defined.

(** X19. For every choice the select box and the slider allow, the geo
    target of the research is that of the United States (for United States
    and for India), of the United Kingdom or of Canada, and after the
    research the session holds the results it held before or at most
    [max_results] records, 200 at most. *)
Theorem research_offered (amb : ambient) (w : App.widgets) (a : App.app)
    (Hw : App.offered w) :
  let a' := App.research amb w a in
  (location_id (App.location w) = "2840"%string <->
   App.location w = "United States"%string \/ App.location w = "India"%string) /\
  (location_id (App.location w) = "2826"%string <->
   App.location w = "United Kingdom"%string) /\
  (location_id (App.location w) = "2124"%string <->
   App.location w = "Canada"%string) /\
  (App.research_results a' = App.research_results a \/
   exists results,
     App.research_results a' = Some results /\
     Z.of_nat (length results) <= App.max_results w <= 200).
Proof.
  intros a'. destruct Hw as (Hloc & Hmax & _).
  split; [|split; [|split]].
  - cbn in Hloc. destruct Hloc as [<-|[<-|[<-|[<-|[]]]]]; cbn;
      (split; [intros H; try discriminate H; auto|
               intros [H|H]; try discriminate H; reflexivity]).
  - cbn in Hloc. destruct Hloc as [<-|[<-|[<-|[<-|[]]]]]; cbn;
      (split; intros H; try discriminate H; reflexivity).
  - cbn in Hloc. destruct Hloc as [<-|[<-|[<-|[<-|[]]]]]; cbn;
      (split; intros H; try discriminate H; reflexivity).
  - destruct (research_state amb w a) as (_ & _ & _ & _ & [Hsame|(results & Hres & Hlen)]).
    + left. exact Hsame.
    + right. exists results. split; [exact Hres|]. lia.
Qed.

Lemma research_offered_witness :
  App.offered default_widgets /\
  (App.research_results (research_in "United States") =
     App.research_results connected_app \/
   exists results,
     App.research_results (research_in "United States") = Some results /\
     Z.of_nat (length results) <= 50 <= 200).
Proof.
  assert (Hw : App.offered default_widgets).
  { split; [cbn; tauto|]. split; [cbn; lia|reflexivity]. }
  split; [exact Hw|].
  exact (proj2 (proj2 (proj2
           (research_offered
              (surroundings (env_with_ids "123-456-7890" "")
                            (inr (Ads.pager_of three_ideas Ads.Stop)))
              default_widgets connected_app Hw)))).
Defined.

(** ** The table and the texts of the dashboard *)

Lemma frame_columns_display (results : list KeywordMetrics) :
  frame_columns (map display_row results) =
  match results with [] => [] | _ => display_names end.
Proof.
  destruct results as [|r results]; [reflexivity|].
  unfold frame_columns. cbn [map fold_left].
  change (add_keys [] (map fst (display_row r))) with display_names.
  induction results as [|r' results IH]; [reflexivity|].
  cbn [map fold_left].
  change (add_keys display_names (map fst (display_row r'))) with display_names.
  exact IH.
Qed.

Lemma mkDataFrame_display (results : list KeywordMetrics) :
  mkDataFrame (map display_row results) =
  {| columns := match results with [] => [] | _ => display_names end;
     rows := map (fun r => row_of r ++ [avg_bid (low_bid_usd r) (high_bid_usd r)])
                 results |}.
Proof.
  unfold mkDataFrame. cbv zeta. rewrite frame_columns_display. f_equal.
  destruct results as [|r results]; [reflexivity|].
  rewrite map_map. apply map_ext. intros r'. reflexivity.
Qed.

Lemma column_map {A : Type} (f : A -> list pyval) (l : list A) (j : nat) :
  column (map f l) j = map (fun x => nth j (f x) PyNone) l.
Proof. unfold column. apply map_map. Qed.

(** The column of the search volumes holds no float; the column of the
    average bids holds numbers only, and a float when some high bid is
    greater than zero. *)
Lemma display_columns (results : list KeywordMetrics) :
  let rows := map (fun r => row_of r ++ [avg_bid (low_bid_usd r) (high_bid_usd r)])
                  results in
  float_column rows 1 = false /\
  float_column rows 6 = existsb (fun r => float_positive (high_bid_usd r)) results.
Proof.
  intros rows. subst rows. unfold float_column. rewrite !column_map. split.
  - apply andb_false_iff. right.
    induction results as [|r results IH]; [reflexivity|exact IH].
  - assert (Hall : forallb is_number
                     (map (fun r => nth 6 (row_of r ++
                                     [avg_bid (low_bid_usd r) (high_bid_usd r)]) PyNone)
                          results) = true).
    { induction results as [|r results IH]; [reflexivity|].
      cbn [map forallb]. rewrite IH.
      change (nth 6 (row_of r ++ [avg_bid (low_bid_usd r) (high_bid_usd r)]) PyNone)
        with (avg_bid (low_bid_usd r) (high_bid_usd r)).
      unfold avg_bid. destruct (float_positive (high_bid_usd r)); reflexivity. }
    rewrite Hall. cbn [andb]. clear Hall.
    induction results as [|r results IH]; [reflexivity|].
    cbn [map existsb]. rewrite IH.
    change (nth 6 (row_of r ++ [avg_bid (low_bid_usd r) (high_bid_usd r)]) PyNone)
      with (avg_bid (low_bid_usd r) (high_bid_usd r)).
    unfold avg_bid. destruct (float_positive (high_bid_usd r)); reflexivity.
Qed.

(** X16. The table the dashboard shows has one row per record, in the order
    of the records; a row holds the six values of the export's row followed
    by the average bid, under the seven display names (no column at all for
    an empty list). The average bid of a record whose high bid is greater
    than zero is the float [(low + high) / 2]. For a record whose high bid
    is not greater than zero (a zero, a negative or an undefined one),
    whatever its low bid, it is zero: the float [0.0] when some record of
    the table has a high bid greater than zero, so that the column is a
    float column, and the integer [0] when none has. *)
Theorem keyword_dataframe_rows (results : list KeywordMetrics) :
  let df := create_keyword_dataframe results in
  let float_bids := existsb (fun r => float_positive (high_bid_usd r)) results in
  columns df = match results with [] => [] | _ => display_names end /\
  rows df =
    map (fun r =>
           row_of r ++
           [if float_positive (high_bid_usd r)
            then PyFloat (SFdiv prec emax
                            (SFadd prec emax (low_bid_usd r) (high_bid_usd r))
                            float_two)
            else if float_bids then PyFloat float_zero else PyInt 0])
        results /\
  length (rows df) = length results /\
  (forall high : float,
     float_positive high = false <->
     high = S754_nan \/ float_is_zero high = true \/ sign_bit high = true) /\
  rows (create_keyword_dataframe
          [sample_metrics "a" 10;
           {| keyword := "b"; search_volume := 20; competition := "LOW";
              competition_index := float_zero; low_bid_usd := float_one;
              high_bid_usd := float_one |}]) =
    [[PyStr "a"; PyInt 10; PyStr "LOW"; PyFloat float_zero; PyFloat float_zero;
      PyFloat float_zero; PyFloat float_zero];
     [PyStr "b"; PyInt 20; PyStr "LOW"; PyFloat float_zero; PyFloat float_one;
      PyFloat float_one; PyFloat float_one]] /\
  rows (create_keyword_dataframe [sample_metrics "a" 10]) =
    [[PyStr "a"; PyInt 10; PyStr "LOW"; PyFloat float_zero; PyFloat float_zero;
      PyFloat float_zero; PyInt 0]].
Proof.
  intros df float_bids. subst df. unfold create_keyword_dataframe.
  rewrite mkDataFrame_display. unfold infer_dtypes. cbn [columns rows].
  split; [reflexivity|].
  destruct (display_columns results) as [Hvolume Havg]. cbv zeta in Hvolume, Havg.
  fold float_bids in Havg.
  set (flag := float_column
                 (map (fun r => row_of r ++
                                [avg_bid (low_bid_usd r) (high_bid_usd r)]) results)) in *.
  assert (Hrows :
    map (imap (fun j v => if flag j then to_float64 v else v))
        (map (fun r => row_of r ++ [avg_bid (low_bid_usd r) (high_bid_usd r)]) results) =
    map (fun r =>
           row_of r ++
           [if float_positive (high_bid_usd r)
            then PyFloat (SFdiv prec emax
                            (SFadd prec emax (low_bid_usd r) (high_bid_usd r))
                            float_two)
            else if float_bids then PyFloat float_zero else PyInt 0])
        results).
  { rewrite map_map. apply map_ext. intros r.
    unfold row_of, model_dump. cbn [map snd app imap]. unfold compose.
    rewrite Hvolume, Havg. clearbody flag.
    destruct (flag 0%nat), (flag 2%nat), (flag 3%nat), (flag 4%nat), (flag 5%nat);
      cbn [to_float64]; unfold avg_bid;
      destruct (float_positive (high_bid_usd r)); destruct float_bids;
      reflexivity. }
  rewrite Hrows. split; [reflexivity|]. split; [apply length_map|].
  split; [|split; reflexivity].
  intros high. unfold float_positive, SFltb.
  destruct high as [s| s| |s m e]; try destruct s; cbn;
    (split; [intros H; try discriminate H; auto
            |intros [H|[H|H]]; try discriminate H; reflexivity]).
Qed.

Lemma is_digit_not_comma (c : ascii) : is_digit c = true -> not_comma c = true.
Proof.
  unfold is_digit, not_comma. intros H.
  destruct (Ascii.eqb_spec c ",") as [->|]; [discriminate H|reflexivity].
Qed.

Lemma string_of_uint_digits (d : Decimal.uint) :
  Forall (fun c => is_digit c = true)
         (list_ascii_of_string (DecimalString.NilEmpty.string_of_uint d)).
Proof.
  induction d; cbn [DecimalString.NilEmpty.string_of_uint list_ascii_of_string];
    constructor; try reflexivity; exact IHd.
Qed.

Lemma to_uint_nonnil (n : N) : N.to_uint n <> Decimal.Nil.
Proof.
  destruct n as [|p]; [discriminate|]. apply DecimalPos.Unsigned.to_uint_nonnil.
Qed.

Lemma digits_all_digits (n : N) :
  Forall (fun c => is_digit c = true) (list_ascii_of_string (digits n)).
Proof.
  unfold digits, DecimalString.NilZero.string_of_uint.
  destruct (N.to_uint n) eqn:Hn; try (rewrite <- Hn; apply string_of_uint_digits).
  destruct (to_uint_nonnil n Hn).
Qed.

Lemma digits_nonempty (n : N) : list_ascii_of_string (digits n) <> [].
Proof.
  unfold digits, DecimalString.NilZero.string_of_uint.
  destruct (N.to_uint n); discriminate.
Qed.

(** The separators of [commas]: where they stand, how many they are, and
    that taking them out gives the digits back. *)
Lemma commas_spec (n : nat) :
  forall ds : list ascii,
    (length ds <= n)%nat ->
    Forall (fun c => not_comma c = true) ds ->
    List.filter not_comma (commas ds) = ds /\
    length (commas ds) = (length ds + (length ds - 1) / 3)%nat /\
    forall i, (i < length (commas ds))%nat ->
              (nth i (commas ds) "0"%char = ","%char <-> (i mod 4 = 3)%nat).
Proof.
  assert (Hnc : forall c, not_comma c = true -> c <> ","%char).
  { intros c H ->. discriminate H. }
  induction n as [|n IH]; intros ds Hlen Hds.
  { destruct ds; [|cbn in Hlen; lia]. cbn. split; [reflexivity|]. split; [reflexivity|].
    intros i Hi. lia. }
  destruct ds as [|a [|b [|c [|d rest]]]].
  - cbn. split; [reflexivity|]. split; [reflexivity|]. intros i Hi. lia.
  - inversion Hds as [|? ? Ha _]; subst. cbn [commas List.filter length].
    rewrite Ha. split; [reflexivity|]. split; [reflexivity|].
    intros [|i] Hi; [|cbn in Hi; lia]. cbn. split; [intros H; destruct (Hnc a Ha H)|lia].
  - inversion Hds as [|? ? Ha Hds1]; subst. inversion Hds1 as [|? ? Hb _]; subst.
    cbn [commas List.filter length]. rewrite Ha, Hb.
    split; [reflexivity|]. split; [reflexivity|].
    intros [|[|i]] Hi; [| |cbn in Hi; lia]; cbn;
      (split; [intros H; first [destruct (Hnc a Ha H)|destruct (Hnc b Hb H)]|
               intros H; discriminate H]).
  - inversion Hds as [|? ? Ha Hds1]; subst. inversion Hds1 as [|? ? Hb Hds2]; subst.
    inversion Hds2 as [|? ? Hc _]; subst.
    cbn [commas List.filter length]. rewrite Ha, Hb, Hc.
    split; [reflexivity|]. split; [reflexivity|].
    intros [|[|[|i]]] Hi; [| | |cbn in Hi; lia]; cbn;
      (split; [intros H; first [destruct (Hnc a Ha H)|destruct (Hnc b Hb H)
                               |destruct (Hnc c Hc H)]|
               intros H; discriminate H]).
  - inversion Hds as [|? ? Ha Hds1]; subst. inversion Hds1 as [|? ? Hb Hds2]; subst.
    inversion Hds2 as [|? ? Hc Hds3]; subst.
    destruct (IH (d :: rest)) as (Hf & Hl & Hn); [cbn [length] in *; lia|exact Hds3|].
    change (commas (a :: b :: c :: d :: rest))
      with (a :: b :: c :: ","%char :: commas (d :: rest)).
    cbn [List.filter]. rewrite Ha, Hb, Hc.
    change (not_comma ",") with false. cbv iota. rewrite Hf.
    split; [reflexivity|]. split.
    + cbn [length] in *. rewrite Hl.
      replace (S (S (S (S (length rest)))) - 1)%nat with (1 * 3 + (S (length rest) - 1))%nat
        by lia.
      rewrite Nat.div_add_l by lia. lia.
    + intros i Hi. cbn [length] in Hi.
      destruct i as [|[|[|[|i]]]].
      * cbn. split; [intros H; destruct (Hnc a Ha H)|intros H; discriminate H].
      * cbn. split; [intros H; destruct (Hnc b Hb H)|intros H; discriminate H].
      * cbn. split; [intros H; destruct (Hnc c Hc H)|intros H; discriminate H].
      * cbn. split; reflexivity.
      * change (nth (S (S (S (S i)))) (a :: b :: c :: ","%char :: commas (d :: rest)) "0"%char)
          with (nth i (commas (d :: rest)) "0"%char).
        rewrite (Hn i) by lia.
        replace (S (S (S (S i)))) with (i + 1 * 4)%nat by lia.
        rewrite Nat.Div0.mod_add. reflexivity.
Qed.

(** X17. A number written by [format_number] reads back as the number once
    the separators are taken out. In what is written for a number that is
    not negative, counted from the right, every fourth character and no
    other is a separator, every other one is a digit, and the separators
    are one for every three digits that have a digit before them; a negative
    number is written as a minus sign before its absolute value. *)
Theorem format_number_separators (value : Z) :
  let body := rev (list_ascii_of_string (format_number (Z.abs value))) in
  let n := length (list_ascii_of_string (digits (Z.abs_N value))) in
  read_number (format_number value) = Some value /\
  format_number value =
    (if value <? 0 then "-" else "") +:+ format_number (Z.abs value) /\
  (1 <= n)%nat /\
  length body = (n + (n - 1) / 3)%nat /\
  (forall i, (i < length body)%nat ->
             (nth i body "0"%char = ","%char <-> (i mod 4 = 3)%nat) /\
             (nth i body "0"%char <> ","%char -> is_digit (nth i body "0"%char) = true)).
Proof.
  intros body n.
  assert (Hds : Forall (fun c => is_digit c = true)
                       (list_ascii_of_string (digits (Z.abs_N value))))
    by apply digits_all_digits.
  assert (Hnc : Forall (fun c => not_comma c = true)
                       (rev (list_ascii_of_string (digits (Z.abs_N value))))).
  { apply Forall_rev. eapply List.Forall_impl; [|exact Hds].
    intros c. apply is_digit_not_comma. }
  destruct (commas_spec _ _ (le_n _) Hnc) as (Hf & Hl & Hn).
  assert (Habs : format_number (Z.abs value) =
                 string_of_list_ascii
                   (rev (commas (rev (list_ascii_of_string (digits (Z.abs_N value))))))).
  { unfold format_number. destruct (Z.ltb_spec (Z.abs value) 0) as [H|_]; [lia|].
    replace (Z.abs_N (Z.abs value)) with (Z.abs_N value) by (destruct value; reflexivity).
    reflexivity. }
  assert (Hbody : body = commas (rev (list_ascii_of_string (digits (Z.abs_N value))))).
  { subst body. rewrite Habs, list_ascii_of_string_of_list_ascii, rev_involutive.
    reflexivity. }
  split; [|split; [|split; [|split]]].
  - unfold read_number, format_number.
    assert (Hfilter :
      List.filter (fun c => negb (Ascii.eqb c ","))
        (list_ascii_of_string
           ((if value <? 0 then "-" else "") +:+
            string_of_list_ascii
              (rev (commas (rev (list_ascii_of_string (digits (Z.abs_N value)))))))) =
      list_ascii_of_string (DecimalString.NilZero.string_of_int (Z.to_int value))).
    { assert (Hplain :
        List.filter not_comma
          (rev (commas (rev (list_ascii_of_string (digits (Z.abs_N value)))))) =
        list_ascii_of_string (digits (Z.abs_N value))).
      { rewrite List.filter_rev, Hf, rev_involutive. reflexivity. }
      destruct value as [|p|p].
      - cbn [Z.ltb Z.compare]. change (EmptyString +:+ ?x) with x.
        rewrite list_ascii_of_string_of_list_ascii.
        fold not_comma. rewrite Hplain. reflexivity.
      - cbn [Z.ltb Z.compare]. change (EmptyString +:+ ?x) with x.
        rewrite list_ascii_of_string_of_list_ascii.
        fold not_comma. rewrite Hplain. unfold digits. cbn [Z.abs_N Z.to_int N.to_uint].
        cbn [DecimalString.NilZero.string_of_int]. reflexivity.
      - cbn [Z.ltb Z.compare].
        change ("-" +:+ ?x)%string with (String "-" x).
        cbn [list_ascii_of_string List.filter].
        change (negb (Ascii.eqb "-" ",")) with true. cbv iota.
        rewrite list_ascii_of_string_of_list_ascii.
        fold not_comma. rewrite Hplain. unfold digits. cbn [Z.abs_N Z.to_int N.to_uint].
        cbn [DecimalString.NilZero.string_of_int list_ascii_of_string]. reflexivity. }
    rewrite Hfilter, string_of_list_ascii_of_string.
    rewrite DecimalString.NilZero.isi.
    + cbn [option_map]. rewrite DecimalZ.of_to. reflexivity.
    + destruct value as [|p|p]; cbn [Z.to_int]; try discriminate.
      intros [= H]. exact (DecimalPos.Unsigned.to_uint_nonnil p H).
    + destruct value as [|p|p]; cbn [Z.to_int]; try discriminate.
      intros [= H]. exact (DecimalPos.Unsigned.to_uint_nonnil p H).
  - rewrite Habs. reflexivity.
  - subst n. pose proof (digits_nonempty (Z.abs_N value)) as Hne.
    destruct (list_ascii_of_string (digits (Z.abs_N value))); [congruence|cbn; lia].
  - rewrite Hbody, Hl, length_rev. reflexivity.
  - intros i Hi. rewrite Hbody in Hi |- *. split; [apply Hn, Hi|].
    intros Hne.
    assert (Hall : Forall (fun c => c = ","%char \/ is_digit c = true)
                     (commas (rev (list_ascii_of_string (digits (Z.abs_N value)))))).
    { assert (Hrev : Forall (fun c => is_digit c = true)
                       (rev (list_ascii_of_string (digits (Z.abs_N value)))))
        by (apply Forall_rev, Hds).
      clear -Hrev.
      remember (length (rev (list_ascii_of_string (digits (Z.abs_N value))))) as m eqn:Hm.
      assert (Hle : (length (rev (list_ascii_of_string (digits (Z.abs_N value)))) <= m)%nat)
        by lia.
      clear Hm. revert Hrev Hle.
      generalize (rev (list_ascii_of_string (digits (Z.abs_N value)))). clear.
      induction m as [|m IH]; intros ds Hds Hle.
      - destruct ds; [constructor|cbn in Hle; lia].
      - destruct ds as [|a [|b [|c [|d rest]]]];
          try (cbn [commas]; eapply List.Forall_impl; [|exact Hds]; cbn; tauto).
        change (commas (a :: b :: c :: d :: rest))
          with (a :: b :: c :: ","%char :: commas (d :: rest)).
        inversion Hds as [|? ? Ha Hds1]; subst. inversion Hds1 as [|? ? Hb Hds2]; subst.
        inversion Hds2 as [|? ? Hc Hds3]; subst.
        repeat (constructor; [tauto|]). apply IH; [exact Hds3|cbn [length] in *; lia]. }
    rewrite List.Forall_forall in Hall.
    destruct (Hall _ (nth_In _ "0"%char Hi)) as [H|H]; [contradiction|exact H].
Qed.

Lemma round_half_even_near (num den : Z) :
  0 < den ->
  let n := round_half_even num den in
  2 * Z.abs (n * den - num) <= den /\
  (2 * Z.abs (n * den - num) = den -> Z.even n = true).
Proof.
  intros Hden n. subst n. unfold round_half_even.
  pose proof (Z.div_mod num den ltac:(lia)) as Hdm.
  pose proof (Z.mod_pos_bound num den Hden) as Hr.
  set (q := num / den) in *. set (r := num mod den) in *.
  destruct (Z.ltb_spec (2 * r) den) as [H1|H1]; [split; nia|].
  destruct (Z.ltb_spec den (2 * r)) as [H2|H2]; [split; nia|].
  destruct (Z.even q) eqn:Hq; [split; [nia|intros _; exact Hq]|].
  split; [nia|]. intros _. rewrite Z.even_add, Hq. reflexivity.
Qed.

Lemma hundredths_near (n num : Z) (d : positive) :
  2 * Z.abs (n * Z.pos d - 100 * num) <= Z.pos d ->
  (inject_Z n / 100 - (1 # 200) <= num # d)%Q /\
  (num # d <= inject_Z n / 100 + (1 # 200))%Q.
Proof.
  intros H. unfold Qle, Qdiv, Qminus, Qplus, Qopp, Qmult, Qinv, inject_Z.
  cbn [Qnum Qden]. split; lia.
Qed.

Lemma round_half_even_nonneg (num den : Z) :
  0 <= num -> 0 < den -> 0 <= round_half_even num den.
Proof.
  intros Hnum Hden. unfold round_half_even.
  pose proof (Z.div_pos num den Hnum Hden).
  destruct (2 * (num mod den) <? den); [lia|].
  destruct (den <? 2 * (num mod den)); [lia|].
  destruct (Z.even (num / den)); lia.
Qed.

Lemma hundredths_tie (n num : Z) (d : positive) :
  ((num # d) * 100 - inject_Z n == 1 # 2)%Q \/
  (inject_Z n - (num # d) * 100 == 1 # 2)%Q ->
  2 * Z.abs (n * Z.pos d - 100 * num) = Z.pos d.
Proof.
  unfold Qeq, Qdiv, Qminus, Qplus, Qopp, Qmult, Qinv, inject_Z.
  cbn [Qnum Qden]. lia.
Qed.

(** What a finite float with mantissa [m] and exponent [e] stands for,
    leaving its sign out. *)
Lemma float_value_finite (s : bool) (m : positive) (e : Z) :
  exists (q : Q) (num : Z) (d : positive),
    float_value (S754_finite s m e) = Some q /\
    ((if s then - q else q) == num # d)%Q /\
    0 <= num /\
    (0 <= e -> num = Z.pos m * 2 ^ e /\ d = 1%positive) /\
    (e < 0 -> num = Z.pos m /\ Z.pos d = 2 ^ (- e)).
Proof.
  cbn [float_value]. cbv zeta.
  destruct (Z.leb_spec 0 e) as [He|He].
  - eexists _, (Z.pos m * 2 ^ e), 1%positive. split; [reflexivity|].
    split; [|split; [pose proof (Z.pow_nonneg 2 e); lia|split; [tauto|lia]]].
    destruct s; rewrite Qred_correct; [apply Qopp_involutive|reflexivity].
  - eexists _, (Z.pos m), (Pos.pow 2 (Z.to_pos (- e))). split; [reflexivity|].
    split; [|split; [lia|split; [lia|]]].
    + destruct s; rewrite Qred_correct; [apply Qopp_involutive|reflexivity].
    + intros _. split; [reflexivity|].
      rewrite Pos2Z.inj_pow, Z2Pos.id by lia. reflexivity.
Qed.

(** X18. The amount [format_currency] shows for a finite float that is not
    zero is the value rounded to the nearest hundredth: a dollar sign, a
    minus sign for a negative value, and the number [n] of hundredths written
    with two decimals, where [n] differs from a hundred times the magnitude
    of the value by a half at most and is even when it differs by exactly a
    half. Both zeros are shown as [$0.00], an undefined value as [$nan], an
    infinite one as [$inf] or [$-inf]. *)
Theorem format_currency_rounds (value : float) :
  match value with
  | S754_zero _ => format_currency value = "$0.00"%string
  | S754_nan => format_currency value = "$nan"%string
  | S754_infinity s => format_currency value = (if s then "$-inf" else "$inf")%string
  | S754_finite s m e =>
      exists (n : Z) (q : Q),
        format_currency value = "$" +:+ (if s then "-" else "") +:+ fixed2 n /\
        float_value value = Some q /\
        0 <= n /\
        let magnitude := (if s then - q else q)%Q in
        (inject_Z n / 100 - (1 # 200) <= magnitude)%Q /\
        (magnitude <= inject_Z n / 100 + (1 # 200))%Q /\
        ((magnitude * 100 - inject_Z n == 1 # 2)%Q \/
         (inject_Z n - magnitude * 100 == 1 # 2)%Q -> Z.even n = true)
  end.
Proof.
  destruct value as [s|s| |s m e]; try reflexivity; [destruct s; reflexivity|].
  destruct (float_value_finite s m e) as (q & num & d & Hq & Hmag & Hnum & Hpos & Hneg).
  exists (hundredths m e), q. split; [reflexivity|]. split; [exact Hq|].
  assert (Hnear : 0 <= hundredths m e /\
                  2 * Z.abs (hundredths m e * Z.pos d - 100 * num) <= Z.pos d /\
                  (2 * Z.abs (hundredths m e * Z.pos d - 100 * num) = Z.pos d ->
                   Z.even (hundredths m e) = true)).
  { unfold hundredths. destruct (Z.leb_spec 0 e) as [He|He].
    - destruct (Hpos He) as [-> ->]. split; [lia|]. split; lia.
    - destruct (Hneg He) as [-> Hd]. rewrite Hd.
      assert (Hden : 0 < 2 ^ (- e)) by (apply Z.pow_pos_nonneg; lia).
      split; [apply round_half_even_nonneg; lia|].
      pose proof (round_half_even_near (Z.pos m * 100) (2 ^ (- e)) Hden) as Hr.
      cbv zeta in Hr. replace (100 * Z.pos m) with (Z.pos m * 100) by lia. exact Hr. }
  destruct Hnear as (Hn & Hle & Htie). split; [exact Hn|]. cbv zeta.
  destruct (hundredths_near _ _ _ Hle) as [Hlo Hhi].
  split; [rewrite Hmag; exact Hlo|]. split; [rewrite Hmag; exact Hhi|].
  intros H. apply Htie, hundredths_tie. rewrite <- Hmag. exact H.
Qed.
